(** * runpod-worker-comfy: the job handler of [src/rp_handler.py]

    A shallow embedding of the handler pipeline (input validation, workflow
    resolution, backend probe, image injection / upload, submission,
    completion polling, output resolution) and the properties of it that the
    specification states.

    Conventions of the embedding.
    - Python / JSON values are the inductive type [value]; a [dict] is an
      association list in insertion order (iteration order matters for the
      "first matching node" policy), looked up by first match; JSON numbers
      are integers.
    - An expression that can raise evaluates in [res]; code that talks to the
      outside world (file system, backend HTTP API, clock) evaluates in the
      monad [M], which collects the trace of external calls.
    - The outside world and the library functions the handler calls
      ([json.loads], [base64.b64decode], ...) are the fields of [env].
    - [time.time()] and [os.path.getmtime] return IEEE binary64 numbers;
      the world gives them as rationals, and the one arithmetic operation the
      handler does on them, the subtraction of line 293, is the exact
      difference rounded to binary64 ([float_sub]).
    - Logging and [print] are not modelled.
    - The texts of interpreter-raised exceptions follow CPython 3.11. *)

From Stdlib Require Import List String Ascii ZArith QArith Bool Lia Lqa.
From Stdlib Require Import Qpower Qround.
From Stdlib Require Import DecimalString.
Import ListNotations.

Local Open Scope string_scope.
Local Open Scope Z_scope.

(** ** Python values *)

#[local] Set Warnings "-register-all".

Inductive value : Type :=
| VNone
| VBool (b : bool)
| VInt (z : Z)
| VStr (s : string)
| VList (l : list value)
| VDict (d : list (string * value)).

Inductive exn_kind : Type :=
| AttributeError | TypeError | KeyError | IndexError | ValueError
| JSONDecodeError | RequestException | OSError | URLError | BinasciiError.

(** An exception: its class and [str(e)]. *)
Record exn : Type := Exn { exn_kind_of : exn_kind; exn_str : string }.

Inductive res (A : Type) : Type :=
| Ok (a : A)
| Raise (e : exn).
Arguments Ok {A} a.
Arguments Raise {A} e.

Definition rbind {A B} (r : res A) (f : A -> res B) : res B :=
  match r with
  | Ok a => f a
  | Raise e => Raise e
  end.

Declare Scope res_scope.
Delimit Scope res_scope with res.
Notation "x <- r ;; k" := (rbind r (fun x => k))
  (at level 61, r at next level, right associativity) : res_scope.

(** ** Strings *)

(** [s.startswith(p)] *)
Fixpoint startswith (s p : string) {struct p} : bool :=
  match p with
  | EmptyString => true
  | String a p' =>
      match s with
      | EmptyString => false
      | String b s' => Ascii.eqb a b && startswith s' p'
      end
  end.

Fixpoint string_drop (n : nat) (s : string) : string :=
  match n, s with
  | O, _ => s
  | S n', EmptyString => EmptyString
  | S n', String _ s' => string_drop n' s'
  end.

Definition endswith (s p : string) : bool :=
  String.eqb (string_drop (String.length s - String.length p) s) p
  && (String.length p <=? String.length s)%nat.

(** [s.find(",")]: index of the first occurrence of the character, if any. *)
Fixpoint find_char (c : ascii) (s : string) : option nat :=
  match s with
  | EmptyString => None
  | String a s' =>
      if Ascii.eqb a c then Some O
      else match find_char c s' with
           | Some i => Some (S i)
           | None => None
           end
  end.

(** [p in s] for two strings. *)
Fixpoint contains (s p : string) : bool :=
  startswith s p
  || match s with
     | EmptyString => false
     | String _ s' => contains s' p
     end.

Definition type_name (v : value) : string :=
  match v with
  | VNone => "NoneType"
  | VBool _ => "bool"
  | VInt _ => "int"
  | VStr _ => "str"
  | VList _ => "list"
  | VDict _ => "dict"
  end.

Definition attribute_error {A} (v : value) (attr : string) : res A :=
  Raise (Exn AttributeError
           ("'" ++ type_name v ++ "' object has no attribute '" ++ attr ++ "'")).

Definition type_error {A} (msg : string) : res A := Raise (Exn TypeError msg).

(** ** Truth value, equality, containers *)

Definition truthy (v : value) : bool :=
  match v with
  | VNone => false
  | VBool b => b
  | VInt z => negb (z =? 0)
  | VStr s => negb (String.eqb s "")
  | VList l => match l with [] => false | _ => true end
  | VDict d => match d with [] => false | _ => true end
  end.

Fixpoint dict_get (d : list (string * value)) (k : string) : option value :=
  match d with
  | [] => None
  | (k', v) :: d' => if String.eqb k' k then Some v else dict_get d' k
  end.

Definition dict_has (d : list (string * value)) (k : string) : bool :=
  match dict_get d k with Some _ => true | None => false end.

(** [d[k] = v]: replaces the value in place when the key exists, appends the
    key otherwise. *)
Fixpoint dict_set (d : list (string * value)) (k : string) (v : value)
  : list (string * value) :=
  match d with
  | [] => [(k, v)]
  | (k', v') :: d' =>
      if String.eqb k' k then (k', v) :: d' else (k', v') :: dict_set d' k v
  end.

Definition bool_to_Z (b : bool) : Z := if b then 1 else 0.

(** [a == b]; a [bool] compares as the integer it is, dicts compare as
    unordered maps. *)
Fixpoint py_eqb (a b : value) {struct a} : bool :=
  match a, b with
  | VNone, VNone => true
  | VBool x, VBool y => Bool.eqb x y
  | VBool x, VInt y => bool_to_Z x =? y
  | VInt x, VBool y => x =? bool_to_Z y
  | VInt x, VInt y => x =? y
  | VStr x, VStr y => String.eqb x y
  | VList x, VList y =>
      (fix go (x y : list value) {struct x} : bool :=
         match x, y with
         | [], [] => true
         | a' :: x', b' :: y' => py_eqb a' b' && go x' y'
         | _, _ => false
         end) x y
  | VDict x, VDict y =>
      (List.length x =? List.length y)%nat
      && (fix go (x : list (string * value)) {struct x} : bool :=
            match x with
            | [] => true
            | (k, v) :: x' =>
                match dict_get y k with
                | Some v' => py_eqb v v'
                | None => false
                end && go x'
            end) x
  | _, _ => false
  end.

Definition hashable (v : value) : bool :=
  match v with
  | VList _ | VDict _ => false
  | _ => true
  end.

(** [needle in container] *)
Definition py_contains (needle container : value) : res bool :=
  match container with
  | VDict d =>
      if hashable needle then
        Ok (match needle with
            | VStr k => dict_has d k
            | _ => false
            end)
      else type_error ("unhashable type: '" ++ type_name needle ++ "'")
  | VList l => Ok (existsb (py_eqb needle) l)
  | VStr s =>
      match needle with
      | VStr p => Ok (contains s p)
      | _ => type_error ("'in <string>' requires string as left operand, not "
                           ++ type_name needle)
      end
  | _ => type_error ("argument of type '" ++ type_name container
                       ++ "' is not iterable")
  end.

Definition repr_key (v : value) : string :=
  match v with
  | VStr s => "'" ++ s ++ "'"
  | VInt z => NilZero.string_of_int (Z.to_int z)
  | VBool true => "True"
  | VBool false => "False"
  | _ => "None"
  end.

Definition index_list (l : list value) (i : Z) : res value :=
  let n := Z.of_nat (List.length l) in
  let j := if i <? 0 then i + n else i in
  if (0 <=? j) && (j <? n) then
    match nth_error l (Z.to_nat j) with
    | Some v => Ok v
    | None => Raise (Exn IndexError "list index out of range")
    end
  else Raise (Exn IndexError "list index out of range").

Definition index_string (s : string) (i : Z) : res value :=
  let n := Z.of_nat (String.length s) in
  let j := if i <? 0 then i + n else i in
  if (0 <=? j) && (j <? n) then
    Ok (VStr (String.substring (Z.to_nat j) 1 s))
  else Raise (Exn IndexError "string index out of range").

(** [obj[key]] *)
Definition py_getitem (obj key : value) : res value :=
  match obj with
  | VDict d =>
      if hashable key then
        match key with
        | VStr k =>
            match dict_get d k with
            | Some v => Ok v
            | None => Raise (Exn KeyError (repr_key key))
            end
        | _ => Raise (Exn KeyError (repr_key key))
        end
      else type_error ("unhashable type: '" ++ type_name key ++ "'")
  | VList l =>
      match key with
      | VInt i => index_list l i
      | VBool b => index_list l (bool_to_Z b)
      | _ => type_error ("list indices must be integers or slices, not "
                           ++ type_name key)
      end
  | VStr s =>
      match key with
      | VInt i => index_string s i
      | VBool b => index_string s (bool_to_Z b)
      | _ => type_error ("string indices must be integers, not '"
                           ++ type_name key ++ "'")
      end
  | _ => type_error ("'" ++ type_name obj ++ "' object is not subscriptable")
  end.

(** [obj[key] = v] with a string key; the updated object. *)
Definition py_setitem (obj : value) (key : string) (v : value) : res value :=
  match obj with
  | VDict d => Ok (VDict (dict_set d key v))
  | VList _ =>
      type_error "list indices must be integers or slices, not str"
  | _ => type_error ("'" ++ type_name obj
                       ++ "' object does not support item assignment")
  end.

(** [obj.get(key, default)] *)
Definition py_get_default (obj : value) (key : string) (default : value)
  : res value :=
  match obj with
  | VDict d =>
      Ok (match dict_get d key with Some v => v | None => default end)
  | _ => attribute_error obj "get"
  end.

(** [obj.get(key)] *)
Definition py_get (obj : value) (key : string) : res value :=
  py_get_default obj key VNone.

(** [obj.items()] *)
Definition py_items (obj : value) : res (list (string * value)) :=
  match obj with
  | VDict d => Ok d
  | _ => attribute_error obj "items"
  end.

Fixpoint chars (s : string) : list value :=
  match s with
  | EmptyString => []
  | String c s' => VStr (String c EmptyString) :: chars s'
  end.

(** The elements a [for x in obj] loop visits. *)
Definition py_iter (obj : value) : res (list value) :=
  match obj with
  | VList l => Ok l
  | VDict d => Ok (map (fun kv => VStr (fst kv)) d)
  | VStr s => Ok (chars s)
  | _ => type_error ("'" ++ type_name obj ++ "' object is not iterable")
  end.

(** [posixpath.join] of two components. *)
Definition join2 (path b : string) : string :=
  if startswith b "/" then b
  else if String.eqb path "" || endswith path "/" then path ++ b
  else path ++ "/" ++ b.

(** [os.path.join(a, b)] where the second component is any value. *)
Definition path_join (a : string) (b : value) : res string :=
  match b with
  | VStr s => Ok (join2 a s)
  | _ => type_error ("join() argument must be str, bytes, or os.PathLike "
                       ++ "object, not '" ++ type_name b ++ "'")
  end.

(** The data-URL handling that [upload_images] (lines 176-181) and [handler]
    (lines 357-362) both carry inline:
    [if s.startswith("data:"): i = s.find(","); if i != -1: s = s[i + 1:]]. *)
Definition strip_data_url (image_data : string) : string :=
  if startswith image_data "data:" then
    match find_char "," image_data with
    | Some base64_prefix_end => string_drop (S base64_prefix_end) image_data
    | None => image_data
    end
  else image_data.

(** The same on a value: [.startswith] exists on strings only. *)
Definition py_strip_data_url (image_data : value) : res string :=
  match image_data with
  | VStr s => Ok (strip_data_url s)
  | _ => attribute_error image_data "startswith"
  end.

(** ** The outside world *)

Definition bytes : Type := list Byte.byte.

(** What [requests.get] gives the probe: a response with its status code, or
    a [requests.RequestException] (the class [requests] raises for every
    transport failure). *)
Inductive probe_response : Type :=
| ProbeStatus (status_code : Z)
| ProbeTransportError (msg : string).

Record env : Type := {
  (* library functions *)
  json_loads : string -> option value;       (* None: JSONDecodeError *)
  b64decode : string -> res bytes;
  b64encode : bytes -> string;
  py_repr : value -> string;                 (* str() of a non-string value *)
  (* configuration read from the process environment *)
  COMFY_POLLING_INTERVAL_MS : Z;
  COMFY_POLLING_MAX_RETRIES : Z;
  REFRESH_WORKER : bool;
  COMFY_OUTPUT_PATH : string;
  BUCKET_ENDPOINT_URL : option string;
  (* file system and clock; a time is the float that the call returns, in
     seconds, written as a rational *)
  path_exists : string -> bool;
  open_json : string -> res value;           (* open(path) and json.load *)
  walk : string -> list (string * list string * list string);
  getmtime : string -> res Q;
  read_file : string -> res bytes;
  time_now : Q;
  (* backend HTTP API; [get_root] and [get_history_response] take the number
     of earlier calls, [post_upload] the position of the image in the list *)
  get_root : nat -> probe_response;
  post_upload : nat -> value -> bytes -> res (Z * string);
  post_prompt : value -> res value;
  get_history_response : nat -> value -> res value;
  (* object storage *)
  rp_upload_image : value -> string -> res string
}.

Definition COMFY_API_AVAILABLE_INTERVAL_MS : Z := 50.
Definition COMFY_API_AVAILABLE_MAX_RETRIES : Z := 500.
Definition COMFY_HOST : string := "127.0.0.1:8188".
Definition WORKFLOW_DIR : string := "/runpod-volume/workflows".

(** External calls, in the order the handler makes them. *)
Inductive event : Type :=
| EvPathExists (path : string)
| EvOpenJson (path : string)
| EvGetRoot (url : string)
| EvSleep (ms : Z)
| EvPostUpload (name : value) (blob : bytes)
| EvPostPrompt (body : value)
| EvGetHistory (prompt_id : value)
| EvTime
| EvWalk (root : string)
| EvGetmtime (path : string)
| EvReadFile (path : string)
| EvS3Upload (job_id : value) (path : string).

(** ** The monad of handler code: a result or an exception, and the trace *)

Definition M (A : Type) : Type := (res A * list event)%type.

Definition ret {A} (a : A) : M A := (Ok a, []).

Definition bind {A B} (m : M A) (f : A -> M B) : M B :=
  match m with
  | (Ok a, t) => let (r, t') := f a in (r, (t ++ t')%list)
  | (Raise e, t) => (Raise e, t)
  end.

Definition lift {A} (r : res A) : M A := (r, []).

Definition emit (e : event) : M unit := (Ok tt, [e]).

(** [try: m except Exception as e: h e] *)
Definition try_except {A} (m : M A) (h : exn -> M A) : M A :=
  match m with
  | (Ok a, t) => (Ok a, t)
  | (Raise e, t) => let (r, t') := h e in (r, (t ++ t')%list)
  end.

Definition result {A} (m : M A) : res A := fst m.
Definition trace {A} (m : M A) : list event := snd m.

Declare Scope M_scope.
Delimit Scope M_scope with M.
Notation "x <- m ;; k" := (bind m (fun x => k))
  (at level 61, m at next level, right associativity) : M_scope.
Notation "m1 ;;; m2" := (bind m1 (fun _ => m2))
  (at level 61, right associativity) : M_scope.

(** [time.sleep(ms / 1000)]; a negative length raises [ValueError]. *)
Definition sleep (ms : Z) : M unit :=
  if ms <? 0 then
    lift (Raise (Exn ValueError "sleep length must be non-negative"))
  else emit (EvSleep ms).

Section Handler.

Variable E : env.

(** An f-string field: a string is inserted as it is. *)
Definition fstr (v : value) : string :=
  match v with
  | VStr s => s
  | _ => py_repr E v
  end.

(** ** [load_workflow_by_name] *)

Definition isinstance_dict (v : value) : bool :=
  match v with VDict _ => true | _ => false end.

(** The [if] / [elif] chain of lines 59-69 on the parsed file content. *)
Definition canonicalize (workflow_data : value) : res value :=
  (c1 <- (if isinstance_dict workflow_data
          then (p <- py_contains (VStr "prompt") workflow_data ;; Ok (negb p))
          else Ok false) ;;
   if c1 then Ok workflow_data
   else
     c2 <- (if isinstance_dict workflow_data
            then py_contains (VStr "prompt") workflow_data
            else Ok false) ;;
     if c2 then py_getitem workflow_data (VStr "prompt")
     else
       c3 <- (a <- py_contains (VStr "input") workflow_data ;;
              if a then
                (i <- py_getitem workflow_data (VStr "input") ;;
                 py_contains (VStr "workflow") i)
              else Ok false) ;;
       if c3 then
         (i <- py_getitem workflow_data (VStr "input") ;;
          py_getitem i (VStr "workflow"))
       else Ok workflow_data)%res.

Definition py_endswith (v : value) (suffix : string) : res bool :=
  match v with
  | VStr s => Ok (endswith s suffix)
  | _ => attribute_error v "endswith"
  end.

Definition load_workflow_by_name (workflow_name : value) : M value :=
  (has_ext <- lift (py_endswith workflow_name ".json") ;;
   let workflow_name :=
     if has_ext then workflow_name else VStr (fstr workflow_name ++ ".json") in
   workflow_path <- lift (path_join WORKFLOW_DIR workflow_name) ;;
   emit (EvPathExists workflow_path) ;;;
   if negb (path_exists E workflow_path) then ret VNone
   else
     try_except
       (emit (EvOpenJson workflow_path) ;;;
        workflow_data <- lift (open_json E workflow_path) ;;
        lift (canonicalize workflow_data))
       (fun _ => ret VNone))%M.

(** ** [validate_input] *)

(** [all("name" in image and "image" in image for image in images)] *)
Fixpoint all_name_and_image (images : list value) : res bool :=
  match images with
  | [] => Ok true
  | image :: rest =>
      (a <- py_contains (VStr "name") image ;;
       b <- (if a then py_contains (VStr "image") image else Ok false) ;;
       if b then all_name_and_image rest else Ok false)%res
  end.

Definition MSG_NO_INPUT : string := "Please provide input".
Definition MSG_BAD_JSON : string := "Invalid JSON format in input".
Definition MSG_MISSING_WORKFLOW : string :=
  "Missing 'workflow' or 'workflow_name' parameter".
Definition MSG_IMAGES_SHAPE : string :=
  "'images' must be a list of objects with 'name' and 'image' keys".

(** Lines 112-124: the check of [images] and the final return. *)
Definition validate_images (job_input workflow : value) : M (value * value) :=
  (images <- lift (py_get job_input "images") ;;
   bad <- lift (match images with
                | VNone => Ok false
                | VList l => (ok <- all_name_and_image l ;; Ok (negb ok))%res
                | _ => Ok true
                end) ;;
   if bad then ret (VNone, VStr MSG_IMAGES_SHAPE)
   else ret (VDict [("workflow", workflow); ("images", images)], VNone))%M.

(** Lines 99-124, on the input once it is not a JSON string any more. *)
Definition validate_parsed (job_input : value) : M (value * value) :=
  (workflow <- lift (py_get job_input "workflow") ;;
   workflow_name <- lift (py_get job_input "workflow_name") ;;
   if negb (truthy workflow) && negb (truthy workflow_name) then
     ret (VNone, VStr MSG_MISSING_WORKFLOW)
   else if truthy workflow_name then
     workflow <- load_workflow_by_name workflow_name ;;
     if negb (truthy workflow) then
       ret (VNone, VStr ("Could not load workflow: " ++ fstr workflow_name))
     else validate_images job_input workflow
   else validate_images job_input workflow)%M.

(** The pair is the tuple [(validated_data, error_message)]. *)
Definition validate_input (job_input : value) : M (value * value) :=
  match job_input with
  | VNone => ret (VNone, VStr MSG_NO_INPUT)
  | VStr s =>
      match json_loads E s with
      | Some parsed => validate_parsed parsed
      | None => ret (VNone, VStr MSG_BAD_JSON)
      end
  | _ => validate_parsed job_input
  end.

(** ** [check_server] *)

(** [for i in range(retries)], [remaining] iterations left. *)
Fixpoint check_server_loop (url : string) (delay : Z) (remaining i : nat)
  : M bool :=
  match remaining with
  | O => ret false
  | S remaining' =>
      (emit (EvGetRoot url) ;;;
       match get_root E i with
       | ProbeStatus status_code =>
           if status_code =? 200 then ret true
           else sleep delay ;;; check_server_loop url delay remaining' (S i)
       | ProbeTransportError _ =>
           sleep delay ;;; check_server_loop url delay remaining' (S i)
       end)%M
  end.

Definition check_server (url : string) (retries delay : Z) : M bool :=
  check_server_loop url delay (Z.to_nat retries) O.

(** ** [upload_images] *)

Definition status_result (status message : string) (details : list string)
  : value :=
  VDict [("status", VStr status); ("message", VStr message);
         ("details", VList (map VStr details))].

(** The [try] block of lines 183-200 for one image: [inl] is the entry added
    to [upload_errors], [inr] the entry added to [responses]. *)
Definition upload_one (k : nat) (name : value) (image_data : string)
  : M (string + string) :=
  try_except
    (blob <- lift (b64decode E image_data) ;;
     emit (EvPostUpload name blob) ;;;
     response <- lift (post_upload E k name blob) ;;
     let '(status_code, text) := response in
     if negb (status_code =? 200) then
       ret (inl ("Error uploading " ++ fstr name ++ ": " ++ text))
     else ret (inr ("Successfully uploaded " ++ fstr name)))%M
    (fun e => ret (inl ("Error decoding " ++ fstr name ++ ": " ++ exn_str e))).

Fixpoint upload_loop (images : list value) (k : nat)
  (responses upload_errors : list string) : M (list string * list string) :=
  match images with
  | [] => ret (responses, upload_errors)
  | image :: rest =>
      (name <- lift (py_getitem image (VStr "name")) ;;
       image_data <- lift (py_getitem image (VStr "image")) ;;
       image_data <- lift (py_strip_data_url image_data) ;;
       r <- upload_one k name image_data ;;
       match r with
       | inl err =>
           upload_loop rest (S k) responses (upload_errors ++ [err])%list
       | inr msg =>
           upload_loop rest (S k) (responses ++ [msg])%list upload_errors
       end)%M
  end.

Definition upload_images (images : value) : M value :=
  if negb (truthy images) then
    ret (status_result "success" "No images to upload" [])
  else
    (image_list <- lift (py_iter images) ;;
     r <- upload_loop image_list O [] [] ;;
     let '(responses, upload_errors) := r in
     match upload_errors with
     | _ :: _ =>
         ret (status_result "error" "Some images failed to upload"
                upload_errors)
     | [] =>
         ret (status_result "success" "All images uploaded successfully"
                responses)
     end)%M.

(** ** Image injection (lines 350-378 of [handler]) *)

Definition BASE64_NODE_CLASSES : list value :=
  [VStr "LoadImageFromBase64"; VStr "Base64ToImage"].

(** [class_type in ["LoadImageFromBase64", "Base64ToImage"]] *)
Definition is_base64_class (class_type : value) : bool :=
  existsb (py_eqb class_type) BASE64_NODE_CLASSES.

(** Lines 355-368, [for image in images: ...; break]: the body runs for the
    first image only.  The nested dicts are mutated in place by the source;
    here the updated workflow is rebuilt. *)
Definition inject_first_image (workflow : value) (node_id : string)
  (images : value) : res (value * bool) :=
  (image_list <- py_iter images ;;
   match image_list with
   | [] => Ok (workflow, false)
   | image :: _ =>
       image_data <- py_getitem image (VStr "image") ;;
       image_data <- py_strip_data_url image_data ;;
       node <- py_getitem workflow (VStr node_id) ;;
       inputs <- py_getitem node (VStr "inputs") ;;
       inputs' <- py_setitem inputs "data" (VStr image_data) ;;
       node' <- py_setitem node "inputs" inputs' ;;
       workflow' <- py_setitem workflow node_id node' ;;
       Ok (workflow', true)
   end)%res.

(** Lines 352-371: the scan of [workflow.items()]. *)
Fixpoint inject_scan (workflow : value) (items : list (string * value))
  (images : value) : res (value * bool) :=
  match items with
  | [] => Ok (workflow, false)
  | (node_id, node_data) :: rest =>
      (class_type <- py_get node_data "class_type" ;;
       if is_base64_class class_type then
         r <- inject_first_image workflow node_id images ;;
         let '(workflow', base64_nodes_found) := r in
         if base64_nodes_found then Ok (workflow', true)
         else inject_scan workflow' rest images
       else inject_scan workflow rest images)%res
  end.

(** Lines 350-378: [inl] is the result the handler returns at once, [inr]
    the workflow it goes on with. *)
Definition inject_or_upload (workflow images : value) : M (value + value) :=
  if truthy images then
    (items <- lift (py_items workflow) ;;
     r <- lift (inject_scan workflow items images) ;;
     let '(workflow', base64_nodes_found) := r in
     if negb base64_nodes_found then
       upload_result <- upload_images images ;;
       status <- lift (py_getitem upload_result (VStr "status")) ;;
       if py_eqb status (VStr "error") then ret (inl upload_result)
       else ret (inr workflow')
     else ret (inr workflow'))%M
  else ret (inr workflow).

(** ** [queue_workflow] and submission (lines 380-387) *)

Definition queue_workflow (workflow : value) : M value :=
  let data := VDict [("prompt", workflow)] in
  (emit (EvPostPrompt data) ;;; lift (post_prompt E data))%M.

Definition error_result (msg : string) : value := VDict [("error", VStr msg)].

Definition submit (workflow : value) : M (value + value) :=
  try_except
    (queued_workflow <- queue_workflow workflow ;;
     prompt_id <- lift (py_getitem queued_workflow (VStr "prompt_id")) ;;
     ret (inr prompt_id))%M
    (fun e => ret (inl (error_result ("Error queuing workflow: " ++ exn_str e)))).

(** ** [get_history] and the polling loop (lines 391-410) *)

Definition get_history (k : nat) (prompt_id : value) : M value :=
  (emit (EvGetHistory prompt_id) ;;; lift (get_history_response E k prompt_id))%M.

(** [prompt_id in history and history[prompt_id].get("outputs")] *)
Definition has_outputs (prompt_id history : value) : res bool :=
  (a <- py_contains prompt_id history ;;
   if a then
     entry <- py_getitem history prompt_id ;;
     outputs <- py_get entry "outputs" ;;
     Ok (truthy outputs)
   else Ok false)%res.

(** [while retries < COMFY_POLLING_MAX_RETRIES], with
    [remaining = COMFY_POLLING_MAX_RETRIES - retries] iterations left and [k]
    fetches made; [None] is the [else] branch of the loop. *)
Fixpoint poll_loop (prompt_id : value) (remaining k : nat) : M (option value) :=
  match remaining with
  | O => ret None
  | S remaining' =>
      (history <- get_history k prompt_id ;;
       done <- lift (has_outputs prompt_id history) ;;
       if done then ret (Some history)
       else sleep (COMFY_POLLING_INTERVAL_MS E) ;;;
            poll_loop prompt_id remaining' (S k))%M
  end.

Definition MSG_MAX_RETRIES : string :=
  "Max retries reached while waiting for image generation".

(** [inl] is the error the handler returns, [inr] the history the loop left
    with [break]. *)
Definition poll (prompt_id : value) : M (value + value) :=
  try_except
    (h <- poll_loop prompt_id (Z.to_nat (COMFY_POLLING_MAX_RETRIES E)) O ;;
     match h with
     | Some history => ret (inr history)
     | None => ret (inl (error_result MSG_MAX_RETRIES))
     end)%M
    (fun e => ret (inl (error_result
                          ("Error waiting for image generation: " ++ exn_str e)))).

(** ** [process_output_images] *)

Definition IMAGE_EXTENSIONS : list string := [".png"; ".jpg"; ".jpeg"; ".webp"].

(** [file.endswith(('.png', '.jpg', '.jpeg', '.webp'))] *)
Definition has_image_extension (file : string) : bool :=
  existsb (endswith file) IMAGE_EXTENSIONS.

Definition Qltb (a b : Q) : bool := negb (Qle_bool b a).

(** *** Subtraction of Python floats

    [a - b] on two floats is the exact difference rounded to the nearest
    binary64 number, ties to the even significand.  A binary64 number is
    [n * 2^e] with [|n| < 2^53] and [-1074 <= e]; the upper limit of the
    exponent is left out, so a difference beyond the largest finite float
    (which Python turns into [inf]) stays a large number here: that changes
    no comparison with 30. *)

(** The integer nearest to [x], the even one of the two when [x] is half-way. *)
Definition round_half_even (x : Q) : Z :=
  let f := Qfloor x in
  match Qcompare (x - inject_Z f) (1 # 2) with
  | Lt => f
  | Gt => f + 1
  | Eq => if Z.even f then f else f + 1
  end.

(** [floor (log2 q)] of a positive rational. *)
Definition Qlog2 (q : Q) : Z :=
  let k := Z.log2 (Qnum q) - Z.log2 (Zpos (Qden q)) in
  if Qle_bool (2 ^ k) q then k else k - 1.

(** The binary64 number nearest to a positive rational: 53 significant bits,
    or the multiples of [2^-1074] in the subnormal range. *)
Definition round_positive (q : Q) : Q :=
  let e := Z.max (Qlog2 q - 52) (-1074) in
  (inject_Z (round_half_even (q * 2 ^ (- e))) * 2 ^ e)%Q.

Definition binary64_round (q : Q) : Q :=
  match Qnum q with
  | Z0 => 0
  | Zpos _ => round_positive q
  | Zneg _ => - round_positive (- q)
  end.

(** [a - b] on floats. *)
Definition float_sub (a b : Q) : Q := binary64_round (a - b).

(** Lines 276-280: the images of one node output. *)
Fixpoint node_images_loop (images : list value) (image_paths : list string)
  : M (list string) :=
  match images with
  | [] => ret image_paths
  | image :: rest =>
      (subfolder <- lift (py_get_default image "subfolder" (VStr "")) ;;
       filename <- lift (py_getitem image (VStr "filename")) ;;
       dir <- lift (path_join (COMFY_OUTPUT_PATH E) subfolder) ;;
       image_path <- lift (path_join dir filename) ;;
       emit (EvPathExists image_path) ;;;
       node_images_loop rest
         (if path_exists E image_path then (image_paths ++ [image_path])%list
          else image_paths))%M
  end.

(** Lines 274-280: method 1, the paths named by [outputs]. *)
Fixpoint outputs_loop (items : list (string * value))
  (image_paths : list string) : M (list string) :=
  match items with
  | [] => ret image_paths
  | (node_id, node_output) :: rest =>
      (has_images <- lift (py_contains (VStr "images") node_output) ;;
       if has_images then
         images <- lift (py_getitem node_output (VStr "images")) ;;
         image_list <- lift (py_iter images) ;;
         image_paths' <- node_images_loop image_list image_paths ;;
         outputs_loop rest image_paths'
       else outputs_loop rest image_paths)%M
  end.

(** Lines 288-295: the files of one directory of the walk. *)
Fixpoint files_loop (current_time : Q) (root : string) (files : list string)
  (image_paths : list string) : M (list string) :=
  match files with
  | [] => ret image_paths
  | file :: rest =>
      if has_image_extension file then
        (let file_path := join2 root file in
         emit (EvGetmtime file_path) ;;;
         file_time <- lift (getmtime E file_path) ;;
         files_loop current_time root rest
           (if Qltb (float_sub current_time file_time) 30
            then (image_paths ++ [file_path])%list
            else image_paths))%M
      else files_loop current_time root rest image_paths
  end.

Fixpoint walk_loop (current_time : Q)
  (entries : list (string * list string * list string))
  (image_paths : list string) : M (list string) :=
  match entries with
  | [] => ret image_paths
  | (root, dirs, files) :: rest =>
      (image_paths' <- files_loop current_time root files image_paths ;;
       walk_loop current_time rest image_paths')%M
  end.

(** Lines 283-295: method 2, the scan of the output directory. *)
Definition scan_recent_files : M (list string) :=
  (emit EvTime ;;;
   let current_time := time_now E in
   emit (EvWalk (COMFY_OUTPUT_PATH E)) ;;;
   walk_loop current_time (walk E (COMFY_OUTPUT_PATH E)) [])%M.

(** Lines 270-295: the paths collected by both methods. *)
Definition collect_image_paths (outputs : value) : M (list string) :=
  (items <- lift (py_items outputs) ;;
   image_paths <- outputs_loop items [] ;;
   match image_paths with
   | [] => scan_recent_files
   | _ :: _ => ret image_paths
   end)%M.

Definition bucket_configured : bool :=
  match BUCKET_ENDPOINT_URL E with
  | Some url => negb (String.eqb url "")
  | None => false
  end.

Definition base64_encode (img_path : string) : M string :=
  (emit (EvReadFile img_path) ;;;
   content <- lift (read_file E img_path) ;;
   ret (b64encode E content))%M.

Definition process_output_images (outputs job_id : value) : M value :=
  (image_paths <- collect_image_paths outputs ;;
   match image_paths with
   | local_image_path :: _ =>
       image <- (if bucket_configured then
                   emit (EvS3Upload job_id local_image_path) ;;;
                   lift (rp_upload_image E job_id local_image_path)
                 else base64_encode local_image_path) ;;
       ret (VDict [("status", VStr "success"); ("message", VStr image);
                   ("path", VStr local_image_path);
                   ("all_images", VList (map VStr image_paths))])
   | [] =>
       ret (VDict [("status", VStr "error");
                   ("message",
                    VStr "No output images found in the output directory")])
   end)%M.

(** ** [handler] *)

Definition handler (job : value) : M value :=
  (job_input <- lift (py_getitem job (VStr "input")) ;;
   _ <- lift (py_getitem job (VStr "id")) ;;
   v <- validate_input job_input ;;
   let '(validated_data, error_message) := v in
   if truthy error_message then ret (VDict [("error", error_message)])
   else
     workflow <- lift (py_getitem validated_data (VStr "workflow")) ;;
     images <- lift (py_get validated_data "images") ;;
     _ <- check_server ("http://" ++ COMFY_HOST)
            COMFY_API_AVAILABLE_MAX_RETRIES COMFY_API_AVAILABLE_INTERVAL_MS ;;
     injected <- inject_or_upload workflow images ;;
     match injected with
     | inl upload_result => ret upload_result
     | inr workflow =>
         submitted <- submit workflow ;;
         match submitted with
         | inl err => ret err
         | inr prompt_id =>
             polled <- poll prompt_id ;;
             match polled with
             | inl err => ret err
             | inr history =>
                 entry <- lift (py_getitem history prompt_id) ;;
                 outputs <- lift (py_get entry "outputs") ;;
                 job_id <- lift (py_getitem job (VStr "id")) ;;
                 images_result <- process_output_images outputs job_id ;;
                 lift (py_setitem images_result "refresh_worker"
                         (VBool (REFRESH_WORKER E)))
             end
         end
     end)%M.

End Handler.

(** The environment with another backend root endpoint. *)
Definition with_get_root (E : env) (probe : nat -> probe_response) : env :=
  {| json_loads := json_loads E;
     b64decode := b64decode E;
     b64encode := b64encode E;
     py_repr := py_repr E;
     COMFY_POLLING_INTERVAL_MS := COMFY_POLLING_INTERVAL_MS E;
     COMFY_POLLING_MAX_RETRIES := COMFY_POLLING_MAX_RETRIES E;
     REFRESH_WORKER := REFRESH_WORKER E;
     COMFY_OUTPUT_PATH := COMFY_OUTPUT_PATH E;
     BUCKET_ENDPOINT_URL := BUCKET_ENDPOINT_URL E;
     path_exists := path_exists E;
     open_json := open_json E;
     walk := walk E;
     getmtime := getmtime E;
     read_file := read_file E;
     time_now := time_now E;
     get_root := probe;
     post_upload := post_upload E;
     post_prompt := post_prompt E;
     get_history_response := get_history_response E;
     rp_upload_image := rp_upload_image E |}.

(** ** Library functions of the examples *)

(** The base64 alphabet. *)
Definition b64_index (c : ascii) : option Z :=
  let n := Z.of_nat (nat_of_ascii c) in
  if (65 <=? n) && (n <=? 90) then Some (n - 65)
  else if (97 <=? n) && (n <=? 122) then Some (n - 71)
  else if (48 <=? n) && (n <=? 57) then Some (n + 4)
  else if n =? 43 then Some 62
  else if n =? 47 then Some 63
  else None.

Definition byte_of_Z (z : Z) : Byte.byte :=
  byte_of_ascii (ascii_of_nat (Z.to_nat (z mod 256))).

Definition Z_of_byte (b : Byte.byte) : Z :=
  Z.of_nat (nat_of_ascii (ascii_of_byte b)).

Definition decimal (z : Z) : string := NilZero.string_of_int (Z.to_int z).

(** CPython's [binascii.a2b_base64] without strict mode, which
    [base64.b64decode(s)] calls: characters outside the alphabet are skipped,
    a complete pad sequence ends the input, an incomplete last quad is an
    error. *)
Fixpoint a2b_base64 (s : string) (quad_pos leftchar pads : Z) (out : bytes)
  : res bytes :=
  match s with
  | EmptyString =>
      if quad_pos =? 0 then Ok out
      else if quad_pos =? 1 then
        Raise (Exn BinasciiError
                 ("Invalid base64-encoded string: number of data characters ("
                    ++ decimal (Z.of_nat (List.length out) / 3 * 4 + 1)
                    ++ ") cannot be 1 more than a multiple of 4"))
      else Raise (Exn BinasciiError "Incorrect padding")
  | String c s' =>
      if Ascii.eqb c "=" then
        if (2 <=? quad_pos) && (4 <=? quad_pos + (pads + 1)) then Ok out
        else a2b_base64 s' quad_pos leftchar
               (if 2 <=? quad_pos then pads + 1 else pads) out
      else
        match b64_index c with
        | None => a2b_base64 s' quad_pos leftchar pads out
        | Some v =>
            if quad_pos =? 0 then a2b_base64 s' 1 v 0 out
            else if quad_pos =? 1 then
              a2b_base64 s' 2 (Z.land v 15) 0
                (out ++ [byte_of_Z (Z.lor (Z.shiftl leftchar 2) (Z.shiftr v 4))])%list
            else if quad_pos =? 2 then
              a2b_base64 s' 3 (Z.land v 3) 0
                (out ++ [byte_of_Z (Z.lor (Z.shiftl leftchar 4) (Z.shiftr v 2))])%list
            else
              a2b_base64 s' 0 0 0
                (out ++ [byte_of_Z (Z.lor (Z.shiftl leftchar 6) v)])%list
        end
  end.

Fixpoint is_ascii_string (s : string) : bool :=
  match s with
  | EmptyString => true
  | String c s' => (nat_of_ascii c <? 128)%nat && is_ascii_string s'
  end.

(** [base64.b64decode] of a [str]. *)
Definition std_b64decode (s : string) : res bytes :=
  if is_ascii_string s then a2b_base64 s 0 0 0 []
  else Raise (Exn ValueError
                "string argument should contain only ASCII characters").

Definition b64_char (v : Z) : string :=
  String (ascii_of_nat (Z.to_nat
            (if v <? 26 then v + 65
             else if v <? 52 then v + 71
             else if v <? 62 then v - 4
             else if v =? 62 then 43 else 47))) EmptyString.

Fixpoint b64encode_Z (l : list Z) : string :=
  match l with
  | [] => ""
  | [a] =>
      b64_char (Z.shiftr a 2) ++ b64_char (Z.shiftl (Z.land a 3) 4) ++ "=="
  | [a; b] =>
      b64_char (Z.shiftr a 2)
      ++ b64_char (Z.lor (Z.shiftl (Z.land a 3) 4) (Z.shiftr b 4))
      ++ b64_char (Z.shiftl (Z.land b 15) 2) ++ "="
  | a :: b :: c :: rest =>
      b64_char (Z.shiftr a 2)
      ++ b64_char (Z.lor (Z.shiftl (Z.land a 3) 4) (Z.shiftr b 4))
      ++ b64_char (Z.lor (Z.shiftl (Z.land b 15) 2) (Z.shiftr c 6))
      ++ b64_char (Z.land c 63) ++ b64encode_Z rest
  end.

(** [base64.b64encode(content).decode("utf-8")] *)
Definition std_b64encode (content : bytes) : string :=
  b64encode_Z (map Z_of_byte content).

(** [str()] of the values without a nested string: a number, [None], a
    boolean; a container is shown by its type name only. *)
Definition sample_repr (v : value) : string :=
  match v with
  | VNone => "None"
  | VBool true => "True"
  | VBool false => "False"
  | VInt z => decimal z
  | VStr s => s
  | VList _ => "<list>"
  | VDict _ => "<dict>"
  end.

(** [json.loads] on the few texts the examples use. *)
Definition sample_json_loads (s : string) : option value :=
  if String.eqb s "{}" then Some (VDict [])
  else if String.eqb s "[]" then Some (VList [])
  else if String.eqb s "null" then Some VNone
  else if String.eqb s "5" then Some (VInt 5)
  else None.

(** ** A concrete world, for examples *)

Definition node (class_type : string) (inputs : list (string * value))
  : value :=
  VDict [("class_type", VStr class_type); ("inputs", VDict inputs)].

(** A workflow without a node that takes inline base64 data. *)
Definition plain_workflow : value :=
  VDict [("3", node "LoadImage" [("image", VStr "in.png")]);
         ("9", node "SaveImage" [("images", VList [VStr "3"; VInt 0])])].

(** A workflow with two nodes that take inline base64 data. *)
Definition base64_workflow : value :=
  VDict [("1", node "KSampler" [("seed", VInt 5)]);
         ("2", node "LoadImageFromBase64" [("data", VStr "")]);
         ("5", node "Base64ToImage" []);
         ("9", node "SaveImage" [("images", VList [VStr "2"; VInt 0])])].

Definition pending_history : value :=
  VDict [("p1", VDict [("outputs", VDict [])])].

Definition populated_history : value :=
  VDict [("p1",
          VDict [("outputs",
                  VDict [("9",
                          VDict [("images",
                                  VList [VDict [("filename", VStr "out.png");
                                                ("subfolder", VStr "");
                                                ("type", VStr "output")]])])])])].

(** The backend answers the third fetch with the finished record. *)
Definition sample_history (k : nat) (prompt_id : value) : res value :=
  match k with
  | O => Ok (VDict [])
  | S O => Ok pending_history
  | _ => Ok populated_history
  end.

Definition sample_env_with (max_retries : Z)
  (history : nat -> value -> res value) : env :=
  {| json_loads := sample_json_loads;
     b64decode := std_b64decode;
     b64encode := std_b64encode;
     py_repr := sample_repr;
     COMFY_POLLING_INTERVAL_MS := 250;
     COMFY_POLLING_MAX_RETRIES := max_retries;
     REFRESH_WORKER := false;
     COMFY_OUTPUT_PATH := "/comfyui/output";
     BUCKET_ENDPOINT_URL := None;
     path_exists := fun path =>
       String.eqb path "/runpod-volume/workflows/basic.json"
       || String.eqb path "/comfyui/output/out.png";
     open_json := fun path =>
       if String.eqb path "/runpod-volume/workflows/basic.json"
       then Ok (VDict [("prompt", plain_workflow)])
       else Raise (Exn OSError "No such file or directory");
     walk := fun root =>
       [("/comfyui/output", ["sub"], ["out.png"; "old.png"; "notes.txt"]);
        ("/comfyui/output/sub", [], ["late.webp"])];
     getmtime := fun path =>
       if String.eqb path "/comfyui/output/out.png" then Ok (100 # 1)
       else if String.eqb path "/comfyui/output/old.png" then Ok (90 # 1)
       else if String.eqb path "/comfyui/output/sub/late.webp" then Ok (125 # 1)
       else Raise (Exn OSError "No such file or directory");
     read_file := fun path =>
       if String.eqb path "/comfyui/output/out.png"
       then Ok [byte_of_Z 137; byte_of_Z 80; byte_of_Z 78; byte_of_Z 71]
       else Raise (Exn OSError "No such file or directory");
     time_now := 120 # 1;
     get_root := fun i =>
       match i with
       | O => ProbeTransportError "Connection refused"
       | S O => ProbeStatus 503
       | _ => ProbeStatus 200
       end;
     post_upload := fun k name blob =>
       if py_eqb name (VStr "bad.png") then Ok (500, "Internal Server Error")
       else Ok (200, "{}");
     post_prompt := fun body => Ok (VDict [("prompt_id", VStr "p1")]);
     get_history_response := history;
     rp_upload_image := fun job_id path => Ok ("https://bucket.example/out.png")
  |}.

Definition sample_env : env := sample_env_with 500 sample_history.


Definition image_input (name image : string) : value :=
  VDict [("name", VStr name); ("image", VStr image)].

Definition job_of (input : value) : value :=
  VDict [("id", VStr "j1"); ("input", input)].

(** ** Notions of the specification *)

(** The input is a mapping, given as such or as a JSON text. *)
Definition input_mapping (E : env) (job_input : value)
  (d : list (string * value)) : Prop :=
  job_input = VDict d \/
  exists s, job_input = VStr s /\ json_loads E s = Some (VDict d).

(** The data model's node definition [{class_type: string, inputs: mapping}]
    and workflow (a mapping from node id to node definition). *)
Definition is_node_definition (v : value) : bool :=
  match v with
  | VDict nd =>
      match dict_get nd "class_type", dict_get nd "inputs" with
      | Some (VStr _), Some (VDict _) => true
      | _, _ => false
      end
  | _ => false
  end.

Definition is_workflow (v : value) : bool :=
  match v with
  | VDict d => forallb (fun kv => is_node_definition (snd kv)) d
  | _ => false
  end.

(** The catalog file of a workflow name. *)
Definition workflow_file (name : string) : string :=
  join2 WORKFLOW_DIR (if endswith name ".json" then name else name ++ ".json").

(** An element of [images] passes the test of [validate_input]. *)
Definition has_name_and_image (image : value) : Prop :=
  py_contains (VStr "name") image = Ok true /\
  py_contains (VStr "image") image = Ok true.



(** A workflow whose only node has the id [prompt]. *)
Definition prompt_node_workflow : value :=
  VDict [("prompt", node "KSampler" [("seed", VInt 5)])].

(** [d.get(k)] of a dict. *)
Definition dict_field (d : list (string * value)) (k : string) : value :=
  match dict_get d k with Some v => v | None => VNone end.

(** ** Reading a trace *)

Definition is_fetch (e : event) : bool :=
  match e with EvGetHistory _ => true | _ => false end.

(** The number of history fetches in a trace. *)
Definition fetches (tr : list event) : nat := List.length (filter is_fetch tr).


(** The paths a trace tests with [os.path.exists]. *)
Definition probed_paths (tr : list event) : list string :=
  flat_map (fun e => match e with EvPathExists p => [p] | _ => [] end) tr.

Definition is_walk (e : event) : bool :=
  match e with EvWalk _ => true | _ => false end.

(** The trace has a walk of a directory tree. *)
Definition scans_directory (tr : list event) : bool := existsb is_walk tr.

(** The data model's output image [{filename, subfolder, ...}]: a mapping
    with a string [filename] whose [subfolder], when it has one, is a
    string. *)
Definition is_output_image (image : value) : bool :=
  match image with
  | VDict d =>
      match dict_get d "filename", dict_get d "subfolder" with
      | Some (VStr _), Some (VStr _) => true
      | Some (VStr _), None => true
      | _, _ => false
      end
  | _ => false
  end.

(** A node output of the data model: a mapping whose [images], when it has
    the key, is a sequence of output images. *)
Definition is_node_output (node_output : value) : bool :=
  match node_output with
  | VDict d =>
      match dict_get d "images" with
      | None => true
      | Some (VList images) => forallb is_output_image images
      | Some _ => false
      end
  | _ => false
  end.

(** An outputs mapping of the data model. *)
Definition well_formed_outputs (outputs : list (string * value)) : bool :=
  forallb (fun entry => is_node_output (snd entry)) outputs.

Definition string_field (d : list (string * value)) (k : string) : string :=
  match dict_get d k with Some (VStr s) => s | _ => "" end.

(** The configured output root + subfolder + filename. *)
Definition output_image_path (E : env) (image : value) : string :=
  match image with
  | VDict d =>
      join2 (join2 (COMFY_OUTPUT_PATH E) (string_field d "subfolder"))
        (string_field d "filename")
  | _ => ""
  end.

Definition node_output_images (node_output : value) : list value :=
  match node_output with
  | VDict d =>
      match dict_get d "images" with Some (VList images) => images | _ => [] end
  | _ => []
  end.

(** The paths that an outputs mapping names, entry after entry. *)
Definition named_paths (E : env) (outputs : list (string * value))
  : list string :=
  flat_map
    (fun entry => map (output_image_path E) (node_output_images (snd entry)))
    outputs.

(** A file of the directory [root] that passes the tests of lines 289 and
    293. *)
Definition recent_image (E : env) (root : string) (files : list string)
  (p : string) : Prop :=
  exists file mtime,
    In file files /\ p = join2 root file /\
    has_image_extension file = true /\
    getmtime E p = Ok mtime /\ (float_sub (time_now E) mtime < 30)%Q.

(** A file of the walk that passes them. *)
Definition recent_file (E : env) (p : string) : Prop :=
  exists root dirs files,
    In (root, dirs, files) (walk E (COMFY_OUTPUT_PATH E)) /\
    recent_image E root files p.

(** Every image file of the walk has a modification time. *)
Definition walk_readable (E : env) : Prop :=
  forall root dirs files file,
    In (root, dirs, files) (walk E (COMFY_OUTPUT_PATH E)) ->
    In file files ->
    has_image_extension file = true ->
    exists mtime, getmtime E (join2 root file) = Ok mtime.

(** Outputs that name one file, which is not on disk. *)
Definition missing_outputs : value :=
  VDict [("9", VDict [("images", VList [VDict [("filename", VStr "gone.png")]])])].

(** Outputs whose image has a null [subfolder], and outputs whose image has
    no [filename]. *)
Definition null_subfolder_outputs : value :=
  VDict [("9", VDict [("images",
                       VList [VDict [("filename", VStr "gone.png");
                                     ("subfolder", VNone)]])])].

Definition unnamed_image_outputs : value :=
  VDict [("9", VDict [("images", VList [VDict [("subfolder", VStr "sub")]])])].

Definition is_probe_event (e : event) : Prop :=
  match e with
  | EvGetRoot _ | EvSleep _ => True
  | _ => False
  end.

(** Lines 349-418 of [handler]: what follows the call of [check_server]. *)
Definition handler_after_probe (E : env) (job workflow images : value)
  : M value :=
  (injected <- inject_or_upload E workflow images ;;
   match injected with
   | inl upload_result => ret upload_result
   | inr workflow =>
       submitted <- submit E workflow ;;
       match submitted with
       | inl err => ret err
       | inr prompt_id =>
           polled <- poll E prompt_id ;;
           match polled with
           | inl err => ret err
           | inr history =>
               entry <- lift (py_getitem history prompt_id) ;;
               outputs <- lift (py_get entry "outputs") ;;
               job_id <- lift (py_getitem job (VStr "id")) ;;
               images_result <- process_output_images E outputs job_id ;;
               lift (py_setitem images_result "refresh_worker"
                       (VBool (REFRESH_WORKER E)))
           end
       end
   end)%M.

(** The call of [check_server] that [handler] makes. *)
Definition handler_probe (E : env) : M bool :=
  check_server E ("http://" ++ COMFY_HOST)
    COMFY_API_AVAILABLE_MAX_RETRIES COMFY_API_AVAILABLE_INTERVAL_MS.

(** The stages of the pipeline that can end a job with an error. *)
Inductive stage : Type := Validation | ImageUpload | Submission | Polling.

(** The handler got past validation, with this workflow and these images,
    and has called the probe; [tr] is the trace so far. *)
Definition reaches_pipeline (E : env) (job workflow images : value)
  (tr : list event) : Prop :=
  exists job_input job_id tv,
    py_getitem job (VStr "input") = Ok job_input /\
    py_getitem job (VStr "id") = Ok job_id /\
    validate_input E job_input =
      (Ok (VDict [("workflow", workflow); ("images", images)], VNone), tv) /\
    tr = (tv ++ trace (handler_probe E))%list.

(** A stage of the job fails; the value is the result the failure should
    surface as, the trace the calls made up to and including the failing
    stage. *)
Inductive stage_fails (E : env) (job : value)
  : stage -> value -> list event -> Prop :=
| validation_fails job_input job_id validated_data msg tr :
    py_getitem job (VStr "input") = Ok job_input ->
    py_getitem job (VStr "id") = Ok job_id ->
    validate_input E job_input = (Ok (validated_data, VStr msg), tr) ->
    msg <> "" ->
    stage_fails E job Validation (VDict [("error", VStr msg)]) tr
| upload_fails workflow images tr items workflow' upload_result tu :
    reaches_pipeline E job workflow images tr ->
    truthy images = true ->
    py_items workflow = Ok items ->
    inject_scan workflow items images = Ok (workflow', false) ->
    upload_images E images = (Ok upload_result, tu) ->
    py_getitem upload_result (VStr "status") = Ok (VStr "error") ->
    stage_fails E job ImageUpload upload_result (tr ++ tu)%list
| submission_fails workflow images tr workflow' ti e tq :
    reaches_pipeline E job workflow images tr ->
    inject_or_upload E workflow images = (Ok (inr workflow'), ti) ->
    bind (queue_workflow E workflow')
      (fun queued_workflow =>
         lift (py_getitem queued_workflow (VStr "prompt_id")))
    = (Raise e, tq) ->
    stage_fails E job Submission
      (VDict [("error", VStr ("Error queuing workflow: " ++ exn_str e))])
      (tr ++ ti ++ tq)%list
| polling_exhausted workflow images tr workflow' ti prompt_id ts tp :
    reaches_pipeline E job workflow images tr ->
    inject_or_upload E workflow images = (Ok (inr workflow'), ti) ->
    submit E workflow' = (Ok (inr prompt_id), ts) ->
    poll_loop E prompt_id (Z.to_nat (COMFY_POLLING_MAX_RETRIES E)) O
    = (Ok None, tp) ->
    stage_fails E job Polling
      (VDict [("error",
               VStr "Max retries reached while waiting for image generation")])
      (tr ++ ti ++ ts ++ tp)%list
| polling_raises workflow images tr workflow' ti prompt_id ts e tp :
    reaches_pipeline E job workflow images tr ->
    inject_or_upload E workflow images = (Ok (inr workflow'), ti) ->
    submit E workflow' = (Ok (inr prompt_id), ts) ->
    poll_loop E prompt_id (Z.to_nat (COMFY_POLLING_MAX_RETRIES E)) O
    = (Raise e, tp) ->
    stage_fails E job Polling
      (VDict [("error",
               VStr ("Error waiting for image generation: " ++ exn_str e))])
      (tr ++ ti ++ ts ++ tp)%list.

(** The node's class takes inline base64 data. *)
Definition accepts_base64 (node_data : value) : bool :=
  match node_data with
  | VDict nd => is_base64_class (dict_field nd "class_type")
  | _ => false
  end.

(** The two fields of an input image. *)
Definition image_fields (image name : value) (s : string) : Prop :=
  py_getitem image (VStr "name") = Ok name /\
  py_getitem image (VStr "image") = Ok (VStr s).

Definition well_formed_image (image : value) : Prop :=
  exists name s, image_fields image name s.

(** The calls of the upload endpoint for one image: one with the decoded
    payload, none when the payload does not decode. *)
Definition upload_events (E : env) (image : value) : list event :=
  match py_getitem image (VStr "name"), py_getitem image (VStr "image") with
  | Ok name, Ok (VStr s) =>
      match b64decode E (strip_data_url s) with
      | Ok blob => [EvPostUpload name blob]
      | Raise _ => []
      end
  | _, _ => []
  end.

(** A job whose only image the backend refuses. *)
Definition refused_upload_job : value :=
  job_of (VDict [("workflow", plain_workflow);
                 ("images", VList [image_input "bad.png" "AAAA"])]).

Definition sample_probe_trace : list event :=
  [EvGetRoot "http://127.0.0.1:8188"; EvSleep 50;
   EvGetRoot "http://127.0.0.1:8188"; EvSleep 50;
   EvGetRoot "http://127.0.0.1:8188"].

(** Two images for the upload path: the first is the data URL of the
    specification's example, the payload of the second does not decode. *)
Definition sample_images : list value :=
  [image_input "in.png" "data:image/png;base64,iVBORw0KGgo=";
   image_input "cut.png" "A"].

(** ** Notions for the further properties *)

(** The name of the file [load_workflow_by_name] looks for. *)
Definition with_json_suffix (name : string) : string :=
  if endswith name ".json" then name else name ++ ".json".


Definition is_probe_get (e : event) : bool :=
  match e with EvGetRoot _ => true | _ => false end.

Definition is_sleep (e : event) : bool :=
  match e with EvSleep _ => true | _ => false end.

Definition lefts {A B} (l : list (A + B)) : list A :=
  flat_map (fun x => match x with inl a => [a] | inr _ => [] end) l.

Definition rights {A B} (l : list (A + B)) : list B :=
  flat_map (fun x => match x with inl _ => [] | inr b => [b] end) l.

(** What becomes of one image in the upload: [inl] the line that goes to the
    errors, [inr] the line that goes to the responses. *)
Definition image_outcome (E : env) (k : nat) (name : value) (payload : string)
  : string + string :=
  match b64decode E payload with
  | Raise e => inl ("Error decoding " ++ fstr E name ++ ": " ++ exn_str e)
  | Ok blob =>
      match post_upload E k name blob with
      | Raise e => inl ("Error decoding " ++ fstr E name ++ ": " ++ exn_str e)
      | Ok (status_code, text) =>
          if status_code =? 200
          then inr ("Successfully uploaded " ++ fstr E name)
          else inl ("Error uploading " ++ fstr E name ++ ": " ++ text)
      end
  end.

(** The outcomes of the images of a list, the first one at position [k]. *)
Fixpoint image_outcomes (E : env) (images : list value) (k : nat)
  : list (string + string) :=
  match images with
  | [] => []
  | image :: rest =>
      match py_getitem image (VStr "name"), py_getitem image (VStr "image") with
      | Ok name, Ok (VStr s) =>
          image_outcome E k name (strip_data_url s)
            :: image_outcomes E rest (S k)
      | _, _ => image_outcomes E rest (S k)
      end
  end.

Definition is_string (v : value) : bool :=
  match v with VStr _ => true | _ => false end.

(** [history[prompt_id].get("outputs")], as the handler evaluates it after
    the polling loop. *)
Definition history_outputs (prompt_id history : value) : res value :=
  (entry <- py_getitem history prompt_id ;; py_get entry "outputs")%res.

(** The environment with another object-storage setting. *)
Definition with_bucket (E : env) (url : option string) : env :=
  {| json_loads := json_loads E;
     b64decode := b64decode E;
     b64encode := b64encode E;
     py_repr := py_repr E;
     COMFY_POLLING_INTERVAL_MS := COMFY_POLLING_INTERVAL_MS E;
     COMFY_POLLING_MAX_RETRIES := COMFY_POLLING_MAX_RETRIES E;
     REFRESH_WORKER := REFRESH_WORKER E;
     COMFY_OUTPUT_PATH := COMFY_OUTPUT_PATH E;
     BUCKET_ENDPOINT_URL := url;
     path_exists := path_exists E;
     open_json := open_json E;
     walk := walk E;
     getmtime := getmtime E;
     read_file := read_file E;
     time_now := time_now E;
     get_root := get_root E;
     post_upload := post_upload E;
     post_prompt := post_prompt E;
     get_history_response := get_history_response E;
     rp_upload_image := rp_upload_image E |}.


(** A workflow whose inline-base64 node has no [inputs]. *)
Definition no_inputs_workflow : list (string * value) :=
  [("1", node "KSampler" [("seed", VInt 5)]);
   ("2", VDict [("class_type", VStr "LoadImageFromBase64")])].

(** The outputs of the finished record of the sample world. *)
Definition sample_outputs : value :=
  VDict [("9",
          VDict [("images",
                  VList [VDict [("filename", VStr "out.png");
                                ("subfolder", VStr "");
                                ("type", VStr "output")]])])].

(** The environment with nothing on disk. *)
Definition with_empty_disk (E : env) : env :=
  {| json_loads := json_loads E;
     b64decode := b64decode E;
     b64encode := b64encode E;
     py_repr := py_repr E;
     COMFY_POLLING_INTERVAL_MS := COMFY_POLLING_INTERVAL_MS E;
     COMFY_POLLING_MAX_RETRIES := COMFY_POLLING_MAX_RETRIES E;
     REFRESH_WORKER := REFRESH_WORKER E;
     COMFY_OUTPUT_PATH := COMFY_OUTPUT_PATH E;
     BUCKET_ENDPOINT_URL := BUCKET_ENDPOINT_URL E;
     path_exists := fun _ => false;
     open_json := open_json E;
     walk := fun _ => [];
     getmtime := getmtime E;
     read_file := read_file E;
     time_now := time_now E;
     get_root := get_root E;
     post_upload := post_upload E;
     post_prompt := post_prompt E;
     get_history_response := get_history_response E;
     rp_upload_image := rp_upload_image E |}.

(** A job that succeeds in the sample world, and its workflow once the image
    is injected. *)
Definition success_images : value :=
  VList [image_input "in.png" "data:image/png;base64,iVBORw0KGgo="].

Definition success_job : value :=
  job_of (VDict [("workflow", base64_workflow); ("images", success_images)]).

Definition injected_workflow : value :=
  VDict [("1", node "KSampler" [("seed", VInt 5)]);
         ("2", node "LoadImageFromBase64" [("data", VStr "iVBORw0KGgo=")]);
         ("5", node "Base64ToImage" []);
         ("9", node "SaveImage" [("images", VList [VStr "2"; VInt 0])])].






(** * Properties *)

(** ** The monad *)

Lemma bind_ret {A B} (a : A) (f : A -> M B) : bind (ret a) f = f a.
Proof. unfold bind, ret. destruct (f a); reflexivity. Qed.

Lemma bind_lift_ok {A B} (a : A) (f : A -> M B) : bind (lift (Ok a)) f = f a.
Proof. apply bind_ret. Qed.

Lemma bind_lift_raise {A B} (e : exn) (f : A -> M B) :
  bind (lift (Raise e)) f = (Raise e, []).
Proof. reflexivity. Qed.

Lemma bind_run {A B} (m : M A) (f : A -> M B) a t :
  m = (Ok a, t) ->
  bind m f = (result (f a), (t ++ trace (f a))%list).
Proof. intros ->. unfold bind, result, trace. destruct (f a); reflexivity. Qed.

Lemma bind_raise {A B} (m : M A) (f : A -> M B) e t :
  m = (Raise e, t) -> bind m f = (Raise e, t).
Proof. intros ->. reflexivity. Qed.

Lemma run_eta {A} (m : M A) : m = (result m, trace m).
Proof. destruct m; reflexivity. Qed.

Lemma trace_bind_lift {A B} (r : res A) (f : A -> M B) :
  trace (bind (lift r) f)
  = match r with Ok a => trace (f a) | Raise _ => [] end.
Proof. destruct r; [rewrite bind_lift_ok|]; reflexivity. Qed.

Lemma trace_bind {A B} (m : M A) (f : A -> M B) :
  trace (bind m f)
  = (trace m ++ match result m with
                | Ok a => trace (f a)
                | Raise _ => []
                end)%list.
Proof.
  destruct m as [[a|e] t]; cbn [bind result trace fst snd].
  - destruct (f a); reflexivity.
  - rewrite app_nil_r. reflexivity.
Qed.

(** ** Strings *)

Lemma find_char_app (c : ascii) (pre rest : string) :
  find_char c pre = None ->
  find_char c (pre ++ String c rest) = Some (String.length pre).
Proof.
  induction pre as [|a pre IH]; simpl.
  - intros _. rewrite Ascii.eqb_refl. reflexivity.
  - destruct (Ascii.eqb a c); [discriminate|].
    destruct (find_char c pre); [discriminate|].
    intros _. rewrite IH; reflexivity.
Qed.

Lemma string_drop_app (pre rest : string) :
  string_drop (String.length pre) (pre ++ rest) = rest.
Proof. induction pre; simpl; auto. Qed.

Lemma string_drop_app_cons (pre : string) (c : ascii) (rest : string) :
  string_drop (S (String.length pre)) (pre ++ String c rest) = rest.
Proof. induction pre; simpl; auto. Qed.

(** The first occurrence of a character splits the string around it. *)
Lemma find_char_split (c : ascii) (s : string) (i : nat) :
  find_char c s = Some i ->
  exists pre rest,
    s = pre ++ String c rest /\ find_char c pre = None /\
    String.length pre = i /\ string_drop (S i) s = rest.
Proof.
  revert i. induction s as [|a s IH]; simpl; [discriminate|].
  intros i. destruct (Ascii.eqb a c) eqn:Hac.
  - intros [= <-]. apply Ascii.eqb_eq in Hac. subst a.
    exists EmptyString, s. repeat split.
  - destruct (find_char c s) as [j|]; [|discriminate].
    intros [= <-]. destruct (IH j eq_refl) as (pre & rest & -> & Hn & Hl & Hd).
    exists (String a pre), rest. simpl. rewrite Hac, Hn.
    repeat split; auto.
Qed.

Lemma find_char_some_app (c : ascii) (a b : string) :
  exists i, find_char c (a ++ String c b) = Some i.
Proof.
  induction a as [|x a [i IH]]; simpl.
  - rewrite Ascii.eqb_refl. eauto.
  - destruct (Ascii.eqb x c); eauto. rewrite IH. eauto.
Qed.

(** No occurrence of the character before the index [find_char] returns. *)
Lemma find_char_none (c : ascii) (s : string) :
  find_char c s = None -> forall a b, s <> a ++ String c b.
Proof.
  induction s as [|x s IH]; intros Hnone a b Heq.
  - destruct a; discriminate.
  - cbn [find_char] in Hnone. destruct (Ascii.eqb x c) eqn:Hxc; [discriminate|].
    destruct (find_char c s); [discriminate|].
    destruct a as [|y a]; cbn in Heq; injection Heq as Hx Hs.
    + subst x. rewrite Ascii.eqb_refl in Hxc. discriminate.
    + exact (IH eq_refl a b Hs).
Qed.

Lemma string_length_app (a b : string) :
  String.length (a ++ b) = (String.length a + String.length b)%nat.
Proof. induction a; simpl; auto. Qed.

Lemma string_drop_suffix (n : nat) (s : string) :
  exists pre, s = pre ++ string_drop n s.
Proof.
  revert s. induction n as [|n IH]; intros s.
  - exists "". reflexivity.
  - destruct s as [|a s]; [exists ""; reflexivity|].
    destruct (IH s) as [pre Hpre]. exists (String a pre).
    cbn [string_drop append]. rewrite <- Hpre. reflexivity.
Qed.

(** [s.endswith(p)] holds exactly when [s] is some string followed by [p]. *)
Lemma endswith_spec (s p : string) :
  endswith s p = true <-> exists pre, s = pre ++ p.
Proof.
  unfold endswith. rewrite andb_true_iff, String.eqb_eq, Nat.leb_le. split.
  - intros [Hdrop _].
    destruct (string_drop_suffix (String.length s - String.length p) s)
      as [pre Hpre].
    exists pre. rewrite Hdrop in Hpre. exact Hpre.
  - intros [pre ->]. rewrite string_length_app. split; [|lia].
    replace (String.length pre + String.length p - String.length p)%nat
      with (String.length pre) by lia.
    apply string_drop_app.
Qed.

Lemma string_app_assoc (a b c : string) : ((a ++ b) ++ c = a ++ (b ++ c))%string.
Proof. induction a; simpl; congruence. Qed.

(** ** Dictionaries *)

Lemma dict_get_set_same d k v : dict_get (dict_set d k v) k = Some v.
Proof.
  induction d as [|[k' v'] d IH]; simpl.
  - rewrite String.eqb_refl. reflexivity.
  - destruct (String.eqb k' k) eqn:Hk; simpl; rewrite Hk; auto.
Qed.

Lemma dict_get_set_other d k k' v :
  k' <> k -> dict_get (dict_set d k v) k' = dict_get d k'.
Proof.
  intros Hne. induction d as [|[k0 v0] d IH]; simpl.
  - destruct (String.eqb_spec k k'); congruence.
  - destruct (String.eqb_spec k0 k); simpl.
    + subst k0. destruct (String.eqb_spec k k'); congruence.
    + rewrite IH. reflexivity.
Qed.

Lemma dict_set_keys d k v :
  dict_has d k = true -> map fst (dict_set d k v) = map fst d.
Proof.
  unfold dict_has. induction d as [|[k0 v0] d IH]; simpl; [discriminate|].
  destruct (String.eqb k0 k); simpl; auto.
  intros H. rewrite IH; auto.
Qed.

(** ** Data-URL stripping *)

Lemma strip_data_url_split (mime payload : string) :
  exists pre rest,
    "data:" ++ mime ++ ";base64," ++ payload = pre ++ "," ++ rest /\
    (forall a b, pre <> a ++ "," ++ b) /\
    strip_data_url ("data:" ++ mime ++ ";base64," ++ payload) = rest.
Proof.
  set (s := "data:" ++ mime ++ ";base64," ++ payload).
  assert (Hs : s = ("data:" ++ mime ++ ";base64") ++ String "," payload).
  { unfold s. simpl. rewrite !string_app_assoc. reflexivity. }
  destruct (find_char_some_app "," ("data:" ++ mime ++ ";base64") payload)
    as [i Hi].
  rewrite <- Hs in Hi.
  destruct (find_char_split _ _ _ Hi) as (pre & rest & Heq & Hpre & _ & Hdrop).
  exists pre, rest. split; [exact Heq|].
  split; [exact (find_char_none _ _ Hpre)|].
  unfold strip_data_url.
  assert (Hstart : startswith s "data:" = true) by reflexivity.
  rewrite Hstart, Hi. exact Hdrop.
Qed.

Lemma strip_data_url_payload (mime payload : string) :
  find_char "," mime = None ->
  strip_data_url ("data:" ++ mime ++ ";base64," ++ payload) = payload.
Proof.
  intros Hmime.
  assert (Hpre : find_char "," ("data:" ++ mime ++ ";base64") = None).
  { simpl. clear payload.
    induction mime as [|a m IH]; simpl in *; [reflexivity|].
    destruct (Ascii.eqb a ","); [discriminate|].
    destruct (find_char "," m); [discriminate|].
    rewrite IH; reflexivity. }
  assert (Hs : "data:" ++ mime ++ ";base64," ++ payload
               = ("data:" ++ mime ++ ";base64") ++ String "," payload).
  { simpl. rewrite !string_app_assoc. reflexivity. }
  unfold strip_data_url.
  assert (Hstart : startswith ("data:" ++ mime ++ ";base64," ++ payload)
                     "data:" = true) by reflexivity.
  rewrite Hstart, Hs, (find_char_app _ _ _ Hpre).
  apply string_drop_app_cons.
Qed.

(** What the injection writes into a node, and where. *)
Lemma inject_first_image_ok w node_id nd inputs image s rest :
  dict_get w node_id = Some (VDict nd) ->
  dict_get nd "inputs" = Some (VDict inputs) ->
  py_getitem image (VStr "image") = Ok (VStr s) ->
  inject_first_image (VDict w) node_id (VList (image :: rest)) =
  Ok (VDict (dict_set w node_id
               (VDict (dict_set nd "inputs"
                         (VDict (dict_set inputs "data"
                                   (VStr (strip_data_url s))))))),
      true).
Proof.
  intros Hw Hnd Himg. unfold inject_first_image. cbn [py_iter rbind].
  rewrite Himg. cbn [rbind py_strip_data_url py_getitem hashable].
  rewrite Hw. cbn [rbind py_getitem hashable]. rewrite Hnd. reflexivity.
Qed.

(** What the upload loop decodes for an image. *)
Lemma upload_loop_cons E image name s rest k responses upload_errors :
  py_getitem image (VStr "name") = Ok name ->
  py_getitem image (VStr "image") = Ok (VStr s) ->
  upload_loop E (image :: rest) k responses upload_errors =
  bind (upload_one E k name (strip_data_url s))
    (fun r =>
       match r with
       | inl err =>
           upload_loop E rest (S k) responses (upload_errors ++ [err])%list
       | inr msg =>
           upload_loop E rest (S k) (responses ++ [msg])%list upload_errors
       end).
Proof.
  intros Hname Himg. cbn [upload_loop]. rewrite Hname, Himg.
  rewrite bind_lift_ok. rewrite bind_lift_ok.
  cbn [py_strip_data_url]. rewrite bind_lift_ok. reflexivity.
Qed.

(** C6. A data URL "data:<mime>;base64,<payload>" is cut after its first
    comma (which leaves the payload when the mime part has no comma), a
    string that does not start with "data:" is left as it is, and the
    resulting string is what the upload loop hands to the base64 decoder and
    what the injection writes into the node. *)
Theorem data_url_stripping :
  (forall mime payload : string,
     exists pre rest,
       "data:" ++ mime ++ ";base64," ++ payload = pre ++ "," ++ rest /\
       (forall a b, pre <> a ++ "," ++ b) /\
       strip_data_url ("data:" ++ mime ++ ";base64," ++ payload) = rest) /\
  (forall mime payload : string,
     find_char "," mime = None ->
     strip_data_url ("data:" ++ mime ++ ";base64," ++ payload) = payload) /\
  (forall s : string, startswith s "data:" = false -> strip_data_url s = s) /\
  (forall E image name s rest k responses upload_errors,
     py_getitem image (VStr "name") = Ok name ->
     py_getitem image (VStr "image") = Ok (VStr s) ->
     upload_loop E (image :: rest) k responses upload_errors =
     bind (upload_one E k name (strip_data_url s))
       (fun r =>
          match r with
          | inl err =>
              upload_loop E rest (S k) responses (upload_errors ++ [err])%list
          | inr msg =>
              upload_loop E rest (S k) (responses ++ [msg])%list upload_errors
          end)) /\
  (forall w node_id nd inputs image s rest,
     dict_get w node_id = Some (VDict nd) ->
     dict_get nd "inputs" = Some (VDict inputs) ->
     py_getitem image (VStr "image") = Ok (VStr s) ->
     inject_first_image (VDict w) node_id (VList (image :: rest)) =
     Ok (VDict (dict_set w node_id
                  (VDict (dict_set nd "inputs"
                            (VDict (dict_set inputs "data"
                                      (VStr (strip_data_url s))))))),
         true)).
Proof.
  split; [exact strip_data_url_split|].
  split; [exact strip_data_url_payload|].
  split; [intros s Hs; unfold strip_data_url; rewrite Hs; reflexivity|].
  split; [exact upload_loop_cons|exact inject_first_image_ok].
Qed.

Lemma data_url_stripping_witness :
  strip_data_url "data:image/png;base64,AAAA" = "AAAA" /\
  strip_data_url "AAAA" = "AAAA" /\
  upload_loop sample_env [image_input "in.png" "data:image/png;base64,AAAA"]
    O [] [] =
  bind (upload_one sample_env O (VStr "in.png") "AAAA")
    (fun r =>
       match r with
       | inl err => upload_loop sample_env [] 1 [] ([] ++ [err])%list
       | inr msg => upload_loop sample_env [] 1 ([] ++ [msg])%list []
       end) /\
  inject_first_image base64_workflow "2"
    (VList [image_input "in.png" "data:image/png;base64,AAAA"]) =
  Ok (VDict [("1", node "KSampler" [("seed", VInt 5)]);
             ("2", node "LoadImageFromBase64" [("data", VStr "AAAA")]);
             ("5", node "Base64ToImage" []);
             ("9", node "SaveImage" [("images", VList [VStr "2"; VInt 0])])],
      true).
Proof.
  destruct data_url_stripping as (_ & Hpayload & Hbare & Hupload & Hinject).
  split; [exact (Hpayload "image/png" "AAAA" eq_refl)|].
  split; [exact (Hbare "AAAA" eq_refl)|].
  split;
    [exact (Hupload sample_env
              (image_input "in.png" "data:image/png;base64,AAAA")
              (VStr "in.png") "data:image/png;base64,AAAA" [] O [] []
              eq_refl eq_refl)|].
  exact (Hinject
           [("1", node "KSampler" [("seed", VInt 5)]);
            ("2", node "LoadImageFromBase64" [("data", VStr "")]);
            ("5", node "Base64ToImage" []);
            ("9", node "SaveImage" [("images", VList [VStr "2"; VInt 0])])]
           "2"
           [("class_type", VStr "LoadImageFromBase64");
            ("inputs", VDict [("data", VStr "")])]
           [("data", VStr "")]
           (image_input "in.png" "data:image/png;base64,AAAA")
           "data:image/png;base64,AAAA" [] eq_refl eq_refl eq_refl).
Defined.

(** ** Input validation *)

Lemma py_get_dict d k : py_get (VDict d) k = Ok (dict_field d k).
Proof. reflexivity. Qed.

Lemma validate_input_mapping E job_input d :
  input_mapping E job_input d ->
  validate_input E job_input = validate_parsed E (VDict d).
Proof.
  intros [->|(s & -> & Hs)]; [reflexivity|].
  unfold validate_input. rewrite Hs. reflexivity.
Qed.

Lemma truthy_str name : name <> "" -> truthy (VStr name) = true.
Proof.
  intros Hne. unfold truthy. destruct (String.eqb_spec name ""); [contradiction|reflexivity].
Qed.

(** The three ways [validate_parsed] goes on after reading the two workflow
    fields. *)
Lemma validate_parsed_missing E d :
  truthy (dict_field d "workflow") = false ->
  truthy (dict_field d "workflow_name") = false ->
  validate_parsed E (VDict d) = ret (VNone, VStr MSG_MISSING_WORKFLOW).
Proof.
  intros Hw Hn. unfold validate_parsed.
  rewrite !py_get_dict, !bind_lift_ok, Hw, Hn. reflexivity.
Qed.

Lemma validate_parsed_inline E d :
  truthy (dict_field d "workflow") = true ->
  truthy (dict_field d "workflow_name") = false ->
  validate_parsed E (VDict d) =
  validate_images (VDict d) (dict_field d "workflow").
Proof.
  intros Hw Hn. unfold validate_parsed.
  rewrite !py_get_dict, !bind_lift_ok, Hw, Hn. reflexivity.
Qed.

Lemma validate_parsed_named E d :
  truthy (dict_field d "workflow_name") = true ->
  validate_parsed E (VDict d) =
  bind (load_workflow_by_name E (dict_field d "workflow_name"))
    (fun workflow =>
       if negb (truthy workflow) then
         ret (VNone,
              VStr ("Could not load workflow: "
                      ++ fstr E (dict_field d "workflow_name")))
       else validate_images (VDict d) workflow).
Proof.
  intros Hn. unfold validate_parsed.
  rewrite !py_get_dict, !bind_lift_ok, Hn, andb_false_r. reflexivity.
Qed.

(** Loading by a string name never raises: every failure is [None]. *)
Lemma load_workflow_by_name_total E name :
  exists loaded tr, load_workflow_by_name E (VStr name) = (Ok loaded, tr).
Proof.
  unfold load_workflow_by_name. cbn [py_endswith]. rewrite bind_lift_ok.
  match goal with
  | |- context [path_join _ ?n] =>
      assert (Hn : exists s, n = VStr s) by (destruct (endswith name ".json"); eauto)
  end.
  destruct Hn as [s ->]. cbn [path_join]. rewrite bind_lift_ok.
  destruct (path_exists E (join2 WORKFLOW_DIR s)); cbn.
  - destruct (open_json E (join2 WORKFLOW_DIR s)) as [wd|e]; cbn; eauto.
    destruct (canonicalize wd); cbn; eauto.
  - eauto.
Qed.

(** The outcomes of the check of [images]. *)
Lemma validate_images_cases d workflow :
  forall v err,
    result (validate_images (VDict d) workflow) = Ok (v, err) ->
    (v = VNone /\ err = VStr MSG_IMAGES_SHAPE) \/
    (v = VDict [("workflow", workflow); ("images", dict_field d "images")] /\
     err = VNone /\
     (dict_field d "images" = VNone \/
      exists l, dict_field d "images" = VList l /\
                all_name_and_image l = Ok true)).
Proof.
  intros v err. unfold validate_images. rewrite py_get_dict, bind_lift_ok.
  destruct (dict_field d "images") as [|b|z|s|l|d'] eqn:Himg;
    cbn; try (intros [= <- <-]; auto; fail).
  destruct (all_name_and_image l) as [[|]|e] eqn:Hall; cbn;
    try discriminate; intros [= <- <-]; eauto 8.
Qed.

(** C10. A [workflow] field that is present but falsy counts as missing: with
    no truthy [workflow_name] beside it, validation returns the error
    "Missing 'workflow' or 'workflow_name' parameter". *)
Theorem falsy_workflow_is_missing E job_input d workflow :
  input_mapping E job_input d ->
  dict_get d "workflow" = Some workflow ->
  truthy workflow = false ->
  (forall name, dict_get d "workflow_name" = Some name -> truthy name = false) ->
  validate_input E job_input =
  ret (VNone, VStr "Missing 'workflow' or 'workflow_name' parameter").
Proof.
  intros Hin Hw Hfalsy Hname.
  rewrite (validate_input_mapping _ _ _ Hin).
  apply validate_parsed_missing; unfold dict_field.
  - rewrite Hw. exact Hfalsy.
  - destruct (dict_get d "workflow_name") as [n|]; auto.
Qed.

Lemma falsy_workflow_is_missing_witness :
  validate_input sample_env
    (VDict [("workflow", VDict []); ("workflow_name", VStr "")]) =
  ret (VNone, VStr "Missing 'workflow' or 'workflow_name' parameter").
Proof.
  apply (falsy_workflow_is_missing sample_env _
           [("workflow", VDict []); ("workflow_name", VStr "")] (VDict [])).
  - left. reflexivity.
  - reflexivity.
  - reflexivity.
  - intros name [= <-]. reflexivity.
Defined.

(** C9 (as the code has it). For an input with both [workflow] and
    [workflow_name], what validation does is decided by the value of
    [workflow_name]:
    - a non-empty string: the inline workflow is dropped, a validated request
      carries the workflow loaded for the name, and when loading gives nothing
      (or an empty value) validation fails with
      "Could not load workflow: <name>";
    - a falsy value (null, the empty string, 0, false, an empty list or
      mapping): the catalog is not consulted; a truthy inline workflow is kept
      and is the validated request's workflow, a falsy one gives the
      missing-parameter error;
    - a truthy value that is not a string: validation raises
      [AttributeError] before any file is touched. *)
Theorem workflow_name_overrides_inline E job_input d inline workflow_name :
  input_mapping E job_input d ->
  dict_get d "workflow" = Some inline ->
  dict_get d "workflow_name" = Some workflow_name ->
  (forall name,
      workflow_name = VStr name ->
      name <> "" ->
      exists loaded tr,
        load_workflow_by_name E (VStr name) = (Ok loaded, tr) /\
        (truthy loaded = false ->
         validate_input E job_input =
         (Ok (VNone, VStr ("Could not load workflow: " ++ name)), tr)) /\
        (truthy loaded = true ->
         validate_input E job_input =
         (result (validate_images (VDict d) loaded),
          (tr ++ trace (validate_images (VDict d) loaded))%list) /\
         forall validated_data error_message,
           result (validate_input E job_input)
           = Ok (validated_data, error_message) ->
           truthy error_message = false ->
           py_getitem validated_data (VStr "workflow") = Ok loaded)) /\
  (truthy workflow_name = false ->
   truthy inline = true ->
   validate_input E job_input = validate_images (VDict d) inline /\
   trace (validate_input E job_input) = [] /\
   forall validated_data error_message,
     result (validate_input E job_input) = Ok (validated_data, error_message) ->
     truthy error_message = false ->
     py_getitem validated_data (VStr "workflow") = Ok inline) /\
  (truthy workflow_name = false ->
   truthy inline = false ->
   validate_input E job_input =
   ret (VNone, VStr "Missing 'workflow' or 'workflow_name' parameter")) /\
  (truthy workflow_name = true ->
   (forall name, workflow_name <> VStr name) ->
   validate_input E job_input =
   (Raise (Exn AttributeError
             ("'" ++ type_name workflow_name
                  ++ "' object has no attribute 'endswith'")),
    [])).
Proof.
  intros Hin Hinline Hname.
  rewrite (validate_input_mapping _ _ _ Hin).
  assert (Hfield : dict_field d "workflow_name" = workflow_name)
    by (unfold dict_field; rewrite Hname; reflexivity).
  assert (Hwf : dict_field d "workflow" = inline)
    by (unfold dict_field; rewrite Hinline; reflexivity).
  split; [|split; [|split]].
  - intros name -> Hne.
    destruct (load_workflow_by_name_total E name) as (loaded & tr & Hload).
    exists loaded, tr. split; [exact Hload|].
    rewrite validate_parsed_named by (rewrite Hfield; apply truthy_str, Hne).
    rewrite Hfield. split.
    + intros Hfalsy. rewrite (bind_run _ _ _ _ Hload), Hfalsy. cbn.
      rewrite app_nil_r. reflexivity.
    + intros Htruthy. rewrite (bind_run _ _ _ _ Hload), Htruthy.
      cbn [negb]. split; [reflexivity|].
      intros v err Hres Herr. cbn [result fst] in Hres.
      destruct (validate_images_cases d loaded v err Hres)
        as [[_ ->]|(-> & _ & _)]; [discriminate|reflexivity].
  - intros Hfalsy Htruthy.
    rewrite validate_parsed_inline
      by (rewrite ?Hwf, ?Hfield; assumption).
    rewrite Hwf. split; [reflexivity|]. split.
    + unfold validate_images. rewrite py_get_dict, bind_lift_ok.
      destruct (dict_field d "images") as [|b|z|s|l|d']; try reflexivity.
      destruct (all_name_and_image l) as [[|]|e]; reflexivity.
    + intros v err Hres Herr.
      destruct (validate_images_cases d inline v err Hres)
        as [[_ ->]|(-> & _ & _)]; [discriminate|reflexivity].
  - intros Hfalsy Hempty.
    apply validate_parsed_missing; rewrite ?Hwf, ?Hfield; assumption.
  - intros Htruthy Hstr.
    rewrite validate_parsed_named by (rewrite Hfield; exact Htruthy).
    rewrite Hfield. unfold load_workflow_by_name.
    destruct workflow_name as [|b|z|s|l|d']; try reflexivity.
    exfalso. exact (Hstr s eq_refl).
Qed.

Lemma workflow_name_overrides_inline_witness :
  validate_input sample_env
    (VDict [("workflow", base64_workflow); ("workflow_name", VStr "basic")]) =
  (Ok (VDict [("workflow", plain_workflow); ("images", VNone)], VNone),
   [EvPathExists "/runpod-volume/workflows/basic.json";
    EvOpenJson "/runpod-volume/workflows/basic.json"]) /\
  validate_input sample_env
    (VDict [("workflow", base64_workflow); ("workflow_name", VStr "other")]) =
  (Ok (VNone, VStr "Could not load workflow: other"),
   [EvPathExists "/runpod-volume/workflows/other.json"]) /\
  validate_input sample_env
    (VDict [("workflow", base64_workflow); ("workflow_name", VNone)]) =
  ret (VDict [("workflow", base64_workflow); ("images", VNone)], VNone) /\
  validate_input sample_env
    (VDict [("workflow", VDict []); ("workflow_name", VInt 0)]) =
  ret (VNone, VStr "Missing 'workflow' or 'workflow_name' parameter") /\
  validate_input sample_env
    (VDict [("workflow", base64_workflow); ("workflow_name", VList [VInt 1])]) =
  (Raise (Exn AttributeError "'list' object has no attribute 'endswith'"), []).
Proof.
  split; [|split; [|split; [|split]]].
  - destruct (proj1 (workflow_name_overrides_inline sample_env _
                [("workflow", base64_workflow); ("workflow_name", VStr "basic")]
                base64_workflow (VStr "basic")
                (or_introl eq_refl) eq_refl eq_refl) "basic" eq_refl)
      as (loaded & tr & Hload & _ & Hok); [discriminate|].
    injection Hload as <- <-. exact (proj1 (Hok eq_refl)).
  - destruct (proj1 (workflow_name_overrides_inline sample_env _
                [("workflow", base64_workflow); ("workflow_name", VStr "other")]
                base64_workflow (VStr "other")
                (or_introl eq_refl) eq_refl eq_refl) "other" eq_refl)
      as (loaded & tr & Hload & Hfail & _); [discriminate|].
    injection Hload as <- <-. exact (Hfail eq_refl).
  - exact (proj1 (proj1 (proj2 (workflow_name_overrides_inline sample_env _
             [("workflow", base64_workflow); ("workflow_name", VNone)]
             base64_workflow VNone (or_introl eq_refl) eq_refl eq_refl))
             eq_refl eq_refl)).
  - exact (proj1 (proj2 (proj2 (workflow_name_overrides_inline sample_env _
             [("workflow", VDict []); ("workflow_name", VInt 0)]
             (VDict []) (VInt 0) (or_introl eq_refl) eq_refl eq_refl)))
             eq_refl eq_refl).
  - apply (proj2 (proj2 (proj2 (workflow_name_overrides_inline sample_env _
             [("workflow", base64_workflow); ("workflow_name", VList [VInt 1])]
             base64_workflow (VList [VInt 1])
             (or_introl eq_refl) eq_refl eq_refl)))).
    + reflexivity.
    + intros name. discriminate.
Defined.

(** C9, counterexample: an input with both [workflow] and [workflow_name]
    whose [workflow_name] is the empty string (or null). Validation keeps
    the inline workflow and never consults the catalog, although loading
    that name gives nothing, so no workflow-loading error is returned. *)
Lemma empty_workflow_name_keeps_inline :
  dict_has [("workflow", base64_workflow); ("workflow_name", VStr "")]
    "workflow" = true /\
  dict_has [("workflow", base64_workflow); ("workflow_name", VStr "")]
    "workflow_name" = true /\
  load_workflow_by_name sample_env (VStr "") =
  (Ok VNone, [EvPathExists "/runpod-volume/workflows/.json"]) /\
  validate_input sample_env
    (VDict [("workflow", base64_workflow); ("workflow_name", VStr "")]) =
  (Ok (VDict [("workflow", base64_workflow); ("images", VNone)], VNone), []) /\
  validate_input sample_env
    (VDict [("workflow", base64_workflow); ("workflow_name", VNone)]) =
  (Ok (VDict [("workflow", base64_workflow); ("images", VNone)], VNone), []) /\
  base64_workflow <> VNone.
Proof. repeat split. discriminate. Qed.


Lemma all_name_and_image_true l :
  all_name_and_image l = Ok true -> Forall has_name_and_image l.
Proof.
  induction l as [|image l IH]; cbn [all_name_and_image]; [constructor|].
  destruct (py_contains (VStr "name") image) as [[|]|e] eqn:Hname;
    cbn [rbind]; try discriminate.
  destruct (py_contains (VStr "image") image) as [[|]|e] eqn:Himage;
    cbn [rbind]; try discriminate.
  intros H. constructor; [split; assumption|auto].
Qed.






(** ** Workflow canonicalization *)

Lemma canonicalize_no_prompt d :
  dict_has d "prompt" = false -> canonicalize (VDict d) = Ok (VDict d).
Proof.
  intros H. unfold canonicalize. cbn [isinstance_dict py_contains hashable rbind].
  rewrite H. reflexivity.
Qed.

Lemma canonicalize_prompt d w :
  dict_get d "prompt" = Some w -> canonicalize (VDict d) = Ok w.
Proof.
  intros H. unfold canonicalize.
  cbn [isinstance_dict py_contains py_getitem hashable rbind].
  unfold dict_has. rewrite H. cbn [negb rbind]. reflexivity.
Qed.

(** C5 (as the code has it). A mapping without a top-level [prompt] key is
    returned unchanged by the canonicalization step, and loading a catalog
    file that holds such a mapping returns that mapping; a mapping with a
    top-level [prompt] key is unwrapped to that key's value, whatever the
    value is, by the step and by loading a catalog file that holds it. *)
Theorem canonical_workflow_unchanged :
  (forall d,
      dict_has d "prompt" = false -> canonicalize (VDict d) = Ok (VDict d)) /\
  (forall E name d,
      path_exists E (workflow_file name) = true ->
      open_json E (workflow_file name) = Ok (VDict d) ->
      dict_has d "prompt" = false ->
      load_workflow_by_name E (VStr name) =
      (Ok (VDict d),
       [EvPathExists (workflow_file name); EvOpenJson (workflow_file name)])) /\
  (forall d w,
      dict_get d "prompt" = Some w -> canonicalize (VDict d) = Ok w) /\
  (forall E name d w,
      path_exists E (workflow_file name) = true ->
      open_json E (workflow_file name) = Ok (VDict d) ->
      dict_get d "prompt" = Some w ->
      load_workflow_by_name E (VStr name) =
      (Ok w,
       [EvPathExists (workflow_file name); EvOpenJson (workflow_file name)])).
Proof.
  assert (Hload : forall E name d w,
             path_exists E (workflow_file name) = true ->
             open_json E (workflow_file name) = Ok (VDict d) ->
             canonicalize (VDict d) = Ok w ->
             load_workflow_by_name E (VStr name) =
             (Ok w,
              [EvPathExists (workflow_file name);
               EvOpenJson (workflow_file name)])).
  { intros E name d w Hex Hopen Hcanon.
    unfold load_workflow_by_name. cbn [py_endswith]. rewrite bind_lift_ok.
    assert (Hjoin :
              path_join WORKFLOW_DIR
                (if endswith name ".json" then VStr name
                 else VStr (fstr E (VStr name) ++ ".json"))
              = Ok (workflow_file name)).
    { unfold workflow_file. destruct (endswith name ".json"); reflexivity. }
    rewrite Hjoin, bind_lift_ok, Hex. cbn [negb].
    unfold bind at 1. cbn [emit]. rewrite Hopen, bind_lift_ok.
    rewrite Hcanon. reflexivity. }
  split; [exact canonicalize_no_prompt|].
  split.
  { intros E name d Hex Hopen Hno.
    exact (Hload E name d (VDict d) Hex Hopen (canonicalize_no_prompt d Hno)). }
  split; [exact canonicalize_prompt|].
  intros E name d w Hex Hopen Hget.
  exact (Hload E name d w Hex Hopen (canonicalize_prompt d w Hget)).
Qed.

Lemma canonical_workflow_unchanged_witness :
  canonicalize plain_workflow = Ok plain_workflow /\
  canonicalize (VDict [("prompt", plain_workflow)]) = Ok plain_workflow /\
  canonicalize (VDict [("prompt", VInt 7); ("3", VNone)]) = Ok (VInt 7) /\
  load_workflow_by_name sample_env (VStr "basic") =
  (Ok plain_workflow,
   [EvPathExists (workflow_file "basic"); EvOpenJson (workflow_file "basic")]).
Proof.
  split; [|split; [|split]].
  - exact (proj1 canonical_workflow_unchanged
             [("3", node "LoadImage" [("image", VStr "in.png")]);
              ("9", node "SaveImage" [("images", VList [VStr "3"; VInt 0])])]
             eq_refl).
  - exact (proj1 (proj2 (proj2 canonical_workflow_unchanged))
             [("prompt", plain_workflow)] plain_workflow eq_refl).
  - exact (proj1 (proj2 (proj2 canonical_workflow_unchanged))
             [("prompt", VInt 7); ("3", VNone)] (VInt 7) eq_refl).
  - exact (proj2 (proj2 (proj2 canonical_workflow_unchanged))
             sample_env "basic" [("prompt", plain_workflow)] plain_workflow
             eq_refl eq_refl eq_refl).
Defined.

(** C5, counterexample: a workflow (a mapping from node id to node
    definition, here produced by resolving a file that wraps it under
    [prompt]) whose node id is "prompt" is not returned unchanged: the step
    unwraps it to the node definition. *)
Lemma canonicalize_not_idempotent :
  is_workflow prompt_node_workflow = true /\
  canonicalize (VDict [("prompt", prompt_node_workflow)])
  = Ok prompt_node_workflow /\
  canonicalize prompt_node_workflow = Ok (node "KSampler" [("seed", VInt 5)]) /\
  canonicalize prompt_node_workflow <> Ok prompt_node_workflow.
Proof. repeat split. discriminate. Qed.

(** ** Completion polling *)

Lemma sleep_nonneg ms : 0 <= ms -> sleep ms = emit (EvSleep ms).
Proof.
  intros H. unfold sleep. destruct (Z.ltb_spec ms 0); [lia|reflexivity].
Qed.

Lemma bind_emit {B} (e : event) (f : unit -> M B) :
  bind (emit e) f = (result (f tt), e :: trace (f tt)).
Proof. unfold bind, emit, result, trace. destruct (f tt); reflexivity. Qed.


Lemma get_history_run E k prompt_id :
  get_history E k prompt_id =
  (get_history_response E k prompt_id, [EvGetHistory prompt_id]).
Proof.
  unfold get_history. rewrite bind_emit. unfold lift. reflexivity.
Qed.

(** The loop's test on a history that is a mapping: the record counts as
    populated when it has an entry for the prompt id whose [outputs] is
    non-empty, and as pending when the entry or its [outputs] is missing or
    empty. *)
Lemma has_outputs_populated p hd entry :
  dict_get hd p = Some (VDict entry) ->
  truthy (dict_field entry "outputs") = true ->
  has_outputs (VStr p) (VDict hd) = Ok true.
Proof.
  intros Hentry Hout. unfold has_outputs.
  cbn [py_contains hashable rbind]. unfold dict_has. rewrite Hentry.
  cbn [py_getitem hashable rbind]. rewrite Hentry.
  cbn [rbind]. rewrite py_get_dict. cbn [rbind]. rewrite Hout. reflexivity.
Qed.

Lemma has_outputs_pending p hd :
  dict_get hd p = None \/
  (exists entry, dict_get hd p = Some (VDict entry) /\
                 truthy (dict_field entry "outputs") = false) ->
  has_outputs (VStr p) (VDict hd) = Ok false.
Proof.
  unfold has_outputs. cbn [py_contains hashable rbind]. unfold dict_has.
  intros [Hnone|(entry & Hentry & Hout)].
  - rewrite Hnone. reflexivity.
  - rewrite Hentry. cbn [py_getitem hashable rbind]. rewrite Hentry.
    cbn [rbind]. rewrite py_get_dict. cbn [rbind]. rewrite Hout. reflexivity.
Qed.






(** ** Inversion of runs *)

Lemma bind_ok_inv {A B} (m : M A) (f : A -> M B) (b : B) (t : list event) :
  bind m f = (Ok b, t) ->
  exists a t1 t2, m = (Ok a, t1) /\ f a = (Ok b, t2) /\ t = (t1 ++ t2)%list.
Proof.
  destruct m as [[a|e] t1]; cbn; [|discriminate].
  destruct (f a) as [r t2] eqn:Hf. intros [= -> <-].
  exists a, t1, t2. auto.
Qed.

Lemma lift_ok_inv {A} (r : res A) (a : A) (t : list event) :
  lift r = (Ok a, t) -> r = Ok a /\ t = [].
Proof. unfold lift. intros [= -> <-]. auto. Qed.

Lemma emit_ok_inv (e : event) (u : unit) (t : list event) :
  emit e = (Ok u, t) -> t = [e].
Proof. unfold emit. intros [= _ <-]. reflexivity. Qed.

Lemma ret_ok_inv {A} (a b : A) (t : list event) :
  ret a = (Ok b, t) -> a = b /\ t = [].
Proof. unfold ret. intros [= -> <-]. auto. Qed.

(** Takes a successful run apart, one [bind] at a time. *)
Ltac inv_run H :=
  repeat match type of H with
    | bind _ _ = (Ok _, _) =>
        let a := fresh "a" in
        let t1 := fresh "t" in
        let t2 := fresh "t" in
        let H1 := fresh "Hrun" in
        apply bind_ok_inv in H;
        destruct H as (a & t1 & t2 & H1 & H & ->);
        first [ apply lift_ok_inv in H1; destruct H1 as [H1 ->]
              | apply emit_ok_inv in H1; subst t1
              | idtac ]
    end.

(** ** Output resolution *)

Lemma probed_paths_app t1 t2 :
  probed_paths (t1 ++ t2) = (probed_paths t1 ++ probed_paths t2)%list.
Proof. unfold probed_paths. apply flat_map_app. Qed.

Lemma scans_directory_app t1 t2 :
  scans_directory (t1 ++ t2) = scans_directory t1 || scans_directory t2.
Proof. unfold scans_directory. apply existsb_app. Qed.

Lemma node_images_loop_spec E images :
  forall image_paths found tr,
    node_images_loop E images image_paths = (Ok found, tr) ->
    found = (image_paths ++ filter (path_exists E) (probed_paths tr))%list /\
    scans_directory tr = false.
Proof.
  induction images as [|image rest IH]; intros image_paths found tr Hrun.
  - apply ret_ok_inv in Hrun as [<- ->]. cbn. rewrite app_nil_r. auto.
  - cbn [node_images_loop] in Hrun. inv_run Hrun.
    apply IH in Hrun as [-> Hscan].
    cbn [app probed_paths flat_map filter scans_directory existsb is_walk orb].
    match goal with |- context [flat_map _ ?t] => fold (probed_paths t) end.
    split; [|exact Hscan].
    destruct (path_exists E _); [rewrite <- app_assoc|]; reflexivity.
Qed.

Lemma outputs_loop_spec E items :
  forall image_paths found tr,
    outputs_loop E items image_paths = (Ok found, tr) ->
    found = (image_paths ++ filter (path_exists E) (probed_paths tr))%list /\
    scans_directory tr = false.
Proof.
  induction items as [|[node_id node_output] rest IH];
    intros image_paths found tr Hrun.
  - apply ret_ok_inv in Hrun as [<- ->]. cbn. rewrite app_nil_r. auto.
  - cbn [outputs_loop] in Hrun. inv_run Hrun.
    match goal with H : py_contains _ _ = Ok ?b |- _ => destruct b end.
    + inv_run Hrun.
      match goal with
      | H : node_images_loop _ _ _ = _ |- _ =>
          apply node_images_loop_spec in H as [-> Hs1]
      end.
      apply IH in Hrun as [-> Hs2]. cbn [app].
      rewrite probed_paths_app, filter_app, scans_directory_app, Hs1, Hs2.
      rewrite app_assoc. auto.
    + apply IH in Hrun as [-> Hs]. auto.
Qed.

(** The pass over the outputs never walks a directory, whether it completes
    or raises. *)
Lemma node_images_loop_no_scan E images :
  forall image_paths,
    scans_directory (trace (node_images_loop E images image_paths)) = false.
Proof.
  induction images as [|image rest IH]; intros image_paths; [reflexivity|].
  cbn [node_images_loop].
  repeat (rewrite trace_bind_lift;
          match goal with
          | |- context [match ?r with Ok _ => _ | Raise _ => _ end] =>
              destruct r; [|reflexivity]
          end).
  rewrite bind_emit. cbn [trace snd scans_directory existsb is_walk orb].
  apply IH.
Qed.

Lemma outputs_loop_no_scan E items :
  forall image_paths,
    scans_directory (trace (outputs_loop E items image_paths)) = false.
Proof.
  induction items as [|[node_id node_output] rest IH]; intros image_paths;
    [reflexivity|].
  cbn [outputs_loop]. rewrite trace_bind_lift.
  destruct (py_contains (VStr "images") node_output) as [[|]|e];
    [|apply IH|reflexivity].
  rewrite trace_bind_lift.
  destruct (py_getitem node_output (VStr "images")) as [images|e];
    [|reflexivity].
  rewrite trace_bind_lift.
  destruct (py_iter images) as [image_list|e]; [|reflexivity].
  rewrite trace_bind, scans_directory_app, node_images_loop_no_scan.
  destruct (result (node_images_loop E image_list image_paths));
    [apply IH|reflexivity].
Qed.

(** On an output image of the data model the loop tests the path made of
    the output root, the subfolder and the filename. *)
Lemma node_images_loop_named E images :
  forallb is_output_image images = true ->
  forall image_paths,
    node_images_loop E images image_paths =
    (Ok (image_paths
           ++ filter (path_exists E) (map (output_image_path E) images))%list,
     map EvPathExists (map (output_image_path E) images)).
Proof.
  induction images as [|image rest IH]; intros Hwf image_paths.
  - cbn. rewrite app_nil_r. reflexivity.
  - cbn [forallb] in Hwf. apply andb_true_iff in Hwf as [Himage Hrest].
    cbn [node_images_loop map filter].
    assert (Hstep :
              exists subfolder filename,
                py_get_default image "subfolder" (VStr "") = Ok (VStr subfolder) /\
                py_getitem image (VStr "filename") = Ok (VStr filename) /\
                output_image_path E image =
                join2 (join2 (COMFY_OUTPUT_PATH E) subfolder) filename).
    { destruct image as [| | | | |d]; try discriminate.
      unfold is_output_image in Himage.
      unfold output_image_path, string_field.
      cbn [py_get_default py_getitem hashable].
      destruct (dict_get d "filename") as [[| | |filename| |]|];
        try discriminate.
      destruct (dict_get d "subfolder") as [[| | |subfolder| |]|];
        try discriminate; eauto. }
    destruct Hstep as (subfolder & filename & -> & -> & ->).
    rewrite !bind_lift_ok. cbn [path_join]. rewrite !bind_lift_ok, bind_emit.
    rewrite (IH Hrest). cbn [result trace fst snd].
    destruct (path_exists E _); [rewrite <- app_assoc|]; reflexivity.
Qed.

Lemma outputs_loop_named E items :
  well_formed_outputs items = true ->
  forall image_paths,
    outputs_loop E items image_paths =
    (Ok (image_paths ++ filter (path_exists E) (named_paths E items))%list,
     map EvPathExists (named_paths E items)).
Proof.
  induction items as [|[node_id node_output] rest IH]; intros Hwf image_paths.
  - cbn. rewrite app_nil_r. reflexivity.
  - cbn [well_formed_outputs forallb snd] in Hwf.
    apply andb_true_iff in Hwf as [Hnode Hrest].
    cbn [outputs_loop named_paths flat_map snd].
    fold (named_paths E rest).
    destruct node_output as [| | | | |d]; try discriminate.
    cbn [is_node_output node_output_images] in *.
    cbn [py_contains py_getitem hashable]. unfold dict_has.
    destruct (dict_get d "images") as [[| | | |images|]|]; try discriminate.
    + rewrite !bind_lift_ok. cbn [py_iter]. rewrite bind_lift_ok.
      rewrite (bind_run _ _ _ _ (node_images_loop_named E images Hnode _)).
      rewrite (IH Hrest). cbn [result trace fst snd].
      rewrite filter_app, map_app, app_assoc. reflexivity.
    + rewrite bind_lift_ok. cbn [map app]. apply (IH Hrest).
Qed.

(** *** Subtraction of floats *)

Lemma Qpow2_pos e : (0 < 2 ^ e)%Q.
Proof. apply Qpower_0_lt. reflexivity. Qed.

Lemma Qpow2_inv e : (2 ^ (- e) * 2 ^ e == 1)%Q.
Proof.
  rewrite <- Qpower_plus by discriminate.
  replace (- e + e) with 0 by lia. reflexivity.
Qed.

(** The nearest integer is within one half. *)
Lemma round_half_even_bounds x :
  (x - (1 # 2) <= inject_Z (round_half_even x) <= x + (1 # 2))%Q.
Proof.
  unfold round_half_even.
  pose proof (Qfloor_le x) as Hlo. pose proof (Qlt_floor x) as Hhi.
  rewrite inject_Z_plus in Hhi. change (inject_Z 1) with 1%Q in Hhi.
  destruct (Qcompare_spec (x - inject_Z (Qfloor x)) (1 # 2)) as [H|H|H].
  - destruct (Z.even (Qfloor x)); rewrite ?inject_Z_plus;
      change (inject_Z 1) with 1%Q; lra.
  - lra.
  - rewrite inject_Z_plus. change (inject_Z 1) with 1%Q. lra.
Qed.

(** At half a unit below an even integer the rounding goes up to it. *)
Lemma round_half_even_ge_even x m :
  Z.even m = true ->
  (inject_Z m - (1 # 2) <= x)%Q -> m <= round_half_even x.
Proof.
  intros Heven Hx. unfold round_half_even.
  pose proof (Qfloor_le x) as Hlo. pose proof (Qlt_floor x) as Hhi.
  assert (Hf : m - 1 <= Qfloor x).
  { assert (H : (inject_Z (m - 1) < inject_Z (Qfloor x + 1))%Q).
    { unfold Z.sub. rewrite !inject_Z_plus, inject_Z_opp.
      rewrite inject_Z_plus in Hhi. change (inject_Z 1) with 1%Q in *. lra. }
    rewrite <- Zlt_Qlt in H. lia. }
  destruct (Z.eq_dec (Qfloor x) (m - 1)) as [Heq|Hne].
  - rewrite Heq.
    assert (Hodd : Z.even (m - 1) = false).
    { rewrite Z.even_sub, Heven. reflexivity. }
    rewrite Hodd.
    destruct (Qcompare_spec (x - inject_Z (m - 1)) (1 # 2)) as [H|H|H]; try lia.
    unfold Z.sub in H. rewrite inject_Z_plus, inject_Z_opp in H.
    change (inject_Z 1) with 1%Q in H. lra.
  - destruct (Qcompare (x - inject_Z (Qfloor x)) (1 # 2));
      try destruct (Z.even (Qfloor x)); lia.
Qed.

Lemma round_half_even_ge_floor x m :
  (inject_Z m <= x)%Q -> m <= round_half_even x.
Proof.
  intros Hx. assert (Hf : m <= Qfloor x).
  { rewrite <- (Qfloor_Z m). apply Qfloor_resp_le, Hx. }
  unfold round_half_even.
  destruct (Qcompare (x - inject_Z (Qfloor x)) (1 # 2));
    try destruct (Z.even (Qfloor x)); lia.
Qed.

Lemma Qpow2_frac n m :
  0 <= n -> 0 <= m -> (2 ^ (n - m) == inject_Z (2 ^ n) / inject_Z (2 ^ m))%Q.
Proof.
  intros Hn Hm. rewrite Qpower_minus by discriminate.
  rewrite !Zpower_Qpower by assumption. reflexivity.
Qed.

Lemma Qfrac_le x y u v :
  0 < y -> 0 < v -> x * v <= u * y ->
  (inject_Z x / inject_Z y <= inject_Z u / inject_Z v)%Q.
Proof.
  intros Hy Hv H.
  assert (Hy' : (0 < inject_Z y)%Q) by (rewrite (Zlt_Qlt 0 y) in Hy; exact Hy).
  assert (Hv' : (0 < inject_Z v)%Q) by (rewrite (Zlt_Qlt 0 v) in Hv; exact Hv).
  apply Qle_shift_div_r; [exact Hy'|].
  setoid_replace (inject_Z u / inject_Z v * inject_Z y)%Q
    with (inject_Z u * inject_Z y / inject_Z v)%Q by (field; lra).
  apply Qle_shift_div_l; [exact Hv'|].
  rewrite <- !inject_Z_mult, <- Zle_Qle. exact H.
Qed.

Lemma Qfrac_lt x y u v :
  0 < y -> 0 < v -> x * v < u * y ->
  (inject_Z x / inject_Z y < inject_Z u / inject_Z v)%Q.
Proof.
  intros Hy Hv H.
  assert (Hy' : (0 < inject_Z y)%Q) by (rewrite (Zlt_Qlt 0 y) in Hy; exact Hy).
  assert (Hv' : (0 < inject_Z v)%Q) by (rewrite (Zlt_Qlt 0 v) in Hv; exact Hv).
  apply Qlt_shift_div_r; [exact Hy'|].
  setoid_replace (inject_Z u / inject_Z v * inject_Z y)%Q
    with (inject_Z u * inject_Z y / inject_Z v)%Q by (field; lra).
  apply Qlt_shift_div_l; [exact Hv'|].
  rewrite <- !inject_Z_mult, <- Zlt_Qlt. exact H.
Qed.

(** [Qlog2] is the binary exponent. *)
Lemma Qlog2_spec q :
  (0 < q)%Q -> (2 ^ Qlog2 q <= q)%Q /\ (q < 2 ^ (Qlog2 q + 1))%Q.
Proof.
  destruct q as [a b]. intros Hpos.
  assert (Ha : 0 < a).
  { unfold Qlt in Hpos. cbn in Hpos. lia. }
  destruct (Z.log2_spec a Ha) as [Ha1 Ha2].
  destruct (Z.log2_spec (Z.pos b) (Pos2Z.is_pos b)) as [Hb1 Hb2].
  pose proof (Z.log2_nonneg a) as Hla.
  pose proof (Z.log2_nonneg (Z.pos b)) as Hlb.
  assert (Hq : (a # b == inject_Z a / inject_Z (Z.pos b))%Q)
    by apply Qmake_Qdiv.
  unfold Qlog2. cbn [Qnum Qden].
  set (la := Z.log2 a) in *. set (lb := Z.log2 (Z.pos b)) in *.
  assert (Hpa : 0 < 2 ^ la) by (apply Z.pow_pos_nonneg; lia).
  assert (Hpb : 0 < 2 ^ lb) by (apply Z.pow_pos_nonneg; lia).
  destruct (Qle_bool (2 ^ (la - lb)) (a # b)) eqn:Htest.
  - split; [apply Qle_bool_iff, Htest|].
    replace (la - lb + 1) with (Z.succ la - lb) by lia.
    rewrite Qpow2_frac, Hq by lia.
    apply Qfrac_lt; try lia. nia.
  - split.
    + replace (la - lb - 1) with (la - Z.succ lb) by lia.
      rewrite Qpow2_frac, Hq by lia.
      assert (0 < 2 ^ Z.succ lb) by (apply Z.pow_pos_nonneg; lia).
      apply Qfrac_le; try lia. nia.
    + replace (la - lb - 1 + 1) with (la - lb) by lia.
      apply Qnot_le_lt. intros Hle. apply Qle_bool_iff in Hle. congruence.
Qed.

Lemma round_positive_nonneg q : (0 <= q)%Q -> (0 <= round_positive q)%Q.
Proof.
  intros Hq. unfold round_positive.
  set (e := Z.max (Qlog2 q - 52) (-1074)).
  apply Qmult_le_0_compat; [|apply Qlt_le_weak, Qpow2_pos].
  change 0%Q with (inject_Z 0). rewrite <- Zle_Qle.
  apply round_half_even_ge_floor. change (inject_Z 0) with 0%Q.
  apply Qmult_le_0_compat; [exact Hq|apply Qlt_le_weak, Qpow2_pos].
Qed.

Lemma round_positive_upper q :
  (round_positive q
   <= q + 2 ^ (Z.max (Qlog2 q - 52) (-1074) - 1))%Q.
Proof.
  unfold round_positive. set (e := Z.max (Qlog2 q - 52) (-1074)).
  pose proof (Qpow2_pos e) as Hp. pose proof (Qpow2_inv e) as Hinv.
  destruct (round_half_even_bounds (q * 2 ^ (- e))) as [_ Hup].
  apply (Qmult_le_compat_r _ _ (2 ^ e)) in Hup; [|lra].
  eapply Qle_trans; [exact Hup|].
  assert (Hhalf : (2 ^ (e - 1) == 2 ^ e * (1 # 2))%Q).
  { rewrite Qpower_minus by discriminate. reflexivity. }
  rewrite Hhalf.
  setoid_replace ((q * 2 ^ (- e) + (1 # 2)) * 2 ^ e)%Q
    with (q * (2 ^ (- e) * 2 ^ e) + 2 ^ e * (1 # 2))%Q by ring.
  rewrite Hinv. lra.
Qed.

(** The floats below 30 are [2^-48] apart, and 30 has an even significand:
    a number rounds to a float below 30 exactly when it is more than
    [2^-49] below 30. *)
Lemma binary64_round_lt_30 d :
  (binary64_round d < 30 <-> d < 30 - 2 ^ (-49))%Q.
Proof.
  assert (H49 : (2 ^ (-49) == 1 # 562949953421312)%Q) by reflexivity.
  split.
  - intros Hlt. apply Qnot_le_lt. intros Hge. apply (Qlt_not_le _ _ Hlt).
    clear Hlt. rewrite H49 in Hge.
    assert (Hpos : (0 < d)%Q) by lra.
    unfold binary64_round.
    destruct d as [[|a|a] b]; cbn [Qnum];
      try (exfalso; revert Hpos; unfold Qlt; cbn; lia).
    set (d := (Z.pos a # b)%Q) in *.
    destruct (Qlog2_spec d Hpos) as [Hlo Hhi].
    assert (HL : 4 <= Qlog2 d).
    { assert (H : (2 ^ 4 < 2 ^ (Qlog2 d + 1))%Q).
      { eapply Qle_lt_trans; [|exact Hhi].
        change (2 ^ 4)%Q with 16%Q. lra. }
      apply Qpower_lt_compat_l_inv in H; [lia|reflexivity]. }
    unfold round_positive. rewrite Z.max_l by lia.
    set (e := Qlog2 d - 52).
    pose proof (Qpow2_pos e) as Hp. pose proof (Qpow2_inv e) as Hinv.
    pose proof (Qpow2_pos (- e)) as Hpi.
    destruct (Z.eq_dec (Qlog2 d) 4) as [H4|H4].
    + assert (He : e = -48) by (unfold e; lia). rewrite He in *.
      assert (Hm : 30 * 2 ^ 48 <= round_half_even (d * 2 ^ (- -48))).
      { apply round_half_even_ge_even; [reflexivity|].
        change (- -48) with 48.
        assert (H48 : (2 ^ 48 == inject_Z (2 ^ 48))%Q) by reflexivity.
        rewrite H48.
        change (inject_Z (30 * 2 ^ 48)) with (8444249301319680 # 1)%Q.
        change (inject_Z (2 ^ 48)) with (281474976710656 # 1)%Q.
        lra. }
      rewrite Zle_Qle in Hm.
      apply (Qmult_le_compat_r _ _ (2 ^ (-48))) in Hm; [|lra].
      eapply Qle_trans; [|exact Hm].
      apply Qle_lteq. right. reflexivity.
    + assert (Hx : 2 ^ 52 <= round_half_even (d * 2 ^ (- e))).
      { apply round_half_even_ge_floor.
        apply (Qmult_le_compat_r _ _ (2 ^ (- e))) in Hlo; [|lra].
        eapply Qle_trans; [|exact Hlo].
        rewrite <- Qpower_plus by discriminate.
        replace (Qlog2 d + - e) with 52 by (unfold e; lia).
        apply Qle_lteq. right. reflexivity. }
      rewrite Zle_Qle in Hx.
      apply (Qmult_le_compat_r _ _ (2 ^ e)) in Hx; [|lra].
      eapply Qle_trans; [|exact Hx].
      rewrite Zpower_Qpower by lia. change (inject_Z 2) with 2%Q.
      rewrite <- Qpower_plus by discriminate.
      replace (52 + e) with (Qlog2 d) by (unfold e; lia).
      apply Qle_trans with (2 ^ 5)%Q; [change (2 ^ 5)%Q with 32%Q; lra|].
      apply Qpower_le_compat_l; [lia|lra].
  - intros Hlt. rewrite H49 in Hlt. unfold binary64_round.
    destruct (Qnum d) eqn:Hnum.
    + lra.
    + assert (Hpos : (0 < d)%Q).
      { destruct d as [a b]. cbn in Hnum. subst a. reflexivity. }
      destruct (Qlog2_spec d Hpos) as [Hlo Hhi].
      assert (HL : Qlog2 d <= 4).
      { assert (H : (2 ^ Qlog2 d < 2 ^ 5)%Q).
        { eapply Qle_lt_trans; [exact Hlo|].
          change (2 ^ 5)%Q with 32%Q. lra. }
        apply Qpower_lt_compat_l_inv in H; [lia|reflexivity]. }
      pose proof (round_positive_upper d) as Hup.
      assert (Hpow : (2 ^ (Z.max (Qlog2 d - 52) (-1074) - 1) <= 2 ^ (-49))%Q).
      { apply Qpower_le_compat_l; [lia|lra]. }
      rewrite H49 in Hpow. lra.
    + assert (Hneg : (0 <= - d)%Q).
      { destruct d as [a b]. cbn in Hnum. subst a. unfold Qle. cbn. lia. }
      pose proof (round_positive_nonneg (- d) Hneg). lra.
Qed.

Lemma Qltb_lt (a b : Q) : Qltb a b = true <-> (a < b)%Q.
Proof.
  unfold Qltb. rewrite negb_true_iff, <- not_true_iff_false, Qle_bool_iff.
  split; [apply Qnot_le_lt|apply Qlt_not_le].
Qed.

(** The test of line 293 in exact arithmetic. *)
Lemma float_sub_lt_30 (now mtime : Q) :
  (float_sub now mtime < 30 <-> now - mtime < 30 - 2 ^ (-49))%Q.
Proof. unfold float_sub. apply binary64_round_lt_30. Qed.

Lemma float_sub_lt_30_newer (now mtime : Q) :
  (float_sub now mtime < 30 -> now - 30 < mtime)%Q.
Proof.
  intros H. apply float_sub_lt_30 in H.
  assert (H49 : (2 ^ (-49) == 1 # 562949953421312)%Q) by reflexivity.
  rewrite H49 in H. lra.
Qed.

(** *** The directory scan *)

Lemma files_loop_spec E root files :
  forall image_paths found tr,
    files_loop E (time_now E) root files image_paths = (Ok found, tr) ->
    forall p, In p found <-> In p image_paths \/ recent_image E root files p.
Proof.
  induction files as [|file rest IH]; intros image_paths found tr Hrun p.
  - apply ret_ok_inv in Hrun as [<- ->]. split; [auto|].
    intros [H|(file & mtime & [] & _)]. exact H.
  - cbn [files_loop] in Hrun.
    destruct (has_image_extension file) eqn:Hext.
    + inv_run Hrun. rewrite (IH _ _ _ Hrun p). clear IH Hrun.
      match goal with
      | H : getmtime E _ = Ok ?m |- _ => rename m into mtime; rename H into Hmtime
      end.
      destruct (Qltb (float_sub (time_now E) mtime) 30) eqn:Hrecent.
      * rewrite in_app_iff. cbn [In]. split.
        -- intros [[H|[<-|[]]]|(f & m & Hin & Hrest)].
           ++ auto.
           ++ right. exists file, mtime. cbn [In].
              rewrite <- Qltb_lt. auto 6.
           ++ right. exists f, m. cbn [In]. auto.
        -- intros [H|(f & m & [<-|Hin] & Hrest)]; [auto| |].
           ++ left. right. left. symmetry. apply Hrest.
           ++ right. exists f, m. auto.
      * split.
        -- intros [H|(f & m & Hin & Hrest)]; [auto|].
           right. exists f, m. cbn [In]. auto.
        -- intros [H|(f & m & [<-|Hin] & Hp & Hx & Hm & Hlt)]; [auto| |].
           ++ subst p. rewrite Hmtime in Hm. injection Hm as <-.
              apply Qltb_lt in Hlt. congruence.
           ++ right. exists f, m. auto 6.
    + rewrite (IH _ _ _ Hrun p). split.
      * intros [H|(f & m & Hin & Hrest)]; [auto|].
        right. exists f, m. cbn [In]. auto.
      * intros [H|(f & m & [<-|Hin] & Hp & Hx & Hrest)]; [auto|congruence|].
        right. exists f, m. auto.
Qed.

Lemma has_image_extension_spec (file : string) :
  has_image_extension file = true <->
  exists base ext,
    In ext [".png"; ".jpg"; ".jpeg"; ".webp"] /\ file = base ++ ext.
Proof.
  unfold has_image_extension, IMAGE_EXTENSIONS. rewrite existsb_exists. split.
  - intros (ext & Hin & Hend). apply endswith_spec in Hend as [base ->].
    exists base, ext. auto.
  - intros (base & ext & Hin & ->). exists ext. split; [exact Hin|].
    apply endswith_spec. exists base. reflexivity.
Qed.

Lemma walk_loop_spec E entries :
  forall image_paths found tr,
    walk_loop E (time_now E) entries image_paths = (Ok found, tr) ->
    forall p,
      In p found <->
      In p image_paths \/
      exists root dirs files,
        In (root, dirs, files) entries /\ recent_image E root files p.
Proof.
  induction entries as [|[[root dirs] files] rest IH];
    intros image_paths found tr Hrun p.
  - apply ret_ok_inv in Hrun as [<- ->]. split; [auto|].
    intros [H|(r & ds & fs & [] & _)]. exact H.
  - cbn [walk_loop] in Hrun. inv_run Hrun.
    match goal with
    | H : files_loop _ _ _ _ _ = _ |- _ =>
        pose proof (files_loop_spec _ _ _ _ _ _ H) as Hfiles
    end.
    rewrite (IH _ _ _ Hrun p), Hfiles. cbn [In]. split.
    + intros [[H|H]|(r & ds & fs & Hin & Hrec)]; [auto| |].
      * right. exists root, dirs, files. auto.
      * right. exists r, ds, fs. auto.
    + intros [H|(r & ds & fs & [[= <- <- <-]|Hin] & Hrec)]; [auto|auto|].
      right. exists r, ds, fs. auto.
Qed.

(** The loops complete exactly when every image file has a modification
    time. *)
Lemma files_loop_completes E now root files :
  forall image_paths,
    (exists found,
        result (files_loop E now root files image_paths) = Ok found) <->
    (forall file,
        In file files -> has_image_extension file = true ->
        exists mtime, getmtime E (join2 root file) = Ok mtime).
Proof.
  induction files as [|file rest IH]; intros image_paths.
  - split; [intros _ file []|intros _; eexists; reflexivity].
  - cbn [files_loop]. destruct (has_image_extension file) eqn:Hext.
    + rewrite bind_emit. cbn [result fst].
      destruct (getmtime E (join2 root file)) as [mtime|e] eqn:Hmtime.
      * rewrite bind_lift_ok, IH. split.
        -- intros H f [<-|Hin] Hf; [eauto|apply H; assumption].
        -- intros H f Hin. apply H. right. exact Hin.
      * cbn. split.
        -- intros [found Hfound]. discriminate.
        -- intros H. destruct (H file (or_introl eq_refl) Hext) as [m Hm].
           congruence.
    + rewrite IH. split.
      * intros H f [<-|Hin] Hf; [congruence|apply H; assumption].
      * intros H f Hin. apply H. right. exact Hin.
Qed.

Lemma walk_loop_completes E now entries :
  forall image_paths,
    (exists found, result (walk_loop E now entries image_paths) = Ok found) <->
    (forall root dirs files file,
        In (root, dirs, files) entries ->
        In file files -> has_image_extension file = true ->
        exists mtime, getmtime E (join2 root file) = Ok mtime).
Proof.
  induction entries as [|[[root dirs] files] rest IH]; intros image_paths.
  - split; [intros _ r ds fs f []|intros _; eexists; reflexivity].
  - cbn [walk_loop].
    pose proof (run_eta (files_loop E now root files image_paths)) as Hrun.
    destruct (result (files_loop E now root files image_paths))
      as [paths|e] eqn:Hres.
    + rewrite (bind_run _ _ _ _ Hrun). cbn [result fst]. rewrite IH.
      assert (Hfiles :
                forall file,
                  In file files -> has_image_extension file = true ->
                  exists mtime, getmtime E (join2 root file) = Ok mtime).
      { apply (files_loop_completes E now root files image_paths).
        exists paths. exact Hres. }
      split.
      * intros H r ds fs f [[= <- <- <-]|Hin];
          [apply Hfiles|apply (H r ds fs f Hin)].
      * intros H r ds fs f Hin. apply (H r ds fs f). right. exact Hin.
    + rewrite (bind_raise _ _ _ _ Hrun). cbn [result fst]. split.
      * intros [found Hfound]. discriminate.
      * intros H. exfalso.
        assert (Hok : exists found,
                   result (files_loop E now root files image_paths) = Ok found).
        { apply files_loop_completes. intros f Hin Hf.
          apply (H root dirs files f (or_introl eq_refl) Hin Hf). }
        destruct Hok as [found Hfound]. congruence.
Qed.

Lemma scan_recent_files_head E :
  exists t,
    trace (scan_recent_files E) = EvTime :: EvWalk (COMFY_OUTPUT_PATH E) :: t.
Proof.
  unfold scan_recent_files. rewrite !bind_emit. cbn [trace snd].
  eexists. reflexivity.
Qed.

Lemma scan_recent_files_spec E found :
  result (scan_recent_files E) = Ok found ->
  forall p, In p found <-> recent_file E p.
Proof.
  unfold scan_recent_files. rewrite !bind_emit. intros Hres p.
  pose proof (run_eta (walk_loop E (time_now E)
                         (walk E (COMFY_OUTPUT_PATH E)) [])) as Hrun.
  cbn [result trace fst snd] in Hres. rewrite Hres in Hrun.
  rewrite (walk_loop_spec _ _ _ _ _ Hrun p). cbn [In]. unfold recent_file.
  split; [intros [[]|H]; exact H|auto].
Qed.

Lemma scan_recent_files_completes E :
  (exists found, result (scan_recent_files E) = Ok found) <-> walk_readable E.
Proof.
  unfold scan_recent_files, walk_readable. rewrite !bind_emit.
  cbn [result fst]. apply walk_loop_completes.
Qed.

(** The scan tests no path for existence. *)
Lemma files_loop_no_probe E now root files :
  forall image_paths,
    probed_paths (trace (files_loop E now root files image_paths)) = [].
Proof.
  induction files as [|file rest IH]; intros image_paths; [reflexivity|].
  cbn [files_loop]. destruct (has_image_extension file); [|apply IH].
  rewrite bind_emit. cbn [trace snd probed_paths flat_map app].
  match goal with |- context [flat_map _ ?t] => fold (probed_paths t) end.
  rewrite trace_bind_lift.
  destruct (getmtime E (join2 root file)); [apply IH|reflexivity].
Qed.

Lemma walk_loop_no_probe E now entries :
  forall image_paths,
    probed_paths (trace (walk_loop E now entries image_paths)) = [].
Proof.
  induction entries as [|[[root dirs] files] rest IH]; intros image_paths;
    [reflexivity|].
  cbn [walk_loop]. rewrite trace_bind, probed_paths_app, files_loop_no_probe.
  destruct (result (files_loop E now root files image_paths));
    [apply IH|reflexivity].
Qed.

Lemma scan_recent_files_no_probe E :
  probed_paths (trace (scan_recent_files E)) = [].
Proof.
  unfold scan_recent_files. rewrite !bind_emit.
  cbn [trace snd probed_paths flat_map app].
  match goal with |- context [flat_map _ ?t] => fold (probed_paths t) end.
  apply walk_loop_no_probe.
Qed.

(** The two methods, put together. *)
Lemma collect_image_paths_run E outputs items primary tr :
  py_items outputs = Ok items ->
  outputs_loop E items [] = (Ok primary, tr) ->
  collect_image_paths E outputs =
  match primary with
  | [] => (result (scan_recent_files E),
           (tr ++ trace (scan_recent_files E))%list)
  | _ :: _ => (Ok primary, tr)
  end.
Proof.
  intros Hitems Hloop.
  unfold collect_image_paths. rewrite Hitems, bind_lift_ok.
  rewrite (bind_run _ _ _ _ Hloop).
  destruct primary; cbn [result trace fst snd ret];
    [|rewrite app_nil_r]; reflexivity.
Qed.

(** C4 (as the code has it). For an outputs mapping of the data model (every
    node output a mapping whose [images], if any, is a sequence of mappings
    with a string [filename] and an optional string [subfolder]) the pass
    tests the paths output root + subfolder + filename, in order, and keeps
    those that exist; the directory scan runs if and only if none exists, and
    then the resolver's paths are the scan's.  For every outputs value the
    scan runs exactly when the pass completes with no path, so only when no
    tested path exists; when the pass raises, the resolver raises with it and
    nothing is scanned.  The scan keeps exactly the files of the walk that
    have an image extension and whose age, the float difference of the
    current time and the modification time, is below 30: that is an exact age
    below 30 - 2^-49 seconds, so a kept file is strictly newer than the
    current time minus 30 seconds.  The scan completes exactly when every
    image file of the walk has a modification time. *)
Theorem fallback_scan_policy E outputs :
  (forall d,
      outputs = VDict d ->
      well_formed_outputs d = true ->
      (scans_directory (trace (collect_image_paths E outputs)) = true <->
       filter (path_exists E) (named_paths E d) = []) /\
      (filter (path_exists E) (named_paths E d) <> [] ->
       collect_image_paths E outputs =
       (Ok (filter (path_exists E) (named_paths E d)),
        map EvPathExists (named_paths E d))) /\
      (filter (path_exists E) (named_paths E d) = [] ->
       collect_image_paths E outputs =
       (result (scan_recent_files E),
        (map EvPathExists (named_paths E d)
           ++ trace (scan_recent_files E))%list))) /\
  (scans_directory (trace (collect_image_paths E outputs)) = true <->
   exists items tr,
     py_items outputs = Ok items /\ outputs_loop E items [] = (Ok [], tr)) /\
  (scans_directory (trace (collect_image_paths E outputs)) = true ->
   filter (path_exists E)
     (probed_paths (trace (collect_image_paths E outputs))) = []) /\
  (forall items e tr,
      py_items outputs = Ok items ->
      outputs_loop E items [] = (Raise e, tr) ->
      collect_image_paths E outputs = (Raise e, tr) /\
      scans_directory tr = false) /\
  (forall found,
      result (scan_recent_files E) = Ok found ->
      forall p,
        In p found <->
        exists root dirs files file mtime,
          In (root, dirs, files) (walk E (COMFY_OUTPUT_PATH E)) /\
          In file files /\ p = join2 root file /\
          (exists base ext,
              In ext [".png"; ".jpg"; ".jpeg"; ".webp"] /\ file = base ++ ext) /\
          getmtime E p = Ok mtime /\
          (float_sub (time_now E) mtime < 30)%Q) /\
  (forall now mtime,
      (float_sub now mtime < 30 <-> now - mtime < 30 - 2 ^ (-49))%Q) /\
  (forall found p,
      result (scan_recent_files E) = Ok found ->
      In p found ->
      exists root dirs files file mtime,
        In (root, dirs, files) (walk E (COMFY_OUTPUT_PATH E)) /\
        In file files /\ p = join2 root file /\
        (exists base ext,
            In ext [".png"; ".jpg"; ".jpeg"; ".webp"] /\ file = base ++ ext) /\
        getmtime E p = Ok mtime /\
        (time_now E - 30 < mtime)%Q) /\
  ((exists found, result (scan_recent_files E) = Ok found) <->
   walk_readable E).
Proof.
  assert (Hscan :
            forall found,
              result (scan_recent_files E) = Ok found ->
              forall p,
                In p found <->
                exists root dirs files file mtime,
                  In (root, dirs, files) (walk E (COMFY_OUTPUT_PATH E)) /\
                  In file files /\ p = join2 root file /\
                  (exists base ext,
                      In ext [".png"; ".jpg"; ".jpeg"; ".webp"] /\
                      file = base ++ ext) /\
                  getmtime E p = Ok mtime /\
                  (float_sub (time_now E) mtime < 30)%Q).
  { intros found Hfound p.
    rewrite (scan_recent_files_spec E found Hfound).
    unfold recent_file, recent_image. split.
    - intros (root & dirs & files & Hin & file & mtime & Hf & Hp & Hext & Hm).
      apply has_image_extension_spec in Hext.
      exists root, dirs, files, file, mtime. tauto.
    - intros (root & dirs & files & file & mtime & Hin & Hf & Hp & Hext & Hm).
      apply has_image_extension_spec in Hext.
      exists root, dirs, files. split; [exact Hin|].
      exists file, mtime. tauto. }
  assert (Hiff :
            scans_directory (trace (collect_image_paths E outputs)) = true <->
            exists items tr,
              py_items outputs = Ok items /\
              outputs_loop E items [] = (Ok [], tr)).
  { split.
    - intros Hwalk. unfold collect_image_paths in Hwalk.
      destruct (py_items outputs) as [items|e] eqn:Hitems;
        [|discriminate Hwalk].
      rewrite bind_lift_ok in Hwalk.
      pose proof (outputs_loop_no_scan E items []) as Hnone.
      pose proof (run_eta (outputs_loop E items [])) as Hloop.
      destruct (result (outputs_loop E items [])) as [primary|e].
      + destruct primary as [|p0 primary']; [eauto|].
        rewrite (bind_run _ _ _ _ Hloop) in Hwalk.
        cbn [trace snd ret] in Hwalk. rewrite app_nil_r in Hwalk. congruence.
      + rewrite (bind_raise _ _ _ _ Hloop) in Hwalk.
        cbn [trace snd] in Hwalk. congruence.
    - intros (items & tr & Hitems & Hloop).
      rewrite (collect_image_paths_run E outputs items [] tr Hitems Hloop).
      cbn [trace snd]. rewrite scans_directory_app.
      destruct (scan_recent_files_head E) as [t ->].
      cbn. apply orb_true_r. }
  split; [|split; [exact Hiff|split; [|split; [|split; [exact Hscan|split;
    [exact float_sub_lt_30|split; [|exact (scan_recent_files_completes E)]]]]]]].
  - intros d -> Hwf.
    pose proof (outputs_loop_named E d Hwf []) as Hloop. cbn [app] in Hloop.
    pose proof (collect_image_paths_run E (VDict d) d _ _ eq_refl Hloop)
      as Hcollect.
    split; [|split].
    + rewrite Hcollect.
      destruct (filter (path_exists E) (named_paths E d)) as [|p0 rest]
        eqn:Hexisting.
      * cbn [trace snd]. rewrite scans_directory_app.
        destruct (scan_recent_files_head E) as [t ->].
        cbn. rewrite orb_true_r. tauto.
      * cbn [trace snd].
        pose proof (outputs_loop_no_scan E d []) as Hnone.
        rewrite Hloop in Hnone. cbn [trace snd] in Hnone. rewrite Hnone.
        split; discriminate.
    + intros Hne. rewrite Hcollect.
      destruct (filter (path_exists E) (named_paths E d)); congruence.
    + intros Hnil. rewrite Hcollect, Hnil. reflexivity.
  - intros Hwalk. apply Hiff in Hwalk as (items & tr & Hitems & Hloop).
    rewrite (collect_image_paths_run E outputs items [] tr Hitems Hloop).
    cbn [trace snd].
    rewrite probed_paths_app, scan_recent_files_no_probe, app_nil_r.
    destruct (outputs_loop_spec _ _ _ _ _ Hloop) as [Hprimary _].
    cbn [app] in Hprimary. symmetry. exact Hprimary.
  - intros items e tr Hitems Hloop. split.
    + unfold collect_image_paths. rewrite Hitems, bind_lift_ok.
      apply (bind_raise _ _ _ _ Hloop).
    + pose proof (outputs_loop_no_scan E items []) as Hnone.
      rewrite Hloop in Hnone. exact Hnone.
  - intros found p Hfound Hin.
    apply (Hscan found Hfound p) in Hin
      as (root & dirs & files & file & mtime & Hw & Hf & Hp & Hext & Hm & Hage).
    exists root, dirs, files, file, mtime.
    repeat (split; [assumption|]). apply float_sub_lt_30_newer, Hage.
Qed.

Lemma fallback_scan_policy_witness :
  collect_image_paths sample_env missing_outputs =
  (Ok ["/comfyui/output/out.png"; "/comfyui/output/sub/late.webp"],
   [EvPathExists "/comfyui/output/gone.png"; EvTime;
    EvWalk "/comfyui/output";
    EvGetmtime "/comfyui/output/out.png";
    EvGetmtime "/comfyui/output/old.png";
    EvGetmtime "/comfyui/output/sub/late.webp"]) /\
  collect_image_paths sample_env sample_outputs =
  (Ok ["/comfyui/output/out.png"], [EvPathExists "/comfyui/output/out.png"]) /\
  (exists mtime,
      getmtime sample_env "/comfyui/output/sub/late.webp" = Ok mtime /\
      (time_now sample_env - 30 < mtime)%Q).
Proof.
  split; [|split].
  - etransitivity.
    + apply (proj2 (proj2 (proj1 (fallback_scan_policy sample_env
                                    missing_outputs)
                             [("9", VDict [("images",
                                            VList [VDict [("filename",
                                                           VStr "gone.png")]])])]
                             eq_refl eq_refl))).
      reflexivity.
    + vm_compute. reflexivity.
  - etransitivity.
    + apply (proj1 (proj2 (proj1 (fallback_scan_policy sample_env
                                    sample_outputs)
                             [("9",
                               VDict [("images",
                                       VList [VDict [("filename", VStr "out.png");
                                                     ("subfolder", VStr "");
                                                     ("type", VStr "output")]])])]
                             eq_refl eq_refl))).
      vm_compute. discriminate.
    + vm_compute. reflexivity.
  - destruct (proj1 (proj2 (proj2 (proj2 (proj2 (proj2 (proj2
                (fallback_scan_policy sample_env missing_outputs)))))))
               ["/comfyui/output/out.png"; "/comfyui/output/sub/late.webp"]
               "/comfyui/output/sub/late.webp")
      as (root & dirs & files & file & mtime & _ & _ & _ & _ & Hm & Hage).
    + vm_compute. reflexivity.
    + right. left. reflexivity.
    + exists mtime. split; assumption.
Defined.

(** C4, counterexample: outputs whose only image has a null [subfolder], or
    no [filename].  No named path exists on disk and the output directory
    holds recent images, but the resolver raises in the first pass and never
    scans. *)
Lemma malformed_outputs_skip_scan :
  collect_image_paths sample_env null_subfolder_outputs =
  (Raise (Exn TypeError
            ("join() argument must be str, bytes, or os.PathLike "
               ++ "object, not 'NoneType'")),
   []) /\
  collect_image_paths sample_env unnamed_image_outputs =
  (Raise (Exn KeyError "'filename'"), []) /\
  process_output_images sample_env null_subfolder_outputs (VStr "j1") =
  (Raise (Exn TypeError
            ("join() argument must be str, bytes, or os.PathLike "
               ++ "object, not 'NoneType'")),
   []) /\
  scans_directory (trace (collect_image_paths sample_env null_subfolder_outputs))
  = false /\
  filter (path_exists sample_env)
    (probed_paths (trace (collect_image_paths sample_env null_subfolder_outputs)))
  = [] /\
  result (scan_recent_files sample_env) =
  Ok ["/comfyui/output/out.png"; "/comfyui/output/sub/late.webp"].
Proof. vm_compute. repeat split. Qed.

(** A file aged [30 - 2^-70] seconds is newer than the current time minus 30
    seconds, but the float difference is 30 and the scan leaves it out; at
    [30 - 2^-48], the float just below 30, it is kept. *)
Example age_rounding_to_30 :
  (30 - 30 < 2 ^ (-70))%Q /\
  Qeq_bool (float_sub 30 (2 ^ (-70))) 30 = true /\
  Qltb (float_sub 30 (2 ^ (-70))) 30 = false /\
  Qltb (float_sub 30 (2 ^ (-48))) 30 = true.
Proof. vm_compute. repeat split. Qed.

(** ** The backend probe *)

Lemma handler_unfold E job :
  handler E job =
  (job_input <- lift (py_getitem job (VStr "input")) ;;
   _ <- lift (py_getitem job (VStr "id")) ;;
   v <- validate_input E job_input ;;
   let '(validated_data, error_message) := v in
   if truthy error_message then ret (VDict [("error", error_message)])
   else
     workflow <- lift (py_getitem validated_data (VStr "workflow")) ;;
     images <- lift (py_get validated_data "images") ;;
     _ <- handler_probe E ;;
     handler_after_probe E job workflow images)%M.
Proof. reflexivity. Qed.

Lemma check_server_loop_total E url delay :
  0 <= delay ->
  forall remaining i,
  exists reachable tr,
    check_server_loop E url delay remaining i = (Ok reachable, tr) /\
    Forall is_probe_event tr /\
    (reachable = true <->
     exists j, (j < remaining)%nat /\ get_root E (i + j) = ProbeStatus 200).
Proof.
  intros Hdelay. induction remaining as [|remaining IH]; intros i.
  - exists false, []. split; [reflexivity|]. split; [constructor|].
    split; [discriminate|]. intros (j & Hj & _). lia.
  - destruct (IH (S i)) as (b & tr & Hrun & Hev & Hiff).
    assert (Hretry :
              bind (sleep delay)
                (fun _ => check_server_loop E url delay remaining (S i))
              = (Ok b, EvSleep delay :: tr)).
    { rewrite sleep_nonneg, bind_emit, Hrun by exact Hdelay. reflexivity. }
    assert (Hshift :
              (exists j, (j < remaining)%nat /\
                         get_root E (S i + j) = ProbeStatus 200) <->
              (exists j, (0 < j < S remaining)%nat /\
                         get_root E (i + j) = ProbeStatus 200)).
    { split.
      - intros (j & Hj & Hget). exists (S j). split; [lia|].
        rewrite <- Hget. f_equal. lia.
      - intros ([|j] & Hj & Hget); [lia|]. exists j. split; [lia|].
        rewrite <- Hget. f_equal. lia. }
    cbn [check_server_loop]. rewrite bind_emit.
    destruct (get_root E i) as [status_code|msg] eqn:Hget.
    + destruct (Z.eqb_spec status_code 200) as [->|Hne].
      * exists true, [EvGetRoot url]. split; [reflexivity|].
        split; [repeat constructor|]. split; [|reflexivity].
        intros _. exists O. rewrite Nat.add_0_r. split; [lia|exact Hget].
      * rewrite Hretry. exists b, (EvGetRoot url :: EvSleep delay :: tr).
        split; [reflexivity|]. split; [repeat constructor; exact Hev|].
        rewrite Hiff, Hshift. split.
        -- intros (j & Hj & Hj'). exists j. split; [lia|exact Hj'].
        -- intros ([|j] & Hj & Hj').
           ++ rewrite Nat.add_0_r, Hget in Hj'. congruence.
           ++ exists (S j). split; [lia|exact Hj'].
    + rewrite Hretry. exists b, (EvGetRoot url :: EvSleep delay :: tr).
      split; [reflexivity|]. split; [repeat constructor; exact Hev|].
      rewrite Hiff, Hshift. split.
      * intros (j & Hj & Hj'). exists j. split; [lia|exact Hj'].
      * intros ([|j] & Hj & Hj').
        -- rewrite Nat.add_0_r, Hget in Hj'. discriminate.
        -- exists (S j). split; [lia|exact Hj'].
Qed.

Lemma handler_probe_total E :
  exists reachable tr,
    handler_probe E = (Ok reachable, tr) /\ Forall is_probe_event tr.
Proof.
  destruct (check_server_loop_total E ("http://" ++ COMFY_HOST)
              COMFY_API_AVAILABLE_INTERVAL_MS ltac:(cbv; discriminate)
              (Z.to_nat COMFY_API_AVAILABLE_MAX_RETRIES) O)
    as (b & tr & Hrun & Hev & _).
  exists b, tr. split; [exact Hrun|exact Hev].
Qed.

Lemma handler_validated E job workflow images tr :
  reaches_pipeline E job workflow images tr ->
  handler E job =
  (result (handler_after_probe E job workflow images),
   (tr ++ trace (handler_after_probe E job workflow images))%list).
Proof.
  intros (job_input & job_id & tv & Hinput & Hid & Hv & ->).
  rewrite handler_unfold, Hinput, bind_lift_ok, Hid, bind_lift_ok.
  rewrite (bind_run _ _ _ _ Hv).
  cbn [truthy py_getitem hashable dict_get String.eqb Ascii.eqb Bool.eqb].
  rewrite bind_lift_ok.
  cbn [py_get py_get_default dict_get String.eqb Ascii.eqb Bool.eqb].
  rewrite bind_lift_ok.
  destruct (handler_probe_total E) as (b & tc & Hc & _).
  rewrite (bind_run _ _ _ _ Hc), Hc. cbn [result trace fst snd].
  rewrite app_assoc. reflexivity.
Qed.

(** C8. The probe never raises (with a non-negative delay it returns a
    boolean, true exactly when one of the first [retries] responses has status
    200, transport errors counting as "not yet"), and the handler does not
    look at what it returns: with another root endpoint the handler gives the
    same result and makes the same calls, apart from the probe's own; once
    validation has passed, the handler goes on with injection, submission and
    polling whatever the probe returned. *)
Theorem probe_never_fails_job :
  (forall E url retries delay,
      0 <= delay ->
      exists reachable tr,
        check_server E url retries delay = (Ok reachable, tr) /\
        Forall is_probe_event tr /\
        (reachable = true <->
         exists j, (j < Z.to_nat retries)%nat /\
                   get_root E j = ProbeStatus 200)) /\
  (forall E job,
      exists outcome before after (probed : bool),
      forall probe,
        handler (with_get_root E probe) job =
        (outcome,
         (before
            ++ (if probed then trace (handler_probe (with_get_root E probe))
                else [])
            ++ after)%list) /\
        exists reachable,
          result (handler_probe (with_get_root E probe)) = Ok reachable) /\
  (forall E job workflow images tr,
      reaches_pipeline E job workflow images tr ->
      handler E job =
      (result (handler_after_probe E job workflow images),
       (tr ++ trace (handler_after_probe E job workflow images))%list)).
Proof.
  split; [|split; [|exact handler_validated]].
  - intros E url retries delay Hdelay.
    exact (check_server_loop_total E url delay Hdelay (Z.to_nat retries) O).
  - intros E job.
    assert (Hprobe : forall probe, exists reachable,
                 result (handler_probe (with_get_root E probe)) = Ok reachable).
    { intros probe.
      destruct (handler_probe_total (with_get_root E probe)) as (b & tr & -> & _).
      exists b. reflexivity. }
    destruct (py_getitem job (VStr "input")) as [job_input|e] eqn:Hinput.
    2:{ exists (Raise e), [], [], false. intros probe. split; [|apply Hprobe].
        rewrite handler_unfold, Hinput. reflexivity. }
    destruct (py_getitem job (VStr "id")) as [job_id|e] eqn:Hid.
    2:{ exists (Raise e), [], [], false. intros probe. split; [|apply Hprobe].
        rewrite handler_unfold, Hinput, bind_lift_ok, Hid. reflexivity. }
    destruct (validate_input E job_input) as [[[vd em]|e] tv] eqn:Hv.
    2:{ exists (Raise e), tv, [], false. intros probe. split; [|apply Hprobe].
        rewrite handler_unfold, Hinput, bind_lift_ok, Hid, bind_lift_ok.
        change (validate_input (with_get_root E probe) job_input)
          with (validate_input E job_input).
        rewrite Hv. cbn. rewrite app_nil_r. reflexivity. }
    assert (Hhead : forall probe,
               handler (with_get_root E probe) job =
               bind (Ok (vd, em), tv)
                 (fun v =>
                    let '(validated_data, error_message) := v in
                    if truthy error_message
                    then ret (VDict [("error", error_message)])
                    else
                      bind (lift (py_getitem validated_data (VStr "workflow")))
                        (fun workflow =>
                           bind (lift (py_get validated_data "images"))
                             (fun images =>
                                bind (handler_probe (with_get_root E probe))
                                  (fun _ =>
                                     handler_after_probe E job workflow images))))).
    { intros probe.
      rewrite handler_unfold, Hinput, bind_lift_ok, Hid, bind_lift_ok.
      change (validate_input (with_get_root E probe) job_input)
        with (validate_input E job_input).
      rewrite Hv. reflexivity. }
    destruct (truthy em) eqn:Hem.
    { exists (Ok (VDict [("error", em)])), tv, [], false.
      intros probe. split; [|apply Hprobe].
      rewrite Hhead. cbn [bind]. rewrite Hem. cbn. rewrite app_nil_r.
      reflexivity. }
    destruct (py_getitem vd (VStr "workflow")) as [workflow|e] eqn:Hw.
    2:{ exists (Raise e), tv, [], false. intros probe. split; [|apply Hprobe].
        rewrite Hhead. cbn [bind]. rewrite Hem, Hw. cbn.
        rewrite app_nil_r. reflexivity. }
    destruct (py_get vd "images") as [images|e] eqn:Himages.
    2:{ exists (Raise e), tv, [], false. intros probe. split; [|apply Hprobe].
        rewrite Hhead. cbn [bind]. rewrite Hem, Hw, bind_lift_ok, Himages.
        cbn. rewrite app_nil_r. reflexivity. }
    exists (result (handler_after_probe E job workflow images)), tv,
      (trace (handler_after_probe E job workflow images)), true.
    intros probe. split; [|apply Hprobe].
    rewrite Hhead. cbn [bind]. rewrite Hem, Hw, bind_lift_ok, Himages, bind_lift_ok.
    destruct (handler_probe_total (with_get_root E probe)) as (b & tc & Hc & _).
    rewrite (bind_run _ _ _ _ Hc), Hc. reflexivity.
Qed.

Lemma probe_never_fails_job_witness :
  (exists reachable tr,
      check_server sample_env "http://127.0.0.1:8188" 500 50
      = (Ok reachable, tr) /\
      Forall is_probe_event tr /\
      (reachable = true <->
       exists j, (j < Z.to_nat 500)%nat /\
                 get_root sample_env j = ProbeStatus 200)) /\
  handler sample_env refused_upload_job =
  (result (handler_after_probe sample_env refused_upload_job plain_workflow
             (VList [image_input "bad.png" "AAAA"])),
   (sample_probe_trace
      ++ trace (handler_after_probe sample_env refused_upload_job
                  plain_workflow (VList [image_input "bad.png" "AAAA"])))%list).
Proof.
  split.
  - apply (proj1 probe_never_fails_job sample_env "http://127.0.0.1:8188"
             500 50).
    discriminate.
  - apply (proj2 (proj2 probe_never_fails_job) sample_env refused_upload_job
             plain_workflow (VList [image_input "bad.png" "AAAA"])
             sample_probe_trace).
    exists (VDict [("workflow", plain_workflow);
                   ("images", VList [image_input "bad.png" "AAAA"])]),
      (VStr "j1"), [].
    repeat split.
Defined.

(** ** The handler, stage by stage *)

Lemma after_probe_returns E job workflow images r ti :
  inject_or_upload E workflow images = (Ok (inl r), ti) ->
  handler_after_probe E job workflow images = (Ok r, ti).
Proof.
  intros H. unfold handler_after_probe. rewrite (bind_run _ _ _ _ H).
  cbn. rewrite app_nil_r. reflexivity.
Qed.

Lemma poll_exhausted E prompt_id tp :
  poll_loop E prompt_id (Z.to_nat (COMFY_POLLING_MAX_RETRIES E)) O
  = (Ok None, tp) ->
  poll E prompt_id = (Ok (inl (error_result MSG_MAX_RETRIES)), tp).
Proof.
  intros Hloop. unfold poll. rewrite Hloop. cbn. rewrite app_nil_r.
  reflexivity.
Qed.

Lemma poll_raised E prompt_id e tp :
  poll_loop E prompt_id (Z.to_nat (COMFY_POLLING_MAX_RETRIES E)) O
  = (Raise e, tp) ->
  poll E prompt_id =
  (Ok (inl (error_result ("Error waiting for image generation: " ++ exn_str e))),
   tp).
Proof.
  intros Hloop. unfold poll. rewrite Hloop. cbn. rewrite app_nil_r.
  reflexivity.
Qed.

Lemma submit_raises E workflow e tq :
  bind (queue_workflow E workflow)
    (fun queued_workflow =>
       lift (py_getitem queued_workflow (VStr "prompt_id")))
  = (Raise e, tq) ->
  submit E workflow =
  (Ok (inl (error_result ("Error queuing workflow: " ++ exn_str e))), tq).
Proof.
  intros Hqueue. unfold submit.
  destruct (queue_workflow E workflow) as [[q|e'] t]; cbn in Hqueue |- *.
  - destruct (py_getitem q (VStr "prompt_id")); cbn in Hqueue |- *;
      [discriminate|].
    injection Hqueue as <- <-. rewrite !app_nil_r. reflexivity.
  - injection Hqueue as <- <-. rewrite !app_nil_r. reflexivity.
Qed.

Lemma upload_images_error E images r tu :
  upload_images E images = (Ok r, tu) ->
  py_getitem r (VStr "status") = Ok (VStr "error") ->
  exists details,
    r = status_result "error" "Some images failed to upload" details /\
    details <> [].
Proof.
  unfold upload_images. destruct (truthy images); cbn [negb].
  - intros Hrun. inv_run Hrun.
    match goal with
    | H : upload_loop _ _ _ _ _ = (Ok ?p, _) |- _ => destruct p as [rs es]
    end.
    destruct es as [|err es]; apply ret_ok_inv in Hrun as [<- _].
    + discriminate.
    + intros _. exists (err :: es). split; [reflexivity|discriminate].
  - intros Hrun. apply ret_ok_inv in Hrun as [<- _]. discriminate.
Qed.

(** C3 (as the code has it). When validation returns an error message, or
    submission or polling fails, the handler returns [{"error": message}];
    when the upload of the images fails it returns the upload's own result,
    [{"status": "error", "message": "Some images failed to upload",
    "details": [...]}], which has no [error] key.  In each case the handler
    returns (it does not raise) and its trace ends with the failing stage: no
    later stage is called. *)
Theorem stage_failure_short_circuits E job st res tr :
  stage_fails E job st res tr ->
  handler E job = (Ok res, tr) /\
  match st with
  | ImageUpload =>
      exists details,
        res = VDict [("status", VStr "error");
                     ("message", VStr "Some images failed to upload");
                     ("details", VList (map VStr details))] /\
        details <> []
  | _ => exists msg, res = VDict [("error", VStr msg)] /\ msg <> ""
  end.
Proof.
  intros Hfail.
  destruct Hfail
    as [job_input job_id validated_data msg tr Hinput Hid Hv Hmsg
       |workflow images tr items workflow' upload_result tu
          Hreach Himages Hitems Hscan Hupload Hstatus
       |workflow images tr workflow' ti e tq Hreach Hinject Hqueue
       |workflow images tr workflow' ti prompt_id ts tp
          Hreach Hinject Hsubmit Hloop
       |workflow images tr workflow' ti prompt_id ts e tp
          Hreach Hinject Hsubmit Hloop].
  - split.
    + rewrite handler_unfold, Hinput, bind_lift_ok, Hid, bind_lift_ok.
      rewrite (bind_run _ _ _ _ Hv), truthy_str by assumption.
      cbn. rewrite app_nil_r. reflexivity.
    + exists msg. auto.
  - split.
    + rewrite (handler_validated _ _ _ _ _ Hreach).
      assert (Hinject : inject_or_upload E workflow images
                        = (Ok (inl upload_result), tu)).
      { unfold inject_or_upload.
        rewrite Himages, Hitems, bind_lift_ok, Hscan, bind_lift_ok.
        cbn [negb]. rewrite (bind_run _ _ _ _ Hupload), Hstatus, bind_lift_ok.
        cbn. rewrite app_nil_r. reflexivity. }
      rewrite (after_probe_returns _ _ _ _ _ _ Hinject). reflexivity.
    + exact (upload_images_error _ _ _ _ Hupload Hstatus).
  - split.
    + rewrite (handler_validated _ _ _ _ _ Hreach). unfold handler_after_probe.
      rewrite (bind_run _ _ _ _ Hinject).
      rewrite (bind_run _ _ _ _ (submit_raises _ _ _ _ Hqueue)).
      cbn. rewrite !app_nil_r. reflexivity.
    + eexists. split; [reflexivity|discriminate].
  - split.
    + rewrite (handler_validated _ _ _ _ _ Hreach). unfold handler_after_probe.
      rewrite (bind_run _ _ _ _ Hinject), (bind_run _ _ _ _ Hsubmit).
      rewrite (bind_run _ _ _ _ (poll_exhausted _ _ _ Hloop)).
      cbn. rewrite !app_nil_r. reflexivity.
    + eexists. split; [reflexivity|discriminate].
  - split.
    + rewrite (handler_validated _ _ _ _ _ Hreach). unfold handler_after_probe.
      rewrite (bind_run _ _ _ _ Hinject), (bind_run _ _ _ _ Hsubmit).
      rewrite (bind_run _ _ _ _ (poll_raised _ _ _ _ Hloop)).
      cbn. rewrite !app_nil_r. reflexivity.
    + eexists. split; [reflexivity|discriminate].
Qed.

Lemma stage_failure_short_circuits_witness :
  handler sample_env (job_of (VStr "{not valid json")) =
  (Ok (VDict [("error", VStr "Invalid JSON format in input")]), []).
Proof.
  apply (proj1 (stage_failure_short_circuits sample_env
                  (job_of (VStr "{not valid json")) Validation _ _
                  (validation_fails sample_env
                     (job_of (VStr "{not valid json")) (VStr "{not valid json")
                     (VStr "j1") VNone "Invalid JSON format in input" []
                     eq_refl eq_refl eq_refl ltac:(discriminate)))).
Defined.

(** C3, counterexample: the backend refuses the image; the upload stage
    fails and the handler's result has no [error] key. *)
Lemma upload_failure_without_error_key :
  stage_fails sample_env refused_upload_job ImageUpload
    (VDict [("status", VStr "error");
            ("message", VStr "Some images failed to upload");
            ("details",
             VList [VStr "Error uploading bad.png: Internal Server Error"])])
    (sample_probe_trace
       ++ [EvPostUpload (VStr "bad.png") [Byte.x00; Byte.x00; Byte.x00]])%list /\
  handler sample_env refused_upload_job =
  (Ok (VDict [("status", VStr "error");
              ("message", VStr "Some images failed to upload");
              ("details",
               VList [VStr "Error uploading bad.png: Internal Server Error"])]),
   (sample_probe_trace
      ++ [EvPostUpload (VStr "bad.png") [Byte.x00; Byte.x00; Byte.x00]])%list) /\
  py_contains (VStr "error")
    (VDict [("status", VStr "error");
            ("message", VStr "Some images failed to upload");
            ("details",
             VList [VStr "Error uploading bad.png: Internal Server Error"])])
  = Ok false.
Proof.
  split; [|split; reflexivity].
  eapply (upload_fails sample_env refused_upload_job plain_workflow
            (VList [image_input "bad.png" "AAAA"]) sample_probe_trace).
  - exists (VDict [("workflow", plain_workflow);
                   ("images", VList [image_input "bad.png" "AAAA"])]),
      (VStr "j1"), [].
    repeat split.
  - reflexivity.
  - reflexivity.
  - reflexivity.
  - reflexivity.
  - reflexivity.
Qed.

(** ** Image injection and upload *)

Lemma dict_get_middle before k v after :
  ~ In k (map fst before) ->
  dict_get (before ++ (k, v) :: after) k = Some v.
Proof.
  induction before as [|[k0 v0] before IH]; cbn [app dict_get map fst In].
  - intros _. rewrite String.eqb_refl. reflexivity.
  - intros Hnot. destruct (String.eqb_spec k0 k); [tauto|]. apply IH. tauto.
Qed.

Lemma dict_set_middle before k v v' after :
  ~ In k (map fst before) ->
  dict_set (before ++ (k, v) :: after) k v' = (before ++ (k, v') :: after)%list.
Proof.
  induction before as [|[k0 v0] before IH]; cbn [app dict_set map fst In].
  - intros _. rewrite String.eqb_refl. reflexivity.
  - intros Hnot. destruct (String.eqb_spec k0 k); [tauto|].
    rewrite IH by tauto. reflexivity.
Qed.

Lemma first_match_split {A} (f : A -> bool) (l : list A) :
  Exists (fun x => f x = true) l ->
  exists before x after,
    l = (before ++ x :: after)%list /\
    Forall (fun y => f y = false) before /\ f x = true.
Proof.
  induction l as [|a l IH]; intros Hex; [inversion Hex|].
  destruct (f a) eqn:Hfa.
  - exists [], a, l. auto.
  - destruct IH as (before & x & after & -> & Hbefore & Hx).
    + inversion Hex; subst; [congruence|assumption].
    + exists (a :: before), x, after. auto.
Qed.

Lemma node_definition_inv v :
  is_node_definition v = true ->
  exists nd class_type inputs,
    v = VDict nd /\ dict_get nd "class_type" = Some (VStr class_type) /\
    dict_get nd "inputs" = Some (VDict inputs).
Proof.
  destruct v as [| | | | |nd]; try discriminate. cbn [is_node_definition].
  destruct (dict_get nd "class_type") as [[| | |c| |]|] eqn:Hc;
    try discriminate.
  destruct (dict_get nd "inputs") as [[| | | | |i]|] eqn:Hi; try discriminate.
  intros _. exists nd, c, i. auto.
Qed.

Lemma inject_scan_skip workflow node_id nd rest images :
  accepts_base64 (VDict nd) = false ->
  inject_scan workflow ((node_id, VDict nd) :: rest) images =
  inject_scan workflow rest images.
Proof.
  intros Hno. cbn [inject_scan py_get py_get_default rbind].
  fold (dict_field nd "class_type"). cbn [accepts_base64] in Hno.
  rewrite Hno. reflexivity.
Qed.

Lemma inject_scan_no_match workflow items images :
  Forall (fun kv => is_node_definition (snd kv) = true) items ->
  Forall (fun kv => accepts_base64 (snd kv) = false) items ->
  inject_scan workflow items images = Ok (workflow, false).
Proof.
  induction items as [|[node_id node_data] items IH]; intros Hdef Hno;
    [reflexivity|].
  inversion Hdef as [|? ? Hd Hdef']; inversion Hno as [|? ? Hn Hno']; subst.
  cbn [snd] in Hd, Hn.
  destruct (node_definition_inv _ Hd) as (nd & _ & _ & -> & _).
  rewrite inject_scan_skip by exact Hn. auto.
Qed.

Lemma inject_scan_first_match workflow before node_id nd after images workflow' :
  Forall (fun kv => is_node_definition (snd kv) = true) before ->
  Forall (fun kv => accepts_base64 (snd kv) = false) before ->
  accepts_base64 (VDict nd) = true ->
  inject_first_image workflow node_id images = Ok (workflow', true) ->
  inject_scan workflow (before ++ (node_id, VDict nd) :: after) images =
  Ok (workflow', true).
Proof.
  intros Hdef Hno Hyes Hinject.
  induction before as [|[k node_data] before IH]; cbn [app].
  - cbn [inject_scan py_get py_get_default rbind].
    fold (dict_field nd "class_type"). cbn [accepts_base64] in Hyes.
    rewrite Hyes, Hinject. reflexivity.
  - inversion Hdef as [|? ? Hd Hdef']; inversion Hno as [|? ? Hn Hno']; subst.
    cbn [snd] in Hd, Hn.
    destruct (node_definition_inv _ Hd) as (nd0 & _ & _ & -> & _).
    rewrite inject_scan_skip by exact Hn. auto.
Qed.

Lemma upload_one_run E k name s :
  exists r,
    upload_one E k name s =
    (Ok r,
     match b64decode E s with
     | Ok blob => [EvPostUpload name blob]
     | Raise _ => []
     end).
Proof.
  unfold upload_one. destruct (b64decode E s) as [blob|e].
  - rewrite bind_lift_ok, bind_emit.
    destruct (post_upload E k name blob) as [[status_code text]|e];
      cbn [lift bind result trace fst snd try_except ret app].
    + destruct (negb (status_code =? 200)); cbn; eauto.
    + eauto.
  - cbn. eauto.
Qed.

Lemma upload_loop_run E images :
  Forall well_formed_image images ->
  forall k responses upload_errors,
  exists responses' upload_errors',
    upload_loop E images k responses upload_errors =
    (Ok (responses', upload_errors'), flat_map (upload_events E) images).
Proof.
  induction 1 as [|image rest (name & s & Hname & Himage) _ IH];
    intros k responses upload_errors.
  - exists responses, upload_errors. reflexivity.
  - rewrite (upload_loop_cons E image name s rest k _ _ Hname Himage).
    destruct (upload_one_run E k name (strip_data_url s)) as [r Hone].
    rewrite (bind_run _ _ _ _ Hone).
    cbn [flat_map]. unfold upload_events at 1. rewrite Hname, Himage.
    destruct r as [err|msg];
      [destruct (IH (S k) responses (upload_errors ++ [err])%list)
         as (rs & es & ->)
      |destruct (IH (S k) (responses ++ [msg])%list upload_errors)
         as (rs & es & ->)];
      cbn [result trace fst snd]; eauto.
Qed.

Lemma upload_images_run E image rest :
  Forall well_formed_image (image :: rest) ->
  exists status message details,
    upload_images E (VList (image :: rest)) =
    (Ok (status_result status message details),
     flat_map (upload_events E) (image :: rest)).
Proof.
  intros Hwf. unfold upload_images. cbn [truthy negb py_iter].
  rewrite bind_lift_ok.
  destruct (upload_loop_run E _ Hwf O [] []) as (rs & es & Hloop).
  rewrite (bind_run _ _ _ _ Hloop).
  destruct es; cbn [result trace fst snd ret]; rewrite app_nil_r; eauto.
Qed.

(** C2 (as the code has it). For a workflow (a mapping of distinct node ids
    to node definitions) and a non-empty list of images with [name] and a
    string [image]: if a node has a class that takes inline base64 data, the
    stripped payload of the first image is written into the [data] input of
    the first such node, nothing else in the workflow changes and no call is
    made; if no node has such a class, the images are taken in order and each
    one whose payload decodes is posted to the upload endpoint exactly once,
    while one whose payload does not decode is not posted. *)
Theorem single_injection_or_upload E w image rest :
  is_workflow (VDict w) = true ->
  NoDup (map fst w) ->
  Forall well_formed_image (image :: rest) ->
  (Exists (fun kv => accepts_base64 (snd kv) = true) w ->
   exists before node_id nd inputs after name s,
     w = (before ++ (node_id, VDict nd) :: after)%list /\
     Forall (fun kv => accepts_base64 (snd kv) = false) before /\
     accepts_base64 (VDict nd) = true /\
     dict_get nd "inputs" = Some (VDict inputs) /\
     image_fields image name s /\
     inject_or_upload E (VDict w) (VList (image :: rest)) =
     (Ok (inr (VDict (before
                        ++ (node_id,
                            VDict (dict_set nd "inputs"
                                     (VDict (dict_set inputs "data"
                                               (VStr (strip_data_url s))))))
                        :: after)%list)),
      [])) /\
  (Forall (fun kv => accepts_base64 (snd kv) = false) w ->
   trace (inject_or_upload E (VDict w) (VList (image :: rest))) =
   flat_map (upload_events E) (image :: rest) /\
   forall img name s,
     In img (image :: rest) -> image_fields img name s ->
     upload_events E img =
     match b64decode E (strip_data_url s) with
     | Ok blob => [EvPostUpload name blob]
     | Raise _ => []
     end).
Proof.
  intros Hwf Hnodup Himages.
  assert (Hdefs : Forall (fun kv => is_node_definition (snd kv) = true) w).
  { apply Forall_forall. intros kv Hin. cbn [is_workflow] in Hwf.
    rewrite forallb_forall in Hwf. auto. }
  split.
  - intros Hex.
    destruct (first_match_split (fun kv => accepts_base64 (snd kv)) w Hex)
      as (before & [node_id node_data] & after & -> & Hbefore & Hyes).
    cbn [snd] in Hyes.
    apply Forall_app in Hdefs as [Hdefs_before Hdefs_rest].
    inversion Hdefs_rest as [|? ? Hd _]; subst. cbn [snd] in Hd.
    destruct (node_definition_inv _ Hd) as (nd & c & inputs & -> & _ & Hinputs).
    inversion Himages as [|? ? (name & s & Hname & Himage) _]; subst.
    assert (Hfresh : ~ In node_id (map fst before)).
    { rewrite map_app in Hnodup. cbn [map fst] in Hnodup.
      apply NoDup_remove_2 in Hnodup. rewrite in_app_iff in Hnodup. tauto. }
    exists before, node_id, nd, inputs, after, name, s.
    repeat (split; [assumption || (split; assumption)|]).
    unfold inject_or_upload. cbn [truthy py_items]. rewrite bind_lift_ok.
    rewrite (inject_scan_first_match _ before node_id nd after _ _
               Hdefs_before Hbefore Hyes
               (inject_first_image_ok _ node_id nd inputs image s rest
                  (dict_get_middle _ _ _ _ Hfresh) Hinputs Himage)).
    rewrite bind_lift_ok. cbn [negb].
    rewrite dict_set_middle by exact Hfresh. reflexivity.
  - intros Hno. split.
    + unfold inject_or_upload. cbn [truthy py_items]. rewrite bind_lift_ok.
      rewrite (inject_scan_no_match _ _ _ Hdefs Hno), bind_lift_ok.
      cbn [negb].
      destruct (upload_images_run E image rest Himages)
        as (status & message & details & Hup).
      rewrite (bind_run _ _ _ _ Hup).
      cbn [status_result py_getitem hashable dict_get String.eqb Ascii.eqb
             Bool.eqb].
      rewrite bind_lift_ok.
      destruct (py_eqb (VStr status) (VStr "error"));
        cbn [trace snd ret]; apply app_nil_r.
    + intros img name s _ [Hname Himage]. unfold upload_events.
      rewrite Hname, Himage. reflexivity.
Qed.

Lemma single_injection_or_upload_witness :
  (exists before node_id nd inputs after name s,
      [("1", node "KSampler" [("seed", VInt 5)]);
       ("2", node "LoadImageFromBase64" [("data", VStr "")]);
       ("5", node "Base64ToImage" []);
       ("9", node "SaveImage" [("images", VList [VStr "2"; VInt 0])])]
      = (before ++ (node_id, VDict nd) :: after)%list /\
      Forall (fun kv => accepts_base64 (snd kv) = false) before /\
      accepts_base64 (VDict nd) = true /\
      dict_get nd "inputs" = Some (VDict inputs) /\
      image_fields (image_input "in.png" "data:image/png;base64,iVBORw0KGgo=")
        name s /\
      inject_or_upload sample_env base64_workflow (VList sample_images) =
      (Ok (inr (VDict (before
                         ++ (node_id,
                             VDict (dict_set nd "inputs"
                                      (VDict (dict_set inputs "data"
                                                (VStr (strip_data_url s))))))
                         :: after)%list)),
       [])) /\
  trace (inject_or_upload sample_env plain_workflow (VList sample_images)) =
  flat_map (upload_events sample_env) sample_images.
Proof.
  assert (Himages : Forall well_formed_image sample_images).
  { repeat constructor; eexists; eexists; split; reflexivity. }
  split.
  - refine (proj1 (single_injection_or_upload sample_env
                     [("1", node "KSampler" [("seed", VInt 5)]);
                      ("2", node "LoadImageFromBase64" [("data", VStr "")]);
                      ("5", node "Base64ToImage" []);
                      ("9", node "SaveImage"
                              [("images", VList [VStr "2"; VInt 0])])]
                     (image_input "in.png" "data:image/png;base64,iVBORw0KGgo=")
                     [image_input "cut.png" "A"] eq_refl _ Himages) _).
    + repeat (constructor; [cbn; intuition discriminate|]). constructor.
    + apply Exists_cons_tl, Exists_cons_hd. reflexivity.
  - refine (proj1 (proj2 (single_injection_or_upload sample_env
                     [("3", node "LoadImage" [("image", VStr "in.png")]);
                      ("9", node "SaveImage"
                              [("images", VList [VStr "3"; VInt 0])])]
                     (image_input "in.png" "data:image/png;base64,iVBORw0KGgo=")
                     [image_input "cut.png" "A"] eq_refl _ Himages) _)).
    + repeat (constructor; [cbn; intuition discriminate|]). constructor.
    + repeat constructor.
Defined.

(** C2, counterexample: no node takes inline data and the payload of the
    only image does not decode; the image is never sent to the upload
    endpoint. *)
Lemma undecodable_image_not_uploaded :
  is_workflow plain_workflow = true /\
  py_items plain_workflow
  = Ok [("3", node "LoadImage" [("image", VStr "in.png")]);
        ("9", node "SaveImage" [("images", VList [VStr "3"; VInt 0])])] /\
  accepts_base64 (node "LoadImage" [("image", VStr "in.png")]) = false /\
  accepts_base64 (node "SaveImage" [("images", VList [VStr "3"; VInt 0])])
  = false /\
  std_b64decode "A" =
  Raise (Exn BinasciiError
           "Invalid base64-encoded string: number of data characters (1) cannot be 1 more than a multiple of 4") /\
  inject_or_upload sample_env plain_workflow
    (VList [image_input "cut.png" "A"]) =
  (Ok (inl (VDict [("status", VStr "error");
                   ("message", VStr "Some images failed to upload");
                   ("details",
                    VList [VStr "Error decoding cut.png: Invalid base64-encoded string: number of data characters (1) cannot be 1 more than a multiple of 4"])])),
   []).
Proof. repeat split. Qed.

(** ** Outside the claims *)

(** An input that is not a mapping makes [validate_input] raise, and the
    exception leaves the handler: no [try] block covers validation. *)
Example non_mapping_input_raises :
  handler sample_env (job_of (VList [])) =
  (Raise (Exn AttributeError "'list' object has no attribute 'get'"), []).
Proof. reflexivity. Qed.

(** The end-to-end example of the specification: the workflow comes from the
    catalog, the image is uploaded once with the decoded bytes, and the result
    is a success once the third fetch shows outputs. *)
Example end_to_end :
  handler sample_env
    (job_of (VDict [("workflow_name", VStr "basic");
                    ("images",
                     VList [image_input "in.png"
                              "data:image/png;base64,iVBORw0KGgo="])])) =
  (Ok (VDict [("status", VStr "success"); ("message", VStr "iVBORw==");
              ("path", VStr "/comfyui/output/out.png");
              ("all_images", VList [VStr "/comfyui/output/out.png"]);
              ("refresh_worker", VBool false)]),
   ([EvPathExists "/runpod-volume/workflows/basic.json";
     EvOpenJson "/runpod-volume/workflows/basic.json"]
      ++ sample_probe_trace
      ++ [EvPostUpload (VStr "in.png")
            [Byte.x89; Byte.x50; Byte.x4e; Byte.x47;
             Byte.x0d; Byte.x0a; Byte.x1a; Byte.x0a];
          EvPostPrompt (VDict [("prompt", plain_workflow)]);
          EvGetHistory (VStr "p1"); EvSleep 250;
          EvGetHistory (VStr "p1"); EvSleep 250;
          EvGetHistory (VStr "p1");
          EvPathExists "/comfyui/output/out.png";
          EvReadFile "/comfyui/output/out.png"])%list).
Proof. reflexivity. Qed.

(** * Further properties of the code *)

(** ** Workflow loading *)

Lemma load_workflow_by_name_path E name :
  load_workflow_by_name E (VStr name) =
  bind (emit (EvPathExists (workflow_file name)))
    (fun _ =>
       if negb (path_exists E (workflow_file name)) then ret VNone
       else
         try_except
           (bind (emit (EvOpenJson (workflow_file name)))
              (fun _ =>
                 bind (lift (open_json E (workflow_file name)))
                   (fun workflow_data => lift (canonicalize workflow_data))))
           (fun _ => ret VNone)).
Proof.
  unfold load_workflow_by_name, workflow_file. cbn [py_endswith].
  rewrite bind_lift_ok.
  destruct (endswith name ".json"); cbn [path_join fstr];
    rewrite bind_lift_ok; reflexivity.
Qed.

(** X1. A workflow name is looked up under the file name with the ".json"
    suffix: a name without the suffix and the same name with it give the same
    run of [load_workflow_by_name]. *)
Theorem load_workflow_suffix_optional E name :
  endswith name ".json" = false ->
  load_workflow_by_name E (VStr name)
  = load_workflow_by_name E (VStr (name ++ ".json")).
Proof.
  intros Hno. rewrite !load_workflow_by_name_path.
  assert (Hfile : workflow_file (name ++ ".json") = workflow_file name).
  { unfold workflow_file. rewrite Hno.
    assert (Hyes : endswith (name ++ ".json") ".json" = true)
      by (apply endswith_spec; exists name; reflexivity).
    rewrite Hyes. reflexivity. }
  rewrite Hfile. reflexivity.
Qed.

Lemma load_workflow_suffix_optional_witness :
  load_workflow_by_name sample_env (VStr "basic")
  = load_workflow_by_name sample_env (VStr "basic.json").
Proof. apply (load_workflow_suffix_optional sample_env "basic"). reflexivity. Defined.

Lemma load_workflow_by_name_cases E name :
  (path_exists E (workflow_file name) = false ->
   load_workflow_by_name E (VStr name)
   = (Ok VNone, [EvPathExists (workflow_file name)])) /\
  (path_exists E (workflow_file name) = true ->
   forall e,
     open_json E (workflow_file name) = Raise e ->
     load_workflow_by_name E (VStr name)
     = (Ok VNone,
        [EvPathExists (workflow_file name); EvOpenJson (workflow_file name)])) /\
  (path_exists E (workflow_file name) = true ->
   forall workflow_data,
     open_json E (workflow_file name) = Ok workflow_data ->
     load_workflow_by_name E (VStr name)
     = (Ok (match canonicalize workflow_data with
            | Ok workflow => workflow
            | Raise _ => VNone
            end),
        [EvPathExists (workflow_file name); EvOpenJson (workflow_file name)])).
Proof.
  rewrite load_workflow_by_name_path, bind_emit. repeat split.
  - intros ->. reflexivity.
  - intros -> e He. cbn [negb]. rewrite bind_emit, He. reflexivity.
  - intros -> wd Hwd. cbn [negb]. rewrite bind_emit, Hwd, bind_lift_ok.
    destruct (canonicalize wd); reflexivity.
Qed.

(** X2. Loading by a string name never raises.  A file that does not exist
    gives [None] without an attempt to open it; a file that cannot be opened
    or parsed gives [None]; a parsed file gives its canonical form, or [None]
    when the canonicalization step raises. *)
Theorem load_workflow_failures_are_none E name :
  (path_exists E (workflow_file name) = false ->
   load_workflow_by_name E (VStr name)
   = (Ok VNone, [EvPathExists (workflow_file name)])) /\
  (path_exists E (workflow_file name) = true ->
   forall e,
     open_json E (workflow_file name) = Raise e ->
     load_workflow_by_name E (VStr name)
     = (Ok VNone,
        [EvPathExists (workflow_file name); EvOpenJson (workflow_file name)])) /\
  (path_exists E (workflow_file name) = true ->
   forall workflow_data,
     open_json E (workflow_file name) = Ok workflow_data ->
     load_workflow_by_name E (VStr name)
     = (Ok (match canonicalize workflow_data with
            | Ok workflow => workflow
            | Raise _ => VNone
            end),
        [EvPathExists (workflow_file name); EvOpenJson (workflow_file name)])).
Proof. exact (load_workflow_by_name_cases E name). Qed.

Lemma load_workflow_failures_are_none_witness :
  load_workflow_by_name sample_env (VStr "other")
  = (Ok VNone, [EvPathExists "/runpod-volume/workflows/other.json"]) /\
  load_workflow_by_name sample_env (VStr "basic")
  = (Ok plain_workflow,
     [EvPathExists "/runpod-volume/workflows/basic.json";
      EvOpenJson "/runpod-volume/workflows/basic.json"]).
Proof.
  split.
  - exact (proj1 (load_workflow_failures_are_none sample_env "other") eq_refl).
  - exact (proj2 (proj2 (load_workflow_failures_are_none sample_env "basic"))
             eq_refl (VDict [("prompt", plain_workflow)]) eq_refl).
Defined.

(** X3. The canonicalization step returns the parsed value itself or, for a
    mapping with a [prompt] key, the value under that key, and nothing else:
    the branch that would unwrap [input.workflow] never yields a value, so a
    mapping [{"input": {"workflow": w}}] is returned as it is. *)
Theorem canonicalize_never_unwraps_input :
  (forall workflow_data workflow,
      canonicalize workflow_data = Ok workflow ->
      workflow = workflow_data \/
      exists d, workflow_data = VDict d /\ dict_get d "prompt" = Some workflow) /\
  (forall w rest,
      canonicalize (VDict [("input", VDict (("workflow", w) :: rest))])
      = Ok (VDict [("input", VDict (("workflow", w) :: rest))])).
Proof.
  split; [|intros w rest; reflexivity].
  intros wd w. unfold canonicalize.
  destruct wd as [| b | z | s | l | d];
    cbn [isinstance_dict py_contains hashable rbind type_error];
    try discriminate.
  - destruct (contains s "input"); cbn [rbind py_getitem type_error].
    + discriminate.
    + intros [= <-]. auto.
  - destruct (existsb (py_eqb (VStr "input")) l);
      cbn [rbind py_getitem type_error].
    + discriminate.
    + intros [= <-]. auto.
  - unfold dict_has. destruct (dict_get d "prompt") as [p|] eqn:Hp;
      cbn [negb rbind py_getitem hashable].
    + rewrite Hp. intros [= <-]. right. exists d. auto.
    + intros [= <-]. auto.
Qed.

Lemma canonicalize_never_unwraps_input_witness :
  plain_workflow = VDict [("prompt", plain_workflow)] \/
  exists d,
    VDict [("prompt", plain_workflow)] = VDict d /\
    dict_get d "prompt" = Some plain_workflow.
Proof.
  exact (proj1 canonicalize_never_unwraps_input
           (VDict [("prompt", plain_workflow)]) plain_workflow eq_refl).
Defined.

Lemma startswith_app (s p rest : string) :
  startswith s p = true -> startswith (s ++ rest) p = true.
Proof.
  revert s. induction p as [|a p IH]; intros s; [reflexivity|].
  destruct s as [|b s]; cbn [startswith append]; [discriminate|].
  rewrite !andb_true_iff. intros [Hab Hrest]. auto.
Qed.

(** X4. A workflow name that starts with "/" is not looked up in the catalog
    directory: the file that is tested and opened is the name itself (with
    the ".json" suffix), whatever [WORKFLOW_DIR] is. *)
Theorem absolute_name_leaves_catalog E name workflow_data :
  startswith name "/" = true ->
  path_exists E (with_json_suffix name) = true ->
  open_json E (with_json_suffix name) = Ok workflow_data ->
  load_workflow_by_name E (VStr name)
  = (Ok (match canonicalize workflow_data with
         | Ok workflow => workflow
         | Raise _ => VNone
         end),
     [EvPathExists (with_json_suffix name);
      EvOpenJson (with_json_suffix name)]).
Proof.
  intros Habs Hex Hopen.
  assert (Hfile : workflow_file name = with_json_suffix name).
  { unfold workflow_file, with_json_suffix, join2.
    assert (Hsuffix : startswith
                        (if endswith name ".json" then name else name ++ ".json")
                        "/" = true).
    { destruct (endswith name ".json"); [exact Habs|].
      apply startswith_app, Habs. }
    rewrite Hsuffix. reflexivity. }
  rewrite <- Hfile in *.
  exact (proj2 (proj2 (load_workflow_by_name_cases E name))
           Hex workflow_data Hopen).
Qed.

Lemma absolute_name_leaves_catalog_witness :
  load_workflow_by_name sample_env (VStr "/runpod-volume/workflows/basic")
  = (Ok plain_workflow,
     [EvPathExists "/runpod-volume/workflows/basic.json";
      EvOpenJson "/runpod-volume/workflows/basic.json"]).
Proof.
  exact (absolute_name_leaves_catalog sample_env
           "/runpod-volume/workflows/basic" (VDict [("prompt", plain_workflow)])
           eq_refl eq_refl eq_refl).
Defined.

(** ** Input validation *)

(** X5. A truthy [workflow_name] that is not a string (a number, a list, a
    mapping, [true]) makes validation raise [AttributeError] instead of
    returning an error message, before any file is touched. *)
Theorem non_string_workflow_name_raises E job_input d name :
  input_mapping E job_input d ->
  dict_get d "workflow_name" = Some name ->
  truthy name = true ->
  is_string name = false ->
  validate_input E job_input =
  (Raise (Exn AttributeError
            ("'" ++ type_name name ++ "' object has no attribute 'endswith'")),
   []).
Proof.
  intros Hin Hname Htruthy Hstr.
  rewrite (validate_input_mapping _ _ _ Hin).
  assert (Hfield : dict_field d "workflow_name" = name)
    by (unfold dict_field; rewrite Hname; reflexivity).
  rewrite validate_parsed_named by (rewrite Hfield; exact Htruthy).
  rewrite Hfield. unfold load_workflow_by_name.
  destruct name; try discriminate; reflexivity.
Qed.

Lemma non_string_workflow_name_raises_witness :
  validate_input sample_env
    (VDict [("workflow", plain_workflow); ("workflow_name", VInt 7)]) =
  (Raise (Exn AttributeError "'int' object has no attribute 'endswith'"), []).
Proof.
  apply (non_string_workflow_name_raises sample_env _
           [("workflow", plain_workflow); ("workflow_name", VInt 7)] (VInt 7)).
  - left. reflexivity.
  - reflexivity.
  - reflexivity.
  - reflexivity.
Defined.

Lemma validate_parsed_outcomes E d validated_data error_message :
  result (validate_parsed E (VDict d)) = Ok (validated_data, error_message) ->
  (validated_data = VNone /\
   exists msg, error_message = VStr msg /\ msg <> "") \/
  (error_message = VNone /\
   exists workflow images,
     validated_data = VDict [("workflow", workflow); ("images", images)] /\
     truthy workflow = true /\
     (images = VNone \/
      exists l, images = VList l /\ Forall has_name_and_image l)).
Proof.
  assert (Himages : forall workflow,
             truthy workflow = true ->
             result (validate_images (VDict d) workflow)
             = Ok (validated_data, error_message) ->
             (validated_data = VNone /\
              exists msg, error_message = VStr msg /\ msg <> "") \/
             (error_message = VNone /\
              exists workflow images,
                validated_data
                = VDict [("workflow", workflow); ("images", images)] /\
                truthy workflow = true /\
                (images = VNone \/
                 exists l, images = VList l /\ Forall has_name_and_image l))).
  { intros workflow Hw Hres.
    destruct (validate_images_cases d workflow _ _ Hres)
      as [[-> ->]|(-> & -> & Himg)].
    - left. split; [reflexivity|]. eexists. split; [reflexivity|discriminate].
    - right. split; [reflexivity|].
      exists workflow, (dict_field d "images"). repeat split; [exact Hw|].
      destruct Himg as [Hn|(l & Hl & Hall)]; [auto|].
      right. exists l. split; [exact Hl|].
      apply all_name_and_image_true, Hall. }
  destruct (truthy (dict_field d "workflow_name")) eqn:Hn.
  - rewrite validate_parsed_named by exact Hn.
    destruct (load_workflow_by_name E (dict_field d "workflow_name"))
      as [[w|e] tr]; [|discriminate].
    rewrite (bind_run _ _ w tr eq_refl). cbn [result fst].
    destruct (truthy w) eqn:Hw; cbn [negb].
    + apply Himages, Hw.
    + intros [= <- <-]. left. split; [reflexivity|].
      eexists. split; [reflexivity|discriminate].
  - destruct (truthy (dict_field d "workflow")) eqn:Hw.
    + rewrite validate_parsed_inline by assumption. apply Himages, Hw.
    + rewrite validate_parsed_missing by assumption.
      intros [= <- <-]. left. split; [reflexivity|].
      eexists. split; [reflexivity|discriminate].
Qed.

Lemma validate_parsed_non_mapping E v :
  isinstance_dict v = false ->
  validate_parsed E v
  = (Raise (Exn AttributeError
              ("'" ++ type_name v ++ "' object has no attribute 'get'")), []).
Proof. destruct v; try discriminate; reflexivity. Qed.

(** X6. Whenever validation returns, it returns one of two shapes: no data
    and a non-empty error message, or no error and a request made of exactly
    a truthy [workflow] and an [images] that is [None] or a list whose
    elements all pass the membership test. *)
Theorem validate_input_outcomes E job_input validated_data error_message :
  result (validate_input E job_input) = Ok (validated_data, error_message) ->
  (validated_data = VNone /\
   exists msg, error_message = VStr msg /\ msg <> "") \/
  (error_message = VNone /\
   exists workflow images,
     validated_data = VDict [("workflow", workflow); ("images", images)] /\
     truthy workflow = true /\
     (images = VNone \/
      exists l, images = VList l /\ Forall has_name_and_image l)).
Proof.
  assert (Hparsed : forall v,
             result (validate_parsed E v) = Ok (validated_data, error_message) ->
             (validated_data = VNone /\
              exists msg, error_message = VStr msg /\ msg <> "") \/
             (error_message = VNone /\
              exists workflow images,
                validated_data
                = VDict [("workflow", workflow); ("images", images)] /\
                truthy workflow = true /\
                (images = VNone \/
                 exists l, images = VList l /\ Forall has_name_and_image l))).
  { intros v. destruct (isinstance_dict v) eqn:Hv.
    - destruct v; try discriminate. apply validate_parsed_outcomes.
    - rewrite validate_parsed_non_mapping by exact Hv. discriminate. }
  destruct job_input as [| b | z | s | l | d]; cbn [validate_input];
    try apply Hparsed.
  - intros [= <- <-]. left. split; [reflexivity|].
    eexists. split; [reflexivity|discriminate].
  - destruct (json_loads E s); [apply Hparsed|].
    intros [= <- <-]. left. split; [reflexivity|].
    eexists. split; [reflexivity|discriminate].
Qed.

Lemma validate_input_outcomes_witness :
  (VDict [("workflow", plain_workflow); ("images", VNone)] = VNone /\
   exists msg, VNone = VStr msg /\ msg <> "") \/
  (VNone = VNone /\
   exists workflow images,
     VDict [("workflow", plain_workflow); ("images", VNone)]
     = VDict [("workflow", workflow); ("images", images)] /\
     truthy workflow = true /\
     (images = VNone \/
      exists l, images = VList l /\ Forall has_name_and_image l)).
Proof.
  exact (validate_input_outcomes sample_env
           (VDict [("workflow_name", VStr "basic")]) _ _ eq_refl).
Defined.





(** ** The backend probe *)






(** ** Image upload *)

Lemma upload_one_outcome E k name payload :
  result (upload_one E k name payload) = Ok (image_outcome E k name payload).
Proof.
  unfold upload_one, image_outcome.
  destruct (b64decode E payload) as [blob|e]; [|reflexivity].
  rewrite bind_lift_ok, bind_emit.
  destruct (post_upload E k name blob) as [[status_code text]|e];
    [|reflexivity].
  cbn [lift bind result trace fst snd try_except].
  destruct (status_code =? 200); reflexivity.
Qed.

Lemma lefts_app {A B} (l1 l2 : list (A + B)) :
  lefts (l1 ++ l2) = (lefts l1 ++ lefts l2)%list.
Proof. apply flat_map_app. Qed.

Lemma lefts_rights_length {A B} (l : list (A + B)) :
  (List.length (lefts l) + List.length (rights l))%nat = List.length l.
Proof.
  unfold lefts, rights.
  induction l as [|[a|b] l IH]; cbn [flat_map app List.length]; lia.
Qed.

Lemma upload_loop_outcomes E images :
  Forall well_formed_image images ->
  forall k responses upload_errors,
    result (upload_loop E images k responses upload_errors) =
    Ok ((responses ++ rights (image_outcomes E images k))%list,
        (upload_errors ++ lefts (image_outcomes E images k))%list) /\
    List.length (image_outcomes E images k) = List.length images.
Proof.
  induction 1 as [|image rest (name & s & Hname & Himage) _ IH];
    intros k responses upload_errors.
  - cbn. rewrite !app_nil_r. auto.
  - rewrite (upload_loop_cons E image name s rest k _ _ Hname Himage).
    cbn [image_outcomes]. rewrite Hname, Himage.
    pose proof (upload_one_outcome E k name (strip_data_url s)) as Hone.
    destruct (upload_one E k name (strip_data_url s)) as [r t] eqn:Hrun.
    cbn [result fst] in Hone. subst r.
    rewrite (bind_run _ _ _ _ eq_refl). cbn [result fst].
    destruct (image_outcome E k name (strip_data_url s)) as [err|msg].
    + destruct (IH (S k) responses (upload_errors ++ [err])%list) as [-> Hlen].
      cbn [lefts rights flat_map app List.length]. rewrite <- app_assoc.
      split; [reflexivity|]. f_equal. exact Hlen.
    + destruct (IH (S k) (responses ++ [msg])%list upload_errors) as [-> Hlen].
      cbn [lefts rights flat_map app List.length]. rewrite <- app_assoc.
      split; [reflexivity|]. f_equal. exact Hlen.
Qed.

Lemma upload_images_outcomes E image rest :
  Forall well_formed_image (image :: rest) ->
  List.length (image_outcomes E (image :: rest) O)
  = List.length (image :: rest) /\
  (List.length (lefts (image_outcomes E (image :: rest) O))
   + List.length (rights (image_outcomes E (image :: rest) O)))%nat
  = List.length (image :: rest) /\
  result (upload_images E (VList (image :: rest))) =
  Ok (match lefts (image_outcomes E (image :: rest) O) with
      | [] =>
          status_result "success" "All images uploaded successfully"
            (rights (image_outcomes E (image :: rest) O))
      | _ :: _ =>
          status_result "error" "Some images failed to upload"
            (lefts (image_outcomes E (image :: rest) O))
      end).
Proof.
  intros Hwf.
  destruct (upload_loop_outcomes E _ Hwf O [] []) as [Hloop Hlen].
  cbn [app] in Hloop.
  split; [exact Hlen|]. split; [rewrite lefts_rights_length; exact Hlen|].
  unfold upload_images. cbn [truthy negb py_iter]. rewrite bind_lift_ok.
  destruct (upload_loop E (image :: rest) O [] []) as [r t] eqn:Hrun.
  cbn [result fst] in Hloop. subst r.
  rewrite (bind_run _ _ _ _ eq_refl). cbn [result fst].
  destruct (lefts (image_outcomes E (image :: rest) O)); reflexivity.
Qed.

(** X9. The upload is fail-soft and all-or-nothing in its report: for
    well-formed images every image gets exactly one outcome, in order; if no
    image fails the result is a success whose details are the success lines of
    all images, and if at least one fails the result is an error whose details
    are the failure lines only (the successes are not reported). *)
Theorem upload_images_aggregate E image rest :
  Forall well_formed_image (image :: rest) ->
  List.length (image_outcomes E (image :: rest) O)
  = List.length (image :: rest) /\
  (List.length (lefts (image_outcomes E (image :: rest) O))
   + List.length (rights (image_outcomes E (image :: rest) O)))%nat
  = List.length (image :: rest) /\
  result (upload_images E (VList (image :: rest))) =
  Ok (match lefts (image_outcomes E (image :: rest) O) with
      | [] =>
          status_result "success" "All images uploaded successfully"
            (rights (image_outcomes E (image :: rest) O))
      | _ :: _ =>
          status_result "error" "Some images failed to upload"
            (lefts (image_outcomes E (image :: rest) O))
      end).
Proof. exact (upload_images_outcomes E image rest). Qed.

Lemma upload_images_aggregate_witness :
  result (upload_images sample_env
            (VList [image_input "in.png" "AAAA"; image_input "bad.png" "AAAA";
                    image_input "cut.png" "A"])) =
  Ok (status_result "error" "Some images failed to upload"
        ["Error uploading bad.png: Internal Server Error";
         "Error decoding cut.png: Invalid base64-encoded string: number of data characters (1) cannot be 1 more than a multiple of 4"]).
Proof.
  refine (proj2 (proj2 (upload_images_aggregate sample_env
                          (image_input "in.png" "AAAA")
                          [image_input "bad.png" "AAAA";
                           image_input "cut.png" "A"] _))).
  repeat constructor; eexists; eexists; split; reflexivity.
Defined.

(** X10. When no node takes inline data, the upload path does not touch the
    workflow: if every image uploads, the handler goes on with the workflow
    exactly as validated; if one fails, it stops with the upload's error
    result. *)
Theorem upload_path_keeps_workflow E w image rest :
  is_workflow (VDict w) = true ->
  Forall (fun kv => accepts_base64 (snd kv) = false) w ->
  Forall well_formed_image (image :: rest) ->
  result (inject_or_upload E (VDict w) (VList (image :: rest))) =
  Ok (match lefts (image_outcomes E (image :: rest) O) with
      | [] => inr (VDict w)
      | _ :: _ =>
          inl (status_result "error" "Some images failed to upload"
                 (lefts (image_outcomes E (image :: rest) O)))
      end).
Proof.
  intros Hwf Hno Himages.
  assert (Hdefs : Forall (fun kv => is_node_definition (snd kv) = true) w).
  { apply Forall_forall. intros kv Hin. cbn [is_workflow] in Hwf.
    rewrite forallb_forall in Hwf. auto. }
  destruct (upload_images_outcomes E image rest Himages) as (_ & _ & Hup).
  unfold inject_or_upload. cbn [truthy py_items]. rewrite bind_lift_ok.
  rewrite (inject_scan_no_match _ _ _ Hdefs Hno), bind_lift_ok. cbn [negb].
  destruct (upload_images E (VList (image :: rest))) as [r t] eqn:Hrun.
  cbn [result fst] in Hup. subst r.
  rewrite (bind_run _ _ _ _ eq_refl). cbn [result fst].
  destruct (lefts (image_outcomes E (image :: rest) O)); reflexivity.
Qed.

Lemma upload_path_keeps_workflow_witness :
  result (inject_or_upload sample_env plain_workflow
            (VList [image_input "in.png" "data:image/png;base64,iVBORw0KGgo="]))
  = Ok (inr plain_workflow).
Proof.
  refine (upload_path_keeps_workflow sample_env
            [("3", node "LoadImage" [("image", VStr "in.png")]);
             ("9", node "SaveImage" [("images", VList [VStr "3"; VInt 0])])]
            (image_input "in.png" "data:image/png;base64,iVBORw0KGgo=") []
            eq_refl _ _).
  - repeat constructor.
  - repeat constructor; eexists; eexists; split; reflexivity.
Defined.

(** ** Submission *)

(** X11. Submission never raises and posts exactly once, with the workflow
    under a [prompt] key.  It yields a prompt id exactly when the backend's
    answer can be subscripted with "prompt_id"; every other outcome is the
    result [{"error": "Error queuing workflow: ..."}]. *)
Theorem submit_outcomes E workflow :
  trace (submit E workflow) = [EvPostPrompt (VDict [("prompt", workflow)])] /\
  exists outcome,
    result (submit E workflow) = Ok outcome /\
    (forall prompt_id,
        outcome = inr prompt_id <->
        exists response,
          post_prompt E (VDict [("prompt", workflow)]) = Ok response /\
          py_getitem response (VStr "prompt_id") = Ok prompt_id) /\
    (forall err,
        outcome = inl err ->
        exists e,
          err = VDict [("error",
                        VStr ("Error queuing workflow: " ++ exn_str e))]).
Proof.
  unfold submit, queue_workflow. rewrite bind_emit.
  destruct (post_prompt E (VDict [("prompt", workflow)])) as [response|e]
    eqn:Hpost; cbn [lift result trace fst snd bind].
  - destruct (py_getitem response (VStr "prompt_id")) as [pid|e] eqn:Hpid;
      cbn [lift ret bind try_except result trace fst snd app].
    + split; [reflexivity|]. exists (inr pid). split; [reflexivity|]. split.
      * intros p. split.
        -- intros [= <-]. exists response. auto.
        -- intros (r & [= <-] & Hr). congruence.
      * discriminate.
    + split; [reflexivity|]. eexists. split; [reflexivity|]. split.
      * intros p. split; [discriminate|].
        intros (r & [= <-] & Hr). congruence.
      * intros err [= <-]. exists e. reflexivity.
  - cbn [try_except ret app]. split; [reflexivity|].
    eexists. split; [reflexivity|]. split.
    + intros p. split; [discriminate|]. intros (r & Hr & _). discriminate.
    + intros err [= <-]. exists e. reflexivity.
Qed.

(** ** Completion polling *)

Lemma fetches_cons_fetch prompt_id tr :
  fetches (EvGetHistory prompt_id :: tr) = S (fetches tr).
Proof. reflexivity. Qed.

Lemma fetches_cons_sleep ms tr : fetches (EvSleep ms :: tr) = fetches tr.
Proof. reflexivity. Qed.

Lemma poll_loop_invariant E prompt_id :
  forall remaining k,
    (fetches (trace (poll_loop E prompt_id remaining k)) <= remaining)%nat /\
    (forall history,
        result (poll_loop E prompt_id remaining k) = Ok (Some history) ->
        has_outputs prompt_id history = Ok true).
Proof.
  induction remaining as [|remaining IH]; intros k.
  - split; [cbn; lia|discriminate].
  - cbn [poll_loop]. rewrite get_history_run.
    destruct (get_history_response E k prompt_id) as [history|e];
      [|split; [cbn; lia|discriminate]].
    rewrite (bind_run _ _ history [EvGetHistory prompt_id] eq_refl).
    cbn [result trace fst snd app]. rewrite fetches_cons_fetch.
    destruct (has_outputs prompt_id history) as [[|]|e] eqn:Hout.
    + rewrite bind_lift_ok. cbn. split; [lia|].
      intros h [= <-]. exact Hout.
    + rewrite bind_lift_ok. unfold sleep.
      destruct (COMFY_POLLING_INTERVAL_MS E <? 0).
      * cbn. split; [lia|discriminate].
      * rewrite bind_emit. cbn [result trace fst snd].
        rewrite fetches_cons_sleep.
        destruct (IH (S k)) as [Hbound Hpost]. split; [lia|exact Hpost].
    + cbn. split; [lia|discriminate].
Qed.

Lemma has_outputs_true_inv prompt_id history :
  has_outputs prompt_id history = Ok true ->
  exists outputs,
    history_outputs prompt_id history = Ok outputs /\ truthy outputs = true.
Proof.
  unfold has_outputs, history_outputs.
  destruct (py_contains prompt_id history) as [[|]|e]; cbn [rbind];
    try discriminate.
  destruct (py_getitem history prompt_id) as [entry|e]; cbn [rbind];
    [|discriminate].
  destruct (py_get entry "outputs") as [outputs|e]; cbn [rbind];
    [|discriminate].
  intros [= Ht]. eauto.
Qed.

(** X12. Whatever the backend answers, polling never raises and never makes
    more history fetches than the retry budget; its outcome is either an
    [{"error": ...}] result or a history record in which the entry of the
    prompt id has non-empty [outputs], so that the handler's lookup
    [history[prompt_id].get("outputs")] afterwards succeeds. *)
Theorem poll_bounded_and_safe E prompt_id :
  exists outcome,
    result (poll E prompt_id) = Ok outcome /\
    Z.of_nat (fetches (trace (poll E prompt_id)))
    <= Z.max 0 (COMFY_POLLING_MAX_RETRIES E) /\
    (forall history,
        outcome = inr history ->
        exists outputs,
          history_outputs prompt_id history = Ok outputs /\
          truthy outputs = true) /\
    (forall err,
        outcome = inl err -> exists msg, err = VDict [("error", VStr msg)]).
Proof.
  destruct (poll_loop_invariant E prompt_id
              (Z.to_nat (COMFY_POLLING_MAX_RETRIES E)) O) as [Hbound Hpost].
  unfold poll.
  destruct (poll_loop E prompt_id (Z.to_nat (COMFY_POLLING_MAX_RETRIES E)) O)
    as [[[history|]|e] tr]; cbn [result trace fst snd] in *;
    cbn [bind try_except ret result trace fst snd]; rewrite ?app_nil_r.
  - exists (inr history). split; [reflexivity|]. split; [lia|]. split.
    + intros h [= <-]. apply has_outputs_true_inv, Hpost. reflexivity.
    + discriminate.
  - eexists. split; [reflexivity|]. split; [lia|]. split; [discriminate|].
    intros err [= <-]. eexists. reflexivity.
  - eexists. split; [reflexivity|]. split; [lia|]. split; [discriminate|].
    intros err [= <-]. eexists. reflexivity.
Qed.




(** ** Output resolution *)

Lemma process_output_images_cases E outputs job_id paths tr :
  collect_image_paths E outputs = (Ok paths, tr) ->
  (paths = [] ->
   process_output_images E outputs job_id =
   (Ok (VDict [("status", VStr "error");
               ("message",
                VStr "No output images found in the output directory")]),
    tr)) /\
  (forall first others,
      paths = first :: others ->
      bucket_configured E = true ->
      process_output_images E outputs job_id =
      (match rp_upload_image E job_id first with
       | Ok url =>
           Ok (VDict [("status", VStr "success"); ("message", VStr url);
                      ("path", VStr first);
                      ("all_images", VList (map VStr paths))])
       | Raise e => Raise e
       end,
       (tr ++ [EvS3Upload job_id first])%list)) /\
  (forall first others,
      paths = first :: others ->
      bucket_configured E = false ->
      process_output_images E outputs job_id =
      (match read_file E first with
       | Ok content =>
           Ok (VDict [("status", VStr "success");
                      ("message", VStr (b64encode E content));
                      ("path", VStr first);
                      ("all_images", VList (map VStr paths))])
       | Raise e => Raise e
       end,
       (tr ++ [EvReadFile first])%list)).
Proof.
  intros Hcollect. unfold process_output_images.
  rewrite (bind_run _ _ _ _ Hcollect). repeat split.
  - intros ->. cbn. rewrite app_nil_r. reflexivity.
  - intros first others -> Hbucket. rewrite Hbucket, bind_emit.
    destruct (rp_upload_image E job_id first) as [url|e];
      cbn; reflexivity.
  - intros first others -> Hbucket. rewrite Hbucket.
    unfold base64_encode. rewrite bind_emit.
    destruct (read_file E first) as [content|e]; cbn; reflexivity.
Qed.

(** X14. Once the paths are collected, [process_output_images] uses the first
    one only: with no path it returns the "No output images found" error and
    neither reads a file nor calls the object storage; with a bucket
    configured it hands the first path to the storage upload and returns the
    URL without reading the file; otherwise it reads the first path and
    returns its base64 encoding.  [all_images] lists every collected path. *)
Theorem process_output_images_policy E outputs job_id paths tr :
  collect_image_paths E outputs = (Ok paths, tr) ->
  (paths = [] ->
   process_output_images E outputs job_id =
   (Ok (VDict [("status", VStr "error");
               ("message",
                VStr "No output images found in the output directory")]),
    tr)) /\
  (forall first others,
      paths = first :: others ->
      bucket_configured E = true ->
      process_output_images E outputs job_id =
      (match rp_upload_image E job_id first with
       | Ok url =>
           Ok (VDict [("status", VStr "success"); ("message", VStr url);
                      ("path", VStr first);
                      ("all_images", VList (map VStr paths))])
       | Raise e => Raise e
       end,
       (tr ++ [EvS3Upload job_id first])%list)) /\
  (forall first others,
      paths = first :: others ->
      bucket_configured E = false ->
      process_output_images E outputs job_id =
      (match read_file E first with
       | Ok content =>
           Ok (VDict [("status", VStr "success");
                      ("message", VStr (b64encode E content));
                      ("path", VStr first);
                      ("all_images", VList (map VStr paths))])
       | Raise e => Raise e
       end,
       (tr ++ [EvReadFile first])%list)).
Proof. exact (process_output_images_cases E outputs job_id paths tr). Qed.

Lemma process_output_images_policy_witness :
  process_output_images sample_env sample_outputs (VStr "j1") =
  (Ok (VDict [("status", VStr "success"); ("message", VStr "iVBORw==");
              ("path", VStr "/comfyui/output/out.png");
              ("all_images", VList [VStr "/comfyui/output/out.png"])]),
   [EvPathExists "/comfyui/output/out.png";
    EvReadFile "/comfyui/output/out.png"]) /\
  process_output_images (with_bucket sample_env (Some "https://s3.example"))
    sample_outputs (VStr "j1") =
  (Ok (VDict [("status", VStr "success");
              ("message", VStr "https://bucket.example/out.png");
              ("path", VStr "/comfyui/output/out.png");
              ("all_images", VList [VStr "/comfyui/output/out.png"])]),
   [EvPathExists "/comfyui/output/out.png";
    EvS3Upload (VStr "j1") "/comfyui/output/out.png"]) /\
  process_output_images (with_empty_disk sample_env) sample_outputs (VStr "j1") =
  (Ok (VDict [("status", VStr "error");
              ("message",
               VStr "No output images found in the output directory")]),
   [EvPathExists "/comfyui/output/out.png"; EvTime;
    EvWalk "/comfyui/output"]).
Proof.
  split; [|split].
  - exact (proj2 (proj2 (process_output_images_policy sample_env sample_outputs
                           (VStr "j1") ["/comfyui/output/out.png"]
                           [EvPathExists "/comfyui/output/out.png"] eq_refl))
             "/comfyui/output/out.png" [] eq_refl eq_refl).
  - exact (proj1 (proj2 (process_output_images_policy
                           (with_bucket sample_env (Some "https://s3.example"))
                           sample_outputs
                           (VStr "j1") ["/comfyui/output/out.png"]
                           [EvPathExists "/comfyui/output/out.png"] eq_refl))
             "/comfyui/output/out.png" [] eq_refl eq_refl).
  - exact (proj1 (process_output_images_policy (with_empty_disk sample_env)
                    sample_outputs (VStr "j1") []
                    [EvPathExists "/comfyui/output/out.png"; EvTime;
                     EvWalk "/comfyui/output"] eq_refl)
             eq_refl).
Defined.

Lemma process_output_images_is_mapping E outputs job_id images_result :
  result (process_output_images E outputs job_id) = Ok images_result ->
  exists r, images_result = VDict r /\ dict_get r "refresh_worker" = None.
Proof.
  destruct (collect_image_paths E outputs) as [[paths|e] tr] eqn:Hcollect.
  - destruct (process_output_images_cases E outputs job_id paths tr Hcollect)
      as (Hnone & Hbucket & Hfile).
    destruct paths as [|first others].
    + rewrite (Hnone eq_refl). intros [= <-]. eexists. split; reflexivity.
    + destruct (bucket_configured E) eqn:Hb.
      * rewrite (Hbucket first others eq_refl eq_refl). cbn [result fst].
        destruct (rp_upload_image E job_id first); [|discriminate].
        intros [= <-]. eexists. split; reflexivity.
      * rewrite (Hfile first others eq_refl eq_refl). cbn [result fst].
        destruct (read_file E first); [|discriminate].
        intros [= <-]. eexists. split; reflexivity.
  - unfold process_output_images. rewrite Hcollect. discriminate.
Qed.

Lemma dict_set_fresh d k v :
  dict_get d k = None -> dict_set d k v = (d ++ [(k, v)])%list.
Proof.
  induction d as [|[k0 v0] d IH]; cbn [dict_get dict_set app]; [reflexivity|].
  destruct (String.eqb k0 k); [discriminate|].
  intros H. rewrite IH by exact H. reflexivity.
Qed.

Lemma poll_inr_inv E prompt_id history tp :
  poll E prompt_id = (Ok (inr history), tp) ->
  has_outputs prompt_id history = Ok true.
Proof.
  unfold poll.
  destruct (poll_loop_invariant E prompt_id
              (Z.to_nat (COMFY_POLLING_MAX_RETRIES E)) O) as [_ Hpost].
  destruct (poll_loop E prompt_id (Z.to_nat (COMFY_POLLING_MAX_RETRIES E)) O)
    as [[[h|]|e] tr]; cbn; try discriminate.
  intros [= <- _]. apply Hpost. reflexivity.
Qed.

(** ** The handler after a completed wait *)

(** X15. When validation, injection or upload, submission and polling all
    succeed, the handler resolves the outputs of the polled record and returns
    the resolver's result with the key [refresh_worker] appended; this holds
    for the resolver's "No output images found" error result as well.  An
    exception raised by the resolver leaves the handler. *)
Theorem handler_success_result
  E job workflow images tr job_id workflow' ti prompt_id ts history tp :
  reaches_pipeline E job workflow images tr ->
  py_getitem job (VStr "id") = Ok job_id ->
  inject_or_upload E workflow images = (Ok (inr workflow'), ti) ->
  submit E workflow' = (Ok (inr prompt_id), ts) ->
  poll E prompt_id = (Ok (inr history), tp) ->
  exists outputs,
    history_outputs prompt_id history = Ok outputs /\
    truthy outputs = true /\
    trace (handler E job) =
      (tr ++ ti ++ ts ++ tp
          ++ trace (process_output_images E outputs job_id))%list /\
    (forall e,
        result (process_output_images E outputs job_id) = Raise e ->
        result (handler E job) = Raise e) /\
    (forall images_result,
        result (process_output_images E outputs job_id) = Ok images_result ->
        exists r,
          images_result = VDict r /\
          result (handler E job) =
          Ok (VDict (r ++ [("refresh_worker", VBool (REFRESH_WORKER E))])%list)).
Proof.
  intros Hreach Hid Hinject Hsubmit Hpoll.
  destruct (has_outputs_true_inv _ _ (poll_inr_inv _ _ _ _ Hpoll))
    as (outputs & Hout & Htruthy).
  exists outputs. split; [exact Hout|]. split; [exact Htruthy|].
  unfold history_outputs in Hout.
  destruct (py_getitem history prompt_id) as [entry|e0] eqn:Hentry;
    cbn [rbind] in Hout; [|discriminate].
  rewrite (handler_validated _ _ _ _ _ Hreach). unfold handler_after_probe.
  rewrite (bind_run _ _ _ _ Hinject), (bind_run _ _ _ _ Hsubmit).
  rewrite (bind_run _ _ _ _ Hpoll).
  rewrite Hentry, bind_lift_ok, Hout, bind_lift_ok, Hid, bind_lift_ok.
  cbn [result trace fst snd].
  destruct (process_output_images E outputs job_id) as [[images_result|e] t]
    eqn:Hprocess; cbn [bind result trace fst snd].
  - split; [|split; [discriminate|]].
    + destruct (lift (py_setitem images_result "refresh_worker"
                        (VBool (REFRESH_WORKER E)))) as [r0 t0] eqn:Hl.
      unfold lift in Hl. injection Hl as _ <-.
      cbn [snd]. rewrite !app_nil_r. reflexivity.
    + intros ir [= <-].
      destruct (process_output_images_is_mapping E outputs job_id images_result)
        as (r & -> & Hfresh); [rewrite Hprocess; reflexivity|].
      exists r. split; [reflexivity|].
      cbn [py_setitem lift fst]. rewrite (dict_set_fresh _ _ _ Hfresh).
      reflexivity.
  - split; [reflexivity|]. split; [|discriminate].
    intros e' [= <-]. reflexivity.
Qed.

Lemma handler_success_result_witness :
  result (handler sample_env success_job) =
  Ok (VDict [("status", VStr "success"); ("message", VStr "iVBORw==");
             ("path", VStr "/comfyui/output/out.png");
             ("all_images", VList [VStr "/comfyui/output/out.png"]);
             ("refresh_worker", VBool false)]).
Proof.
  destruct (handler_success_result sample_env success_job base64_workflow
              success_images sample_probe_trace (VStr "j1") injected_workflow
              [] (VStr "p1")
              [EvPostPrompt (VDict [("prompt", injected_workflow)])]
              populated_history
              [EvGetHistory (VStr "p1"); EvSleep 250;
               EvGetHistory (VStr "p1"); EvSleep 250;
               EvGetHistory (VStr "p1")])
    as (outputs & Hout & _ & _ & _ & Hok).
  - exists (VDict [("workflow", base64_workflow); ("images", success_images)]),
      (VStr "j1"), [].
    repeat split.
  - reflexivity.
  - reflexivity.
  - reflexivity.
  - reflexivity.
  - injection Hout as <-.
    destruct (Hok _ eq_refl) as (r & Hr & Hres).
    injection Hr as <-. exact Hres.
Defined.

(** ** Data URLs and injection *)

(** X16. Stripping only ever removes a prefix: the result is a suffix of the
    input, and when something is removed the input started with "data:" and
    the removed part ends with the first comma. *)
Theorem strip_data_url_suffix (image_data : string) :
  exists removed,
    image_data = removed ++ strip_data_url image_data /\
    (removed = "" \/
     (startswith image_data "data:" = true /\
      exists before,
        removed = before ++ "," /\ forall a b, before <> a ++ "," ++ b)).
Proof.
  unfold strip_data_url.
  destruct (startswith image_data "data:") eqn:Hstart;
    [|exists ""; auto].
  destruct (find_char "," image_data) as [i|] eqn:Hfind; [|exists ""; auto].
  destruct (find_char_split _ _ _ Hfind) as (pre & rest & Heq & Hpre & _ & ->).
  exists (pre ++ ","). split.
  - rewrite string_app_assoc. exact Heq.
  - right. split; [reflexivity|]. exists pre. split; [reflexivity|].
    exact (find_char_none _ _ Hpre).
Qed.

Lemma inject_scan_ignores_rest workflow items image rest rest' :
  inject_scan workflow items (VList (image :: rest))
  = inject_scan workflow items (VList (image :: rest')).
Proof.
  revert workflow. induction items as [|[node_id node_data] items IH];
    intros workflow; [reflexivity|].
  cbn [inject_scan].
  destruct (py_get node_data "class_type") as [class_type|e];
    cbn [rbind]; [|reflexivity].
  destruct (is_base64_class class_type); [|apply IH].
  change (inject_first_image workflow node_id (VList (image :: rest)))
    with (inject_first_image workflow node_id (VList (image :: rest'))).
  destruct (inject_first_image workflow node_id (VList (image :: rest')))
    as [[workflow' found]|e]; cbn [rbind]; [|reflexivity].
  destruct found; [reflexivity|apply IH].
Qed.

(** X17. When a node takes the injection, only the first image is used: the
    injected workflow does not depend on the images after the first, none of
    them is uploaded, and no call is made. *)
Theorem injection_uses_first_image_only
  E workflow items image rest rest' workflow' :
  py_items workflow = Ok items ->
  inject_scan workflow items (VList (image :: rest)) = Ok (workflow', true) ->
  inject_or_upload E workflow (VList (image :: rest'))
  = (Ok (inr workflow'), []).
Proof.
  intros Hitems Hscan. unfold inject_or_upload. cbn [truthy].
  rewrite Hitems, bind_lift_ok.
  rewrite (inject_scan_ignores_rest workflow items image rest' rest), Hscan.
  rewrite bind_lift_ok. reflexivity.
Qed.

Lemma injection_uses_first_image_only_witness :
  inject_or_upload sample_env base64_workflow
    (VList [image_input "in.png" "data:image/png;base64,iVBORw0KGgo=";
            image_input "bad.png" "AAAA"; image_input "cut.png" "A"])
  = (Ok (inr injected_workflow), []).
Proof.
  exact (injection_uses_first_image_only sample_env base64_workflow
           [("1", node "KSampler" [("seed", VInt 5)]);
            ("2", node "LoadImageFromBase64" [("data", VStr "")]);
            ("5", node "Base64ToImage" []);
            ("9", node "SaveImage" [("images", VList [VStr "2"; VInt 0])])]
           (image_input "in.png" "data:image/png;base64,iVBORw0KGgo=")
           []
           [image_input "bad.png" "AAAA"; image_input "cut.png" "A"]
           injected_workflow eq_refl eq_refl).
Defined.

Lemma inject_scan_reaches workflow before node_id nd after images :
  Forall (fun kv => is_node_definition (snd kv) = true) before ->
  Forall (fun kv => accepts_base64 (snd kv) = false) before ->
  accepts_base64 (VDict nd) = true ->
  inject_scan workflow (before ++ (node_id, VDict nd) :: after) images =
  rbind (inject_first_image workflow node_id images)
    (fun r =>
       let '(workflow', base64_nodes_found) := r in
       if base64_nodes_found then Ok (workflow', true)
       else inject_scan workflow' after images).
Proof.
  intros Hdef Hno Hyes.
  induction before as [|[k node_data] before IH]; cbn [app].
  - cbn [inject_scan py_get py_get_default rbind].
    fold (dict_field nd "class_type"). cbn [accepts_base64] in Hyes.
    rewrite Hyes. reflexivity.
  - inversion Hdef as [|? ? Hd Hdef']; inversion Hno as [|? ? Hn Hno']; subst.
    cbn [snd] in Hd, Hn.
    destruct (node_definition_inv _ Hd) as (nd0 & _ & _ & -> & _).
    rewrite inject_scan_skip by exact Hn. auto.
Qed.

(** X18. A node of an inline-base64 class that has no [inputs] key makes the
    injection raise [KeyError]: nothing is injected, nothing is uploaded, and
    the exception is not caught by the handler's image step. *)
Theorem injection_needs_inputs E before node_id nd after image name s rest :
  NoDup (map fst (before ++ (node_id, VDict nd) :: after)) ->
  Forall (fun kv => is_node_definition (snd kv) = true) before ->
  Forall (fun kv => accepts_base64 (snd kv) = false) before ->
  accepts_base64 (VDict nd) = true ->
  dict_get nd "inputs" = None ->
  image_fields image name s ->
  inject_or_upload E (VDict (before ++ (node_id, VDict nd) :: after))
    (VList (image :: rest))
  = (Raise (Exn KeyError "'inputs'"), []).
Proof.
  intros Hnodup Hdef Hno Hyes Hinputs [_ Himage].
  assert (Hfresh : ~ In node_id (map fst before)).
  { rewrite map_app in Hnodup. cbn [map fst] in Hnodup.
    apply NoDup_remove_2 in Hnodup. rewrite in_app_iff in Hnodup. tauto. }
  unfold inject_or_upload. cbn [truthy py_items]. rewrite bind_lift_ok.
  rewrite (inject_scan_reaches _ before node_id nd after _ Hdef Hno Hyes).
  unfold inject_first_image. cbn [py_iter rbind]. rewrite Himage.
  cbn [rbind py_strip_data_url py_getitem hashable].
  rewrite (dict_get_middle _ _ _ _ Hfresh). cbn [rbind py_getitem hashable].
  rewrite Hinputs. reflexivity.
Qed.

Lemma injection_needs_inputs_witness :
  inject_or_upload sample_env (VDict no_inputs_workflow) success_images
  = (Raise (Exn KeyError "'inputs'"), []).
Proof.
  refine (injection_needs_inputs sample_env
            [("1", node "KSampler" [("seed", VInt 5)])] "2"
            [("class_type", VStr "LoadImageFromBase64")] []
            (image_input "in.png" "data:image/png;base64,iVBORw0KGgo=")
            (VStr "in.png") "data:image/png;base64,iVBORw0KGgo=" []
            _ _ _ eq_refl eq_refl _).
  - repeat (constructor; [cbn; intuition discriminate|]). constructor.
  - repeat constructor.
  - repeat constructor.
  - split; reflexivity.
Defined.

(** ** The order of the external calls *)

Section TraceClasses.

Variable P : event -> Prop.






End TraceClasses.















